(** * Council: the strategy-driven portfolio simulation engine

    A shallow embedding of the execution engine and run loop of
    [backend/src/agents/base.py], the accounting model of
    [backend/src/db/models.py], the risk-parity allocator of
    [backend/src/agents/dalio.py] and the deep-value valuation of
    [backend/src/agents/graham.py].

    Numbers.  Python's [float] is modelled by the rationals [Q]: every
    arithmetic operation is exact, equality of amounts is [Qeq] ([==]).
    What is proved over this model is what the program computes in exact
    arithmetic.  Where the rounding of IEEE doubles changes the outcome, the
    same steps are evaluated on the kernel's binary64 floats (module
    [Binary64]).  [int(x)] is truncation toward zero, and a float division by
    zero raises [ZeroDivisionError].

    Effects.  Python mutates the portfolio and the recommendation objects in
    place; here every operation takes them and gives back their new values
    (explicit state passing) together with the world: the repository, the
    clock and the identifier supply. *)

From Stdlib Require Import QArith Qround Qabs Qminmax ZArith List String Bool Lia Lqa.
From Stdlib Require Import PrimFloat SpecFloat FloatOps.
Import ListNotations.
Open Scope Q_scope.

(** A decimal literal of a double denotes the nearest double, as in Python. *)
Set Warnings "-inexact-float".

(** ** Python primitives *)

Inductive exn : Type := ZeroDivisionError | OverflowError | ValueError.

Inductive result (A : Type) : Type :=
| Return (a : A)
| Raise (e : exn).
Arguments Return {A} a.
Arguments Raise {A} e.

Definition bind {A B : Type} (m : result A) (k : A -> result B) : result B :=
  match m with
  | Return a => k a
  | Raise e => Raise e
  end.

Notation "x <- m ;; k" := (bind m (fun x => k))
  (at level 61, m at next level, right associativity).

(** [a < b], [a <= b], [a > b], [a >= b] on floats. *)
Definition py_lt (a b : Q) : bool := negb (Qle_bool b a).
Definition py_le (a b : Q) : bool := Qle_bool a b.
Definition py_gt (a b : Q) : bool := py_lt b a.
Definition py_ge (a b : Q) : bool := py_le b a.

(** [a / b]: raises on a zero divisor; the quotient is exact. *)
Definition py_div (a b : Q) : result Q :=
  if Qeq_bool b 0 then Raise ZeroDivisionError else Return (a / b).

(** [int(x)]: truncation toward zero. *)
Definition py_int (x : Q) : Z := Z.quot (Qnum x) (Zpos (Qden x)).

(** [min(a, b)] and [max(a, b)]: the first argument wins ties. *)
Definition py_min (a b : Q) : Q := if py_lt b a then b else a.
Definition py_max (a b : Q) : Q := if py_gt b a then b else a.

(** [str(uuid.uuid4())]: a draw from a counter. *)
Definition uuid : Type := nat.

(** [datetime]: a reading of the world's clock. *)
Definition datetime : Type := nat.

(** ** The data model ([db/models.py]) *)

Inductive AgentType : Type := BUFFETT | GRAHAM | LYNCH | DALIO | BOGLE | WOOD.

Inductive TransactionType : Type := BUY | SELL | DIVIDEND.

Definition TransactionType_value (t : TransactionType) : string :=
  match t with
  | BUY => "buy"
  | SELL => "sell"
  | DIVIDEND => "dividend"
  end%string.

Definition AgentType_eqb (a b : AgentType) : bool :=
  match a, b with
  | BUFFETT, BUFFETT | GRAHAM, GRAHAM | LYNCH, LYNCH
  | DALIO, DALIO | BOGLE, BOGLE | WOOD, WOOD => true
  | _, _ => false
  end.

(** The text of a recommendation.  The f-strings of the strategies are kept
    as their template and arguments rather than formatted. *)
Inductive Reasoning : Type :=
| Text (s : string)
| RebalanceNote (current_weight target_weight : Q)
| InitialAllocationNote (weight : Q).

Module Position.
Record t : Type := mk {
  symbol : string;
  shares : Q;
  avg_cost : Q;
  current_price : Q
}.

Definition market_value (self : t) : Q := shares self * current_price self.


Definition gain_loss_pct (self : t) : Q :=
  if Qeq_bool (avg_cost self) 0 then 0
  else (current_price self - avg_cost self) / avg_cost self.
End Position.

Module Portfolio.
Record t : Type := mk {
  portfolio_id : uuid;
  user_id : string;
  agent_type : AgentType;
  cash : Q;
  positions : list Position.t;
  created_at : datetime;
  updated_at : datetime
}.

(** [sum(p.market_value for p in self.positions)] adds from the left,
    starting at 0. *)
Definition positions_value (l : list Position.t) : Q :=
  fold_left (fun acc p => acc + Position.market_value p) l 0.

Definition total_value (self : t) : Q := cash self + positions_value (positions self).

Definition set_cash (self : t) (c : Q) : t :=
  mk (portfolio_id self) (user_id self) (agent_type self) c (positions self)
     (created_at self) (updated_at self).

Definition set_positions (self : t) (l : list Position.t) : t :=
  mk (portfolio_id self) (user_id self) (agent_type self) (cash self) l
     (created_at self) (updated_at self).

Definition set_updated_at (self : t) (d : datetime) : t :=
  mk (portfolio_id self) (user_id self) (agent_type self) (cash self)
     (positions self) (created_at self) d.
End Portfolio.

Module Transaction.
Record t : Type := mk {
  transaction_id : uuid;
  portfolio_id : uuid;
  user_id : string;
  agent_type : AgentType;
  transaction_type : TransactionType;
  symbol : string;
  shares : Q;
  price : Q;
  reasoning : Reasoning;
  created_at : datetime
}.

Definition total_value (self : t) : Q := shares self * price self.
End Transaction.

Module TradeRecommendation.
Record t : Type := mk {
  action : TransactionType;
  symbol : string;
  shares : Q;
  reasoning : Reasoning;
  confidence : Q
}.

Definition set_shares (self : t) (s : Q) : t :=
  mk (action self) (symbol self) s (reasoning self) (confidence self).

(** [to_dict]: the same five entries, the action by its value. *)
Record dict : Type := mk_dict {
  d_action : string;
  d_symbol : string;
  d_shares : Q;
  d_reasoning : Reasoning;
  d_confidence : Q
}.

Definition to_dict (self : t) : dict :=
  mk_dict (TransactionType_value (action self)) (symbol self) (shares self)
          (reasoning self) (confidence self).
End TradeRecommendation.

Module AgentRun.
Record t : Type := mk {
  run_id : uuid;
  agent_type : AgentType;
  run_date : datetime;
  analysis : string;
  recommendations : list TradeRecommendation.dict;
  executed_trades : list uuid;
  portfolio_value_before : Q;
  portfolio_value_after : Q;
  duration_seconds : nat
}.
End AgentRun.

(** The fundamentals snapshot ([data/yfinance_client.py]), with the ratios
    the modelled strategies read. *)
Module StockFundamentals.
Record t : Type := mk {
  symbol : string;
  price : Q;
  pe_ratio : option Q;
  pb_ratio : option Q;
  current_ratio : option Q;
  debt_to_equity : option Q;
  earnings_growth : option Q
}.
End StockFundamentals.

(** ** The world outside the engine *)

(** The repository (one table, [put_item] replaces the item of the same key),
    the clock behind [datetime.utcnow()], the identifier supply behind
    [uuid.uuid4()].  [engine_calls] is instrumentation: the recommendations
    [_execute_trade] was invoked with, oldest first. *)
Record World : Type := mkWorld {
  db_portfolios : list Portfolio.t;
  db_transactions : list Transaction.t;
  db_runs : list AgentRun.t;
  clock : datetime;
  uuid_next : uuid;
  engine_calls : list TradeRecommendation.t
}.

Definition utcnow (w : World) : datetime * World :=
  (clock w,
   mkWorld (db_portfolios w) (db_transactions w) (db_runs w) (S (clock w))
           (uuid_next w) (engine_calls w)).

Definition uuid4 (w : World) : uuid * World :=
  (uuid_next w,
   mkWorld (db_portfolios w) (db_transactions w) (db_runs w) (clock w)
           (S (uuid_next w)) (engine_calls w)).

Definition record_call (w : World) (r : TradeRecommendation.t) : World :=
  mkWorld (db_portfolios w) (db_transactions w) (db_runs w) (clock w)
          (uuid_next w) (engine_calls w ++ [r]).

Definition same_key (user : string) (a : AgentType) (p : Portfolio.t) : bool :=
  String.eqb (Portfolio.user_id p) user && AgentType_eqb (Portfolio.agent_type p) a.

Definition get_portfolio (w : World) (user : string) (a : AgentType)
  : option Portfolio.t :=
  find (same_key user a) (db_portfolios w).

Definition save_portfolio (w : World) (p : Portfolio.t) : World :=
  mkWorld
    (p :: filter (fun q => negb (same_key (Portfolio.user_id p) (Portfolio.agent_type p) q))
                 (db_portfolios w))
    (db_transactions w) (db_runs w) (clock w) (uuid_next w) (engine_calls w).

Definition save_transaction (w : World) (t : Transaction.t) : World :=
  mkWorld (db_portfolios w) (db_transactions w ++ [t]) (db_runs w) (clock w)
          (uuid_next w) (engine_calls w).

Definition save_agent_run (w : World) (r : AgentRun.t) : World :=
  mkWorld (db_portfolios w) (db_transactions w) (db_runs w ++ [r]) (clock w)
          (uuid_next w) (engine_calls w).

(** ** Positions of a portfolio *)

(** [next((p for p in positions if p.symbol == symbol), None)] *)
Definition find_position (symbol : string) (l : list Position.t) : option Position.t :=
  find (fun p => String.eqb (Position.symbol p) symbol) l.

(** Assignments to the fields of [existing] change the object inside the
    list: the first position of that symbol is replaced. *)
Fixpoint replace_position (symbol : string) (new : Position.t) (l : list Position.t)
  : list Position.t :=
  match l with
  | [] => []
  | p :: rest =>
      if String.eqb (Position.symbol p) symbol then new :: rest
      else p :: replace_position symbol new rest
  end.

(** [[p for p in positions if p.symbol != symbol]] *)
Definition remove_symbol (symbol : string) (l : list Position.t) : list Position.t :=
  filter (fun p => negb (String.eqb (Position.symbol p) symbol)) l.

(** ** The base agent ([agents/base.py]) *)

(** What a call of [_execute_trade] leaves behind: the world, the portfolio
    and the recommendation as mutated so far, and what the call returned
    ([None] for a declined trade) or raised. *)
Record Outcome : Type := mkOutcome {
  out_world : World;
  out_portfolio : Portfolio.t;
  out_recommendation : TradeRecommendation.t;
  out_result : result (option Transaction.t)
}.

Section BaseAgent.

(** The class attributes and collaborators of an agent: its type, the data
    client, the configured starting cash and the two abstract methods. *)
Variable agent_type : AgentType.
Variable get_fundamentals : string -> option StockFundamentals.t.
Variable starting_portfolio_value : Q.
Variable analyze_market : string.
Variable generate_recommendations : Portfolio.t -> result (list TradeRecommendation.t).

(** Lines 244-264: stamp the portfolio, build the transaction from the
    recommendation as it is now, save it, return it. *)
Definition complete_trade (w : World) (portfolio : Portfolio.t)
  (recommendation : TradeRecommendation.t) (price : Q) : Outcome :=
  let '(now, w) := utcnow w in
  let portfolio := Portfolio.set_updated_at portfolio now in
  let '(id, w) := uuid4 w in
  let '(created, w) := utcnow w in
  let txn :=
    Transaction.mk id (Portfolio.portfolio_id portfolio) (Portfolio.user_id portfolio)
      agent_type (TradeRecommendation.action recommendation)
      (TradeRecommendation.symbol recommendation)
      (TradeRecommendation.shares recommendation) price
      (TradeRecommendation.reasoning recommendation) created in
  let w := save_transaction w txn in
  mkOutcome w portfolio recommendation (Return (Some txn)).

(** Lines 205-223: pay, then average into the held position or open one. *)
Definition settle_buy (w : World) (portfolio : Portfolio.t)
  (recommendation : TradeRecommendation.t) (price total_cost : Q) : Outcome :=
  let portfolio := Portfolio.set_cash portfolio (Portfolio.cash portfolio - total_cost) in
  let symbol := TradeRecommendation.symbol recommendation in
  match find_position symbol (Portfolio.positions portfolio) with
  | Some existing =>
      let total_shares := Position.shares existing + TradeRecommendation.shares recommendation in
      let total_invested := Position.shares existing * Position.avg_cost existing + total_cost in
      match py_div total_invested total_shares with
      | Raise e => mkOutcome w portfolio recommendation (Raise e)
      | Return avg =>
          let existing := Position.mk (Position.symbol existing) total_shares avg price in
          let portfolio :=
            Portfolio.set_positions portfolio
              (replace_position symbol existing (Portfolio.positions portfolio)) in
          complete_trade w portfolio recommendation price
      end
  | None =>
      let portfolio :=
        Portfolio.set_positions portfolio
          (Portfolio.positions portfolio ++
           [Position.mk symbol (TradeRecommendation.shares recommendation) price price]) in
      complete_trade w portfolio recommendation price
  end.

(** Lines 225-242: sell no more than is held, drop an emptied position. *)
Definition settle_sell (w : World) (portfolio : Portfolio.t)
  (recommendation : TradeRecommendation.t) (price : Q) : Outcome :=
  let symbol := TradeRecommendation.symbol recommendation in
  match find_position symbol (Portfolio.positions portfolio) with
  | None => mkOutcome w portfolio recommendation (Return None)
  | Some existing =>
      let shares_to_sell :=
        py_min (TradeRecommendation.shares recommendation) (Position.shares existing) in
      let proceeds := shares_to_sell * price in
      let portfolio := Portfolio.set_cash portfolio (Portfolio.cash portfolio + proceeds) in
      let existing :=
        Position.mk (Position.symbol existing) (Position.shares existing - shares_to_sell)
                    (Position.avg_cost existing) (Position.current_price existing) in
      let portfolio :=
        Portfolio.set_positions portfolio
          (replace_position symbol existing (Portfolio.positions portfolio)) in
      let portfolio :=
        if py_le (Position.shares existing) 0 then
          Portfolio.set_positions portfolio (remove_symbol symbol (Portfolio.positions portfolio))
        else portfolio in
      complete_trade w portfolio recommendation price
  end.

Definition _execute_trade (w : World) (portfolio : Portfolio.t)
  (recommendation : TradeRecommendation.t) : Outcome :=
  let w := record_call w recommendation in
  match get_fundamentals (TradeRecommendation.symbol recommendation) with
  | None => mkOutcome w portfolio recommendation (Return None)
  | Some data =>
      let price := StockFundamentals.price data in
      let total_cost := price * TradeRecommendation.shares recommendation in
      match TradeRecommendation.action recommendation with
      | BUY =>
          if py_gt total_cost (Portfolio.cash portfolio) then
            match py_div (Portfolio.cash portfolio) price with
            | Raise e => mkOutcome w portfolio recommendation (Raise e)
            | Return q =>
                let affordable_shares := py_int q in
                if (affordable_shares <=? 0)%Z then
                  mkOutcome w portfolio recommendation (Return None)
                else
                  let recommendation :=
                    TradeRecommendation.set_shares recommendation (inject_Z affordable_shares) in
                  let total_cost := price * inject_Z affordable_shares in
                  settle_buy w portfolio recommendation price total_cost
            end
          else settle_buy w portfolio recommendation price total_cost
      | SELL => settle_sell w portfolio recommendation price
      | DIVIDEND => complete_trade w portfolio recommendation price
      end
  end.

Definition _initialize_portfolio (w : World) (user_id : string) : Portfolio.t * World :=
  let '(id, w) := uuid4 w in
  let '(created, w) := utcnow w in
  let '(updated, w) := utcnow w in
  let portfolio :=
    Portfolio.mk id user_id agent_type starting_portfolio_value [] created updated in
  (portfolio, save_portfolio w portfolio).

Definition _update_portfolio_prices (portfolio : Portfolio.t) : Portfolio.t :=
  Portfolio.set_positions portfolio
    (map (fun position =>
            match get_fundamentals (Position.symbol position) with
            | Some data =>
                Position.mk (Position.symbol position) (Position.shares position)
                  (Position.avg_cost position) (StockFundamentals.price data)
            | None => position
            end)
         (Portfolio.positions portfolio)).

(** The confidence gate of [run]. *)
Definition CONFIDENCE_THRESHOLD : Q := 7 # 10.

(** What the loop of lines 122-127 leaves behind.  The recommendation
    objects stay in the list they came in; a clamped buy changes its element. *)
Record LoopState : Type := mkLoop {
  loop_world : World;
  loop_portfolio : Portfolio.t;
  loop_recommendations : list TradeRecommendation.t;
  loop_result : result (list uuid)
}.

Fixpoint execute_recommendations (w : World) (portfolio : Portfolio.t)
  (recommendations : list TradeRecommendation.t) (executed_trades : list uuid)
  : LoopState :=
  match recommendations with
  | [] => mkLoop w portfolio [] (Return executed_trades)
  | rec :: rest =>
      if py_ge (TradeRecommendation.confidence rec) CONFIDENCE_THRESHOLD then
        let o := _execute_trade w portfolio rec in
        match out_result o with
        | Raise e =>
            mkLoop (out_world o) (out_portfolio o) (out_recommendation o :: rest) (Raise e)
        | Return txn =>
            let executed_trades :=
              match txn with
              | Some t => executed_trades ++ [Transaction.transaction_id t]
              | None => executed_trades
              end in
            let s := execute_recommendations (out_world o) (out_portfolio o) rest executed_trades in
            mkLoop (loop_world s) (loop_portfolio s)
                   (out_recommendation o :: loop_recommendations s) (loop_result s)
        end
      else
        let s := execute_recommendations w portfolio rest executed_trades in
        mkLoop (loop_world s) (loop_portfolio s) (rec :: loop_recommendations s) (loop_result s)
  end.

(** Lines 109-111: the stored portfolio, or a new one. *)
Definition load_portfolio (w : World) (user_id : string) : Portfolio.t * World :=
  match get_portfolio w user_id agent_type with
  | Some portfolio => (portfolio, w)
  | None => _initialize_portfolio w user_id
  end.

(** [run]: load or create, refresh prices, analyse, recommend, execute what
    passes the gate, refresh again, persist the portfolio and the run. *)
Definition run (w : World) (user_id : string) : result AgentRun.t * World :=
  let '(start_time, w) := utcnow w in
  let '(portfolio, w) := load_portfolio w user_id in
  let portfolio := _update_portfolio_prices portfolio in
  let value_before := Portfolio.total_value portfolio in
  let analysis := analyze_market in
  match generate_recommendations portfolio with
  | Raise e => (Raise e, w)
  | Return recommendations =>
      let s := execute_recommendations w portfolio recommendations [] in
      match loop_result s with
      | Raise e => (Raise e, loop_world s)
      | Return executed_trades =>
          let w := loop_world s in
          let portfolio := _update_portfolio_prices (loop_portfolio s) in
          let value_after := Portfolio.total_value portfolio in
          let w := save_portfolio w portfolio in
          let '(finish, w) := utcnow w in
          let duration := (finish - start_time)%nat in
          let '(id, w) := uuid4 w in
          let run :=
            AgentRun.mk id agent_type start_time analysis
              (map TradeRecommendation.to_dict (loop_recommendations s))
              executed_trades value_before value_after duration in
          (Return run, save_agent_run w run)
      end
  end.

End BaseAgent.

(** ** The risk-parity allocator ([agents/dalio.py]) *)

Module Dalio.

(** The dict literal, in insertion order. *)
Definition ALL_WEATHER_ALLOCATION : list (string * Q) :=
  [ ("VTI", 30 # 100); ("TLT", 40 # 100); ("IEI", 15 # 100);
    ("GLD", 75 # 1000); ("DBC", 75 # 1000) ]%string.

Definition REBALANCE_THRESHOLD : Q := 5 # 100.

(** A [Dict[str, float]] as an association list: assignment overwrites the
    entry of the key or adds one at the end; [get] takes a default. *)
Fixpoint dict_set (d : list (string * Q)) (k : string) (v : Q) : list (string * Q) :=
  match d with
  | [] => [(k, v)]
  | (k', v') :: rest =>
      if String.eqb k' k then (k, v) :: rest else (k', v') :: dict_set rest k v
  end.

Definition dict_get (d : list (string * Q)) (k : string) (default : Q) : Q :=
  match find (fun kv => String.eqb (fst kv) k) d with
  | Some kv => snd kv
  | None => default
  end.

Section DalioAgent.

Variable get_fundamentals : string -> option StockFundamentals.t.

(** The division is by [total], which the guard has found positive. *)
Definition _calculate_current_allocation (portfolio : Portfolio.t) : list (string * Q) :=
  let total := Portfolio.total_value portfolio in
  if py_le total 0 then []
  else
    fold_left
      (fun allocation position =>
         dict_set allocation (Position.symbol position)
                  (Position.market_value position / total))
      (Portfolio.positions portfolio) [].

(** The body of the loop of lines 97-133 for one target asset:
    [recommendations] comes in and goes out, longer by at most one. *)
Definition rebalance_asset (portfolio : Portfolio.t) (current_allocation : list (string * Q))
  (total_value : Q) (recommendations : list TradeRecommendation.t)
  (item : string * Q) : result (list TradeRecommendation.t) :=
  let '(symbol, target_weight) := item in
  let current_weight := dict_get current_allocation symbol 0 in
  let drift := Qabs (current_weight - target_weight) in
  if py_gt drift REBALANCE_THRESHOLD then
    match get_fundamentals symbol with
    | None => Return recommendations
    | Some data =>
        let target_value := total_value * target_weight in
        let current_value := total_value * current_weight in
        if py_lt current_weight target_weight then
          let value_to_buy := target_value - current_value in
          q <- py_div value_to_buy (StockFundamentals.price data) ;;
          let shares := py_int q in
          if (0 <? shares)%Z && py_le value_to_buy (Portfolio.cash portfolio) then
            Return (recommendations ++
                    [TradeRecommendation.mk BUY symbol (inject_Z shares)
                       (RebalanceNote current_weight target_weight) (85 # 100)])
          else Return recommendations
        else
          let value_to_sell := current_value - target_value in
          q <- py_div value_to_sell (StockFundamentals.price data) ;;
          let shares := py_int q in
          let position := find_position symbol (Portfolio.positions portfolio) in
          if (0 <? shares)%Z &&
             match position with
             | Some position => py_ge (Position.shares position) (inject_Z shares)
             | None => false
             end
          then
            Return (recommendations ++
                    [TradeRecommendation.mk SELL symbol (inject_Z shares)
                       (RebalanceNote current_weight target_weight) (85 # 100)])
          else Return recommendations
    end
  else Return recommendations.

(** The loop itself, over the items of a target allocation. *)
Fixpoint rebalance (portfolio : Portfolio.t) (current_allocation : list (string * Q))
  (total_value : Q) (recommendations : list TradeRecommendation.t)
  (items : list (string * Q)) : result (list TradeRecommendation.t) :=
  match items with
  | [] => Return recommendations
  | item :: rest =>
      recommendations <-
        rebalance_asset portfolio current_allocation total_value recommendations item ;;
      rebalance portfolio current_allocation total_value recommendations rest
  end.

Fixpoint deploy_cash_loop (deployable : Q) (recommendations : list TradeRecommendation.t)
  (items : list (string * Q)) : result (list TradeRecommendation.t) :=
  match items with
  | [] => Return recommendations
  | (symbol, weight) :: rest =>
      match get_fundamentals symbol with
      | None => deploy_cash_loop deployable recommendations rest
      | Some data =>
          let allocation_amount := deployable * weight in
          q <- py_div allocation_amount (StockFundamentals.price data) ;;
          let shares := py_int q in
          if (0 <? shares)%Z then
            deploy_cash_loop deployable
              (recommendations ++
               [TradeRecommendation.mk BUY symbol (inject_Z shares)
                  (InitialAllocationNote weight) (9 # 10)])
              rest
          else deploy_cash_loop deployable recommendations rest
      end
  end.

Definition _deploy_cash (portfolio : Portfolio.t) : result (list TradeRecommendation.t) :=
  let deployable := Portfolio.cash portfolio * (9 # 10) in
  deploy_cash_loop deployable [] ALL_WEATHER_ALLOCATION.

Definition generate_recommendations (portfolio : Portfolio.t)
  : result (list TradeRecommendation.t) :=
  let current_allocation := _calculate_current_allocation portfolio in
  let total_value := Portfolio.total_value portfolio in
  recommendations <-
    rebalance portfolio current_allocation total_value [] ALL_WEATHER_ALLOCATION ;;
  if py_gt (Portfolio.cash portfolio) (Portfolio.total_value portfolio * (10 # 100)) then
    deployed <- _deploy_cash portfolio ;;
    Return (recommendations ++ deployed)
  else Return recommendations.

End DalioAgent.
End Dalio.

(** ** The deep-value screener ([agents/graham.py]) *)

Module Graham.

Definition MAX_PE : Q := 15.
Definition MAX_PB : Q := 15 # 10.
Definition MIN_CURRENT_RATIO : Q := 2.
Definition MAX_DEBT_EQUITY : Q := 50.
Definition MAX_POSITION_PCT : Q := 5 # 100.

(** Truth value of a float or an [Optional[float]]: [None] and [0.0] are
    false. *)
Definition truthy (o : option Q) : bool :=
  match o with
  | Some x => negb (Qeq_bool x 0)
  | None => false
  end.

Definition _passes_graham_screen (data : StockFundamentals.t) : bool :=
  match StockFundamentals.pe_ratio data with
  | None => false
  | Some pe =>
      if py_gt pe MAX_PE then false
      else if py_le pe 0 then false
      else
        match StockFundamentals.pb_ratio data with
        | None => false
        | Some pb =>
            if py_gt pb MAX_PB then false
            else
              match StockFundamentals.current_ratio data with
              | None => false
              | Some cr =>
                  if py_lt cr MIN_CURRENT_RATIO then false
                  else
                    match StockFundamentals.debt_to_equity data with
                    | None => false
                    | Some de => negb (py_gt de MAX_DEBT_EQUITY)
                    end
              end
        end
  end.

(** [V = EPS x (8.5 + 2g)].  The division is by a P/E the guard has found
    positive. *)
Definition _calculate_intrinsic_value (data : StockFundamentals.t) : Q :=
  match StockFundamentals.pe_ratio data with
  | None => 0
  | Some pe_ratio =>
      if negb (truthy (Some (StockFundamentals.price data)))
         || negb (truthy (Some pe_ratio)) || py_le pe_ratio 0
      then 0
      else
        let eps := StockFundamentals.price data / pe_ratio in
        let growth_rate :=
          if truthy (StockFundamentals.earnings_growth data) then
            match StockFundamentals.earnings_growth data with
            | Some earnings_growth => py_min 15 (py_max 0 (earnings_growth * 100))
            | None => 5
            end
          else 5 in
        eps * ((85 # 10) + 2 * growth_rate)
  end.

(** The division is by an intrinsic value the guard has found positive. *)
Definition _calculate_margin_of_safety (data : StockFundamentals.t) (intrinsic_value : Q) : Q :=
  if py_le intrinsic_value 0 || negb (truthy (Some (StockFundamentals.price data))) then 0
  else
    let margin := (intrinsic_value - StockFundamentals.price data) / intrinsic_value in
    py_max 0 margin.

Definition _calculate_position_size (portfolio : Portfolio.t) (data : StockFundamentals.t) : Z :=
  let max_position_value := Portfolio.total_value portfolio * MAX_POSITION_PCT in
  let available_cash := Portfolio.cash portfolio * (8 # 10) in
  let position_value := py_min max_position_value available_cash in
  if truthy (Some (StockFundamentals.price data)) && py_gt (StockFundamentals.price data) 0
  then py_int (position_value / StockFundamentals.price data)
  else 0%Z.

End Graham.

(** ** The same arithmetic on IEEE doubles *)

(** The arithmetic of the engine, of the accounting model and of the
    allocator once more, with Python's [float] as the interpreter has it:
    IEEE 754 binary64 (the kernel's primitive floats), every operation
    rounded to nearest.  The steps are those of the definitions above; the
    repository, the clock and the identifiers take no part in the arithmetic
    and are left out.  A whole number ([int]) meets a [float] through
    [of_int], which is exact below [2^53]. *)
Module Binary64.

Local Open Scope float_scope.

Definition py_lt (a b : float) : bool := a <? b.
Definition py_le (a b : float) : bool := a <=? b.
Definition py_gt (a b : float) : bool := b <? a.
Definition py_ge (a b : float) : bool := b <=? a.

(** [a / b]: raises on a zero divisor, rounds the quotient otherwise. *)
Definition py_div (a b : float) : result float :=
  if b =? 0 then Raise ZeroDivisionError else Return (a / b).

(** [int(x)]: truncation toward zero of a finite double; it raises on an
    infinity and on a NaN. *)
Definition py_int (x : float) : result Z :=
  match Prim2SF x with
  | S754_zero _ => Return 0%Z
  | S754_finite negative m e =>
      let magnitude :=
        if (0 <=? e)%Z then (Z.pos m * 2 ^ e)%Z else Z.quot (Z.pos m) (2 ^ (- e)) in
      Return (if negative then (- magnitude)%Z else magnitude)
  | S754_infinity _ => Raise OverflowError
  | S754_nan => Raise ValueError
  end.

(** The double nearest to a whole number. *)
Definition of_int (n : Z) : float := SF2Prim (binary_normalize prec emax n 0 false).

Definition py_min (a b : float) : float := if py_lt b a then b else a.
Definition py_max (a b : float) : float := if py_gt b a then b else a.

(** The rational number a finite double stands for. *)
Definition to_Q (x : float) : Q :=
  match Prim2SF x with
  | S754_finite negative m e =>
      let magnitude := (inject_Z (Z.pos m) * Qpower 2 e)%Q in
      if negative then (- magnitude)%Q else magnitude
  | _ => 0%Q
  end.

Inductive Reasoning : Type :=
| Text (s : string)
| RebalanceNote (current_weight target_weight : float)
| InitialAllocationNote (weight : float).

Module Position.
Record t : Type := mk {
  symbol : string;
  shares : float;
  avg_cost : float;
  current_price : float
}.

Definition market_value (self : t) : float := shares self * current_price self.
End Position.

Module Portfolio.
Record t : Type := mk {
  cash : float;
  positions : list Position.t
}.

Definition positions_value (l : list Position.t) : float :=
  fold_left (fun acc p => acc + Position.market_value p) l 0.

Definition total_value (self : t) : float := cash self + positions_value (positions self).

Definition set_cash (self : t) (c : float) : t := mk c (positions self).

Definition set_positions (self : t) (l : list Position.t) : t := mk (cash self) l.
End Portfolio.

Module Transaction.
Record t : Type := mk {
  transaction_type : TransactionType;
  symbol : string;
  shares : float;
  price : float;
  reasoning : Reasoning
}.
End Transaction.

Module TradeRecommendation.
Record t : Type := mk {
  action : TransactionType;
  symbol : string;
  shares : float;
  reasoning : Reasoning;
  confidence : float
}.

Definition set_shares (self : t) (s : float) : t :=
  mk (action self) (symbol self) s (reasoning self) (confidence self).
End TradeRecommendation.

(** The fundamentals, with what the engine, the allocator and the valuation
    read. *)
Module StockFundamentals.
Record t : Type := mk {
  symbol : string;
  price : float;
  pe_ratio : option float;
  earnings_growth : option float
}.
End StockFundamentals.

Definition find_position (symbol : string) (l : list Position.t) : option Position.t :=
  find (fun p => String.eqb (Position.symbol p) symbol) l.

Fixpoint replace_position (symbol : string) (new : Position.t) (l : list Position.t)
  : list Position.t :=
  match l with
  | [] => []
  | p :: rest =>
      if String.eqb (Position.symbol p) symbol then new :: rest
      else p :: replace_position symbol new rest
  end.

Definition remove_symbol (symbol : string) (l : list Position.t) : list Position.t :=
  filter (fun p => negb (String.eqb (Position.symbol p) symbol)) l.

Record Outcome : Type := mkOutcome {
  out_portfolio : Portfolio.t;
  out_recommendation : TradeRecommendation.t;
  out_result : result (option Transaction.t)
}.

Section BaseAgent.

Variable get_fundamentals : string -> option StockFundamentals.t.

(** Lines 246-264. *)
Definition complete_trade (portfolio : Portfolio.t)
  (recommendation : TradeRecommendation.t) (price : float) : Outcome :=
  let txn :=
    Transaction.mk (TradeRecommendation.action recommendation)
      (TradeRecommendation.symbol recommendation)
      (TradeRecommendation.shares recommendation) price
      (TradeRecommendation.reasoning recommendation) in
  mkOutcome portfolio recommendation (Return (Some txn)).

(** Lines 205-223. *)
Definition settle_buy (portfolio : Portfolio.t)
  (recommendation : TradeRecommendation.t) (price total_cost : float) : Outcome :=
  let portfolio := Portfolio.set_cash portfolio (Portfolio.cash portfolio - total_cost) in
  let symbol := TradeRecommendation.symbol recommendation in
  match find_position symbol (Portfolio.positions portfolio) with
  | Some existing =>
      let total_shares := Position.shares existing + TradeRecommendation.shares recommendation in
      let total_invested := Position.shares existing * Position.avg_cost existing + total_cost in
      match py_div total_invested total_shares with
      | Raise e => mkOutcome portfolio recommendation (Raise e)
      | Return avg =>
          let existing := Position.mk (Position.symbol existing) total_shares avg price in
          let portfolio :=
            Portfolio.set_positions portfolio
              (replace_position symbol existing (Portfolio.positions portfolio)) in
          complete_trade portfolio recommendation price
      end
  | None =>
      let portfolio :=
        Portfolio.set_positions portfolio
          (Portfolio.positions portfolio ++
           [Position.mk symbol (TradeRecommendation.shares recommendation) price price]) in
      complete_trade portfolio recommendation price
  end.

(** Lines 225-242. *)
Definition settle_sell (portfolio : Portfolio.t)
  (recommendation : TradeRecommendation.t) (price : float) : Outcome :=
  let symbol := TradeRecommendation.symbol recommendation in
  match find_position symbol (Portfolio.positions portfolio) with
  | None => mkOutcome portfolio recommendation (Return None)
  | Some existing =>
      let shares_to_sell :=
        py_min (TradeRecommendation.shares recommendation) (Position.shares existing) in
      let proceeds := shares_to_sell * price in
      let portfolio := Portfolio.set_cash portfolio (Portfolio.cash portfolio + proceeds) in
      let existing :=
        Position.mk (Position.symbol existing) (Position.shares existing - shares_to_sell)
                    (Position.avg_cost existing) (Position.current_price existing) in
      let portfolio :=
        Portfolio.set_positions portfolio
          (replace_position symbol existing (Portfolio.positions portfolio)) in
      let portfolio :=
        if py_le (Position.shares existing) 0 then
          Portfolio.set_positions portfolio (remove_symbol symbol (Portfolio.positions portfolio))
        else portfolio in
      complete_trade portfolio recommendation price
  end.

Definition _execute_trade (portfolio : Portfolio.t)
  (recommendation : TradeRecommendation.t) : Outcome :=
  match get_fundamentals (TradeRecommendation.symbol recommendation) with
  | None => mkOutcome portfolio recommendation (Return None)
  | Some data =>
      let price := StockFundamentals.price data in
      let total_cost := price * TradeRecommendation.shares recommendation in
      match TradeRecommendation.action recommendation with
      | BUY =>
          if py_gt total_cost (Portfolio.cash portfolio) then
            match q <- py_div (Portfolio.cash portfolio) price ;; py_int q with
            | Raise e => mkOutcome portfolio recommendation (Raise e)
            | Return affordable_shares =>
                if (affordable_shares <=? 0)%Z then
                  mkOutcome portfolio recommendation (Return None)
                else
                  let recommendation :=
                    TradeRecommendation.set_shares recommendation (of_int affordable_shares) in
                  let total_cost := price * of_int affordable_shares in
                  settle_buy portfolio recommendation price total_cost
            end
          else settle_buy portfolio recommendation price total_cost
      | SELL => settle_sell portfolio recommendation price
      | DIVIDEND => complete_trade portfolio recommendation price
      end
  end.

End BaseAgent.

Module Dalio.

Definition ALL_WEATHER_ALLOCATION : list (string * float) :=
  [ ("VTI"%string, 0.30); ("TLT"%string, 0.40); ("IEI"%string, 0.15);
    ("GLD"%string, 0.075); ("DBC"%string, 0.075) ].

Definition REBALANCE_THRESHOLD : float := 0.05.

Fixpoint dict_set (d : list (string * float)) (k : string) (v : float)
  : list (string * float) :=
  match d with
  | [] => [(k, v)]
  | (k', v') :: rest =>
      if String.eqb k' k then (k, v) :: rest else (k', v') :: dict_set rest k v
  end.

Definition dict_get (d : list (string * float)) (k : string) (default : float) : float :=
  match find (fun kv => String.eqb (fst kv) k) d with
  | Some kv => snd kv
  | None => default
  end.

Section DalioAgent.

Variable get_fundamentals : string -> option StockFundamentals.t.

Definition _calculate_current_allocation (portfolio : Portfolio.t) : list (string * float) :=
  let total := Portfolio.total_value portfolio in
  if py_le total 0 then []
  else
    fold_left
      (fun allocation position =>
         dict_set allocation (Position.symbol position)
                  (Position.market_value position / total))
      (Portfolio.positions portfolio) [].

(** The body of the loop of lines 97-133. *)
Definition rebalance_asset (portfolio : Portfolio.t) (current_allocation : list (string * float))
  (total_value : float) (recommendations : list TradeRecommendation.t)
  (item : string * float) : result (list TradeRecommendation.t) :=
  let '(symbol, target_weight) := item in
  let current_weight := dict_get current_allocation symbol 0 in
  let drift := abs (current_weight - target_weight) in
  if py_gt drift REBALANCE_THRESHOLD then
    match get_fundamentals symbol with
    | None => Return recommendations
    | Some data =>
        let target_value := total_value * target_weight in
        let current_value := total_value * current_weight in
        if py_lt current_weight target_weight then
          let value_to_buy := target_value - current_value in
          q <- py_div value_to_buy (StockFundamentals.price data) ;;
          shares <- py_int q ;;
          if (0 <? shares)%Z && py_le value_to_buy (Portfolio.cash portfolio) then
            Return (recommendations ++
                    [TradeRecommendation.mk BUY symbol (of_int shares)
                       (RebalanceNote current_weight target_weight) 0.85])
          else Return recommendations
        else
          let value_to_sell := current_value - target_value in
          q <- py_div value_to_sell (StockFundamentals.price data) ;;
          shares <- py_int q ;;
          let position := find_position symbol (Portfolio.positions portfolio) in
          if (0 <? shares)%Z &&
             match position with
             | Some position => py_ge (Position.shares position) (of_int shares)
             | None => false
             end
          then
            Return (recommendations ++
                    [TradeRecommendation.mk SELL symbol (of_int shares)
                       (RebalanceNote current_weight target_weight) 0.85])
          else Return recommendations
    end
  else Return recommendations.

Fixpoint rebalance (portfolio : Portfolio.t) (current_allocation : list (string * float))
  (total_value : float) (recommendations : list TradeRecommendation.t)
  (items : list (string * float)) : result (list TradeRecommendation.t) :=
  match items with
  | [] => Return recommendations
  | item :: rest =>
      recommendations <-
        rebalance_asset portfolio current_allocation total_value recommendations item ;;
      rebalance portfolio current_allocation total_value recommendations rest
  end.

Fixpoint deploy_cash_loop (deployable : float) (recommendations : list TradeRecommendation.t)
  (items : list (string * float)) : result (list TradeRecommendation.t) :=
  match items with
  | [] => Return recommendations
  | (symbol, weight) :: rest =>
      match get_fundamentals symbol with
      | None => deploy_cash_loop deployable recommendations rest
      | Some data =>
          let allocation_amount := deployable * weight in
          q <- py_div allocation_amount (StockFundamentals.price data) ;;
          shares <- py_int q ;;
          if (0 <? shares)%Z then
            deploy_cash_loop deployable
              (recommendations ++
               [TradeRecommendation.mk BUY symbol (of_int shares)
                  (InitialAllocationNote weight) 0.9])
              rest
          else deploy_cash_loop deployable recommendations rest
      end
  end.

Definition _deploy_cash (portfolio : Portfolio.t) : result (list TradeRecommendation.t) :=
  let deployable := Portfolio.cash portfolio * 0.9 in
  deploy_cash_loop deployable [] ALL_WEATHER_ALLOCATION.

Definition generate_recommendations (portfolio : Portfolio.t)
  : result (list TradeRecommendation.t) :=
  let current_allocation := _calculate_current_allocation portfolio in
  let total_value := Portfolio.total_value portfolio in
  recommendations <-
    rebalance portfolio current_allocation total_value [] ALL_WEATHER_ALLOCATION ;;
  if py_gt (Portfolio.cash portfolio) (Portfolio.total_value portfolio * 0.10) then
    deployed <- _deploy_cash portfolio ;;
    Return (recommendations ++ deployed)
  else Return recommendations.

End DalioAgent.
End Dalio.

Module Graham.

(** Truth value of a float or an [Optional[float]]: [None] and a zero are
    false. *)
Definition truthy (o : option float) : bool :=
  match o with
  | Some x => negb (x =? 0)
  | None => false
  end.

Definition _calculate_intrinsic_value (data : StockFundamentals.t) : float :=
  match StockFundamentals.pe_ratio data with
  | None => 0
  | Some pe_ratio =>
      if negb (truthy (Some (StockFundamentals.price data)))
         || negb (truthy (Some pe_ratio)) || py_le pe_ratio 0
      then 0
      else
        let eps := StockFundamentals.price data / pe_ratio in
        let growth_rate :=
          if truthy (StockFundamentals.earnings_growth data) then
            match StockFundamentals.earnings_growth data with
            | Some earnings_growth => py_min 15 (py_max 0 (earnings_growth * 100))
            | None => 5
            end
          else 5 in
        eps * (8.5 + 2 * growth_rate)
  end.

Definition _calculate_margin_of_safety (data : StockFundamentals.t) (intrinsic_value : float)
  : float :=
  if py_le intrinsic_value 0 || negb (truthy (Some (StockFundamentals.price data))) then 0
  else
    let margin := (intrinsic_value - StockFundamentals.price data) / intrinsic_value in
    py_max 0 margin.

End Graham.

(** A data client that knows one security, at one price. *)
Definition quote (symbol : string) (price : float) : string -> option StockFundamentals.t :=
  fun s =>
    if String.eqb s symbol then Some (StockFundamentals.mk symbol price None None) else None.

End Binary64.


(** ** Vocabulary of the properties *)

(** The shares of a security a list of positions holds: those of its
    position, 0 when it has none. *)
Definition held_shares (symbol : string) (l : list Position.t) : Q :=
  match find_position symbol l with
  | Some p => Position.shares p
  | None => 0
  end.

(** The portfolio invariant of the data model: cash is not negative, no two
    positions are of one security, every position holds a positive number of
    shares (none is empty). *)
Definition portfolio_invariant (p : Portfolio.t) : Prop :=
  0 <= Portfolio.cash p /\
  NoDup (map Position.symbol (Portfolio.positions p)) /\
  Forall (fun q => 0 < Position.shares q) (Portfolio.positions p).

(** A data client that knows one security, at one price. *)
Definition quote (symbol : string) (price : Q) : string -> option StockFundamentals.t :=
  fun s =>
    if String.eqb s symbol
    then Some (StockFundamentals.mk symbol price None None None None None)
    else None.

Definition empty_world : World := mkWorld [] [] [] 0%nat 0%nat [].

Definition portfolio_of (cash : Q) (positions : list Position.t) : Portfolio.t :=
  Portfolio.mk 0%nat "test-user" BUFFETT cash positions 0%nat 0%nat.

Definition idea (action : TransactionType) (symbol : string) (shares confidence : Q)
  : TradeRecommendation.t :=
  TradeRecommendation.mk action symbol shares (Text "Test") confidence.


(** A strategy with two ideas, one above the confidence gate and one below. *)
Definition two_ideas (_ : Portfolio.t) : result (list TradeRecommendation.t) :=
  Return [idea BUY "AAPL" 10 (8 # 10); idea BUY "AAPL" 5 (5 # 10)].


(** The weight of a security in a portfolio as the allocator reads it. *)
Definition current_weight (portfolio : Portfolio.t) (symbol : string) : Q :=
  Dalio.dict_get (Dalio._calculate_current_allocation portfolio) symbol 0.

(** The growth in percent of a stock: its earnings growth, and the
    valuation's default of 5 percent when the fundamentals carry none. *)
Definition growth_in_percent (data : StockFundamentals.t) : Q :=
  match StockFundamentals.earnings_growth data with
  | Some g => g * 100
  | None => 5
  end.

(** The earnings growth of a stock is not a growth of exactly zero. *)
Definition growth_not_zero (data : StockFundamentals.t) : Prop :=
  forall g, StockFundamentals.earnings_growth data = Some g -> ~ g == 0.

(** Graham's formula in the words of the specification: earnings per share
    times 8.5 plus twice the growth in percent, the growth kept in [0, 15]. *)
Definition graham_formula (price pe_ratio growth : Q) : Q :=
  (price / pe_ratio) * ((85 # 10) + 2 * Qmin 15 (Qmax 0 growth)).

(** Fundamentals with a price, a P/E and an earnings growth. *)
Definition fundamentals (symbol : string) (price pe_ratio : Q) (earnings_growth : option Q)
  : StockFundamentals.t :=
  StockFundamentals.mk symbol price (Some pe_ratio) None None None earnings_growth.


(** The gate of line 124. *)
Definition passes_gate (r : TradeRecommendation.t) : bool :=
  py_ge (TradeRecommendation.confidence r) CONFIDENCE_THRESHOLD.

(** The entry of a recommendation in the list of the run: the dictionary of
    [to_dict] has its action by value, its symbol, its reasoning and its
    confidence, and the share count it was produced with when it is below
    the gate. *)
Definition listed_as (r : TradeRecommendation.t) (entry : TradeRecommendation.dict) : Prop :=
  TradeRecommendation.d_action entry = TransactionType_value (TradeRecommendation.action r) /\
  TradeRecommendation.d_symbol entry = TradeRecommendation.symbol r /\
  TradeRecommendation.d_reasoning entry = TradeRecommendation.reasoning r /\
  TradeRecommendation.d_confidence entry = TradeRecommendation.confidence r /\
  (passes_gate r = false ->
   TradeRecommendation.d_shares entry = TradeRecommendation.shares r).

(** A rebalancing recommendation for a security: the allocator's loop over
    the target assets writes a rebalancing note, the deployment of idle cash
    an allocation note. *)
Definition is_rebalancing_of (symbol : string) (r : TradeRecommendation.t) : bool :=
  String.eqb (TradeRecommendation.symbol r) symbol &&
  match TradeRecommendation.reasoning r with
  | RebalanceNote _ _ => true
  | _ => false
  end.

(** [l] starts [m]. *)
Definition prefix_of (l m : list TradeRecommendation.t) : Prop := exists rest, m = l ++ rest.

(** A holding of 45 percent against a target of 30 percent: 450 shares at 100 in a
    portfolio worth 100000. *)
Definition overweight_portfolio : Portfolio.t :=
  portfolio_of 55000 [Position.mk "VTI" 450 90 100].

(** A data client that knows no security. *)
Definition no_fundamentals (_ : string) : option StockFundamentals.t := None.

(** What a list of recommendations costs at the prices of a data client:
    the sum of shares times price, a security without fundamentals counting
    for nothing. *)
Definition cost_at (get_fundamentals : string -> option StockFundamentals.t)
  (recs : list TradeRecommendation.t) : Q :=
  fold_right
    (fun r acc =>
       match get_fundamentals (TradeRecommendation.symbol r) with
       | Some data => TradeRecommendation.shares r * StockFundamentals.price data + acc
       | None => acc
       end)
    0 recs.

(** The sum of the weights of a target allocation. *)
Definition total_weight (items : list (string * Q)) : Q :=
  fold_right (fun item acc => snd item + acc) 0 items.




(** The same on doubles: a portfolio, an idea. *)
Definition portfolio_on_doubles (cash : float) (positions : list Binary64.Position.t)
  : Binary64.Portfolio.t :=
  Binary64.Portfolio.mk cash positions.

Definition idea_on_doubles (action : TransactionType) (symbol : string) (shares : float)
  : Binary64.TradeRecommendation.t :=
  Binary64.TradeRecommendation.mk action symbol shares (Binary64.Text "Test") 0.8%float.

(** * Properties *)

(** ** Comparisons, division and truncation *)

Lemma py_lt_true (a b : Q) : py_lt a b = true <-> a < b.
Proof.
  unfold py_lt. rewrite negb_true_iff.
  destruct (Qle_bool b a) eqn:E; split; intro H; try discriminate; try reflexivity.
  - apply Qle_bool_iff in E. lra.
  - apply Qnot_le_lt. intro L. apply Qle_bool_iff in L. congruence.
Qed.

Lemma py_lt_false (a b : Q) : py_lt a b = false <-> b <= a.
Proof.
  unfold py_lt. rewrite negb_false_iff. apply Qle_bool_iff.
Qed.

Lemma py_le_true (a b : Q) : py_le a b = true <-> a <= b.
Proof. apply Qle_bool_iff. Qed.

Lemma py_le_false (a b : Q) : py_le a b = false <-> b < a.
Proof.
  unfold py_le. destruct (Qle_bool a b) eqn:E; split; intro H; try discriminate; try reflexivity.
  - apply Qle_bool_iff in E. lra.
  - apply Qnot_le_lt. intro L. apply Qle_bool_iff in L. congruence.
Qed.

Lemma py_gt_true (a b : Q) : py_gt a b = true <-> b < a.
Proof. apply py_lt_true. Qed.

Lemma py_gt_false (a b : Q) : py_gt a b = false <-> a <= b.
Proof. apply py_lt_false. Qed.

Lemma py_ge_true (a b : Q) : py_ge a b = true <-> b <= a.
Proof. apply py_le_true. Qed.

Lemma py_ge_false (a b : Q) : py_ge a b = false <-> a < b.
Proof. apply py_le_false. Qed.

Lemma Qeq_bool_false (a b : Q) : Qeq_bool a b = false <-> ~ a == b.
Proof.
  split.
  - intros E H. apply Qeq_bool_iff in H. congruence.
  - intro H. destruct (Qeq_bool a b) eqn:E; [|reflexivity].
    apply Qeq_bool_iff in E. contradiction.
Qed.

Lemma py_div_defined (a b : Q) : ~ b == 0 -> py_div a b = Return (a / b).
Proof.
  intro H. unfold py_div. apply Qeq_bool_false in H. now rewrite H.
Qed.

Lemma py_div_zero (a b : Q) : b == 0 -> py_div a b = Raise ZeroDivisionError.
Proof.
  intro H. unfold py_div. apply Qeq_bool_iff in H. now rewrite H.
Qed.

(** On a non-negative number truncation is the floor. *)
Lemma py_int_floor (x : Q) : 0 <= x -> py_int x = Qfloor x.
Proof.
  destruct x as [n d]. unfold Qle, py_int, Qfloor. simpl. intro H.
  apply Z.quot_div_nonneg; lia.
Qed.

(** Below zero truncation gives nothing positive. *)
Lemma py_int_nonpos (x : Q) : x <= 0 -> (py_int x <= 0)%Z.
Proof.
  destruct x as [n d]. unfold Qle, py_int. simpl. intro H.
  rewrite <- (Z.opp_involutive n), Z.quot_opp_l by lia.
  assert (0 <= Z.quot (- n) (Z.pos d))%Z by (apply Z.quot_pos; lia). lia.
Qed.

Lemma Qfloor_nonneg (x : Q) : 0 <= x -> (0 <= Qfloor x)%Z.
Proof.
  intro H. change 0%Z with (Qfloor 0). now apply Qfloor_resp_le.
Qed.

Lemma floor_times_le (c p : Q) : 0 < p -> inject_Z (Qfloor (c / p)) * p <= c.
Proof.
  intro Hp. pose proof (Qfloor_le (c / p)) as H.
  assert (E : c == (c / p) * p) by (field; lra).
  rewrite E at 2. apply Qmult_le_compat_r; lra.
Qed.

Lemma floor_times_gt (c p : Q) : 0 < p -> c < (inject_Z (Qfloor (c / p)) + 1) * p.
Proof.
  intro Hp. pose proof (Qlt_floor (c / p)) as H.
  rewrite inject_Z_plus in H. change (inject_Z 1) with 1 in H.
  assert (E : c == (c / p) * p) by (field; lra).
  rewrite E at 1. apply Qmult_lt_compat_r; lra.
Qed.

(** ** Lists of positions *)

Lemma find_position_symbol (s : string) (l : list Position.t) (e : Position.t) :
  find_position s l = Some e -> Position.symbol e = s.
Proof.
  intro H. apply find_some in H. destruct H as [_ H]. now apply String.eqb_eq in H.
Qed.

Lemma find_position_In (s : string) (l : list Position.t) (e : Position.t) :
  find_position s l = Some e -> In e l.
Proof. intro H. now apply find_some in H. Qed.

Lemma find_replace_position (s : string) (new : Position.t) (l : list Position.t)
  (e : Position.t) :
  find_position s l = Some e -> Position.symbol new = s ->
  find_position s (replace_position s new l) = Some new.
Proof.
  intros H Hs. induction l as [|p l IH]; simpl in *; [discriminate|].
  destruct (String.eqb (Position.symbol p) s) eqn:E; simpl.
  - rewrite Hs, String.eqb_refl. reflexivity.
  - rewrite E. auto.
Qed.

Lemma find_position_app_new (s : string) (p : Position.t) (l : list Position.t) :
  find_position s l = None -> Position.symbol p = s ->
  find_position s (l ++ [p]) = Some p.
Proof.
  intros H Hs. induction l as [|q l IH]; simpl in *.
  - now rewrite Hs, String.eqb_refl.
  - destruct (String.eqb (Position.symbol q) s); [discriminate|auto].
Qed.

Lemma find_remove_symbol (s : string) (l : list Position.t) :
  find_position s (remove_symbol s l) = None.
Proof.
  induction l as [|p l IH]; simpl; [reflexivity|].
  destruct (String.eqb (Position.symbol p) s) eqn:E; simpl; [assumption|].
  now rewrite E.
Qed.

(** ** The execution engine *)

(** Evaluates the projections of an outcome, and nothing of the list
    functions or the arithmetic. *)
Ltac engine_simpl :=
  cbn [complete_trade utcnow uuid4 save_transaction record_call
       out_result out_portfolio out_world out_recommendation
       Portfolio.cash Portfolio.positions Portfolio.portfolio_id Portfolio.user_id
       Portfolio.agent_type Portfolio.created_at Portfolio.updated_at
       Portfolio.set_cash Portfolio.set_positions Portfolio.set_updated_at
       Position.symbol Position.shares Position.avg_cost Position.current_price
       Transaction.shares Transaction.price Transaction.symbol
       Transaction.transaction_type Transaction.transaction_id
       TradeRecommendation.shares TradeRecommendation.symbol TradeRecommendation.action
       TradeRecommendation.reasoning TradeRecommendation.confidence
       TradeRecommendation.set_shares
       db_transactions db_portfolios db_runs clock uuid_next engine_calls fst snd].

Section Engine.

Variable agent_type : AgentType.
Variable get_fundamentals : string -> option StockFundamentals.t.

Local Abbreviation execute := (_execute_trade agent_type get_fundamentals).

(** C1, in exact arithmetic.  A buy whose cost [price * requested] exceeds
    the cash is clamped to [floor(cash / price)] shares: when that floor is 0
    the trade is declined (no transaction); otherwise the trade executes for
    exactly that many shares, their cost is at most the cash before the
    trade and the cash after it is not negative.  Cash, price and held
    shares are not negative, as the data model has them. *)
Theorem buy_clamped_to_affordable_floor
  (w : World) (portfolio : Portfolio.t) (rec : TradeRecommendation.t)
  (data : StockFundamentals.t) :
  get_fundamentals (TradeRecommendation.symbol rec) = Some data ->
  TradeRecommendation.action rec = BUY ->
  0 <= Portfolio.cash portfolio ->
  0 <= StockFundamentals.price data ->
  0 <= held_shares (TradeRecommendation.symbol rec) (Portfolio.positions portfolio) ->
  Portfolio.cash portfolio < StockFundamentals.price data * TradeRecommendation.shares rec ->
  let price := StockFundamentals.price data in
  let floor := Qfloor (Portfolio.cash portfolio / price) in
  let o := execute w portfolio rec in
  (floor = 0%Z -> out_result o = Return None) /\
  (floor <> 0%Z ->
   exists txn,
     out_result o = Return (Some txn) /\
     Transaction.shares txn = inject_Z floor /\
     held_shares (TradeRecommendation.symbol rec) (Portfolio.positions (out_portfolio o))
       == held_shares (TradeRecommendation.symbol rec) (Portfolio.positions portfolio)
          + inject_Z floor /\
     Portfolio.cash (out_portfolio o) == Portfolio.cash portfolio - inject_Z floor * price /\
     inject_Z floor * price <= Portfolio.cash portfolio /\
     0 <= Portfolio.cash (out_portfolio o)).
Proof.
  intros Hdata Hbuy Hcash Hprice Hheld Hcost price floor o.
  assert (Hpos : 0 < price).
  { destruct (Qlt_le_dec 0 price) as [|Hle]; [assumption|].
    assert (E : price == 0) by (unfold price in *; lra).
    unfold price in E. rewrite E in Hcost. lra. }
  assert (Hq : 0 <= Portfolio.cash portfolio / price).
  { apply Qle_shift_div_l; lra. }
  assert (Hfl : (0 <= floor)%Z) by (apply Qfloor_nonneg; exact Hq).
  pose proof (floor_times_le (Portfolio.cash portfolio) price Hpos) as Hle.
  fold floor in Hle.
  unfold o, _execute_trade. rewrite Hdata, Hbuy. fold price.
  assert (Hgt : py_gt (price * TradeRecommendation.shares rec) (Portfolio.cash portfolio) = true)
    by (apply py_gt_true; exact Hcost).
  rewrite Hgt, py_div_defined by lra.
  rewrite py_int_floor by exact Hq. fold floor.
  split.
  - intro Hz. rewrite Hz. reflexivity.
  - intro Hnz. destruct (floor <=? 0)%Z eqn:E; [apply Z.leb_le in E; lia|].
    assert (H1 : 1 <= inject_Z floor).
    { change 1 with (inject_Z 1). rewrite <- Zle_Qle. apply Z.leb_gt in E. lia. }
    unfold settle_buy, complete_trade, held_shares in *. simpl.
    destruct (find_position (TradeRecommendation.symbol rec) (Portfolio.positions portfolio))
      as [existing|] eqn:F.
    + rewrite py_div_defined by lra. simpl. eexists. split; [reflexivity|]. simpl.
      erewrite find_replace_position;
        [|exact F|simpl; eapply find_position_symbol; exact F].
      simpl. repeat split; try assumption; try lra.
    + simpl. eexists. split; [reflexivity|]. simpl.
      rewrite find_position_app_new by auto.
      simpl. repeat split; try assumption; try lra.
Qed.

Lemma py_min_Qmin (a b : Q) : py_min a b == Qmin a b.
Proof.
  unfold py_min. destruct (py_lt b a) eqn:E.
  - apply py_lt_true in E. symmetry. apply Q.min_r. lra.
  - apply py_lt_false in E. symmetry. apply Q.min_l. exact E.
Qed.

Lemma py_max_Qmax (a b : Q) : py_max a b == Qmax a b.
Proof.
  unfold py_max. destruct (py_gt b a) eqn:E.
  - apply py_gt_true in E. symmetry. apply Q.max_r. lra.
  - apply py_gt_false in E. symmetry. apply Q.max_l. exact E.
Qed.

(** C2. A buy that executes into a held position of [old_shares > 0] shares
    leaves it with the average cost
    [(old_shares * old_avg + actual_cost) / (old_shares + actual_shares)],
    where [actual_shares] is what the transaction records and
    [actual_cost = price * actual_shares]; a buy that opens a position
    leaves it with the execution price as average cost.  The buy executes:
    a positive number of shares is asked for, and either their cost fits the
    cash or the cash pays for one share at least. *)
Theorem buy_weighted_average_cost
  (w : World) (portfolio : Portfolio.t) (rec : TradeRecommendation.t)
  (data : StockFundamentals.t) :
  get_fundamentals (TradeRecommendation.symbol rec) = Some data ->
  TradeRecommendation.action rec = BUY ->
  0 < TradeRecommendation.shares rec ->
  (StockFundamentals.price data * TradeRecommendation.shares rec <= Portfolio.cash portfolio \/
   0 < StockFundamentals.price data <= Portfolio.cash portfolio) ->
  (forall old, find_position (TradeRecommendation.symbol rec) (Portfolio.positions portfolio)
               = Some old -> 0 < Position.shares old) ->
  let price := StockFundamentals.price data in
  let symbol := TradeRecommendation.symbol rec in
  let o := execute w portfolio rec in
  exists txn,
    out_result o = Return (Some txn) /\
    Transaction.price txn = price /\
    0 < Transaction.shares txn /\
    match find_position symbol (Portfolio.positions portfolio) with
    | Some old =>
        exists new,
          find_position symbol (Portfolio.positions (out_portfolio o)) = Some new /\
          Position.shares new == Position.shares old + Transaction.shares txn /\
          Position.avg_cost new ==
            (Position.shares old * Position.avg_cost old + price * Transaction.shares txn)
            / (Position.shares old + Transaction.shares txn) /\
          Position.current_price new = price
    | None =>
        find_position symbol (Portfolio.positions (out_portfolio o))
          = Some (Position.mk symbol (Transaction.shares txn) price price)
    end.
Proof.
  intros Hdata Hbuy Hreq Hfunds Hold price symbol o.
  unfold o, _execute_trade. rewrite Hdata, Hbuy. fold price. fold price in Hfunds.
  (* the shares the buy is filled with, positive in both branches *)
  assert (Hfill : forall w' filled r', 0 < filled ->
            TradeRecommendation.shares r' = filled ->
            TradeRecommendation.symbol r' = symbol ->
            let o' := settle_buy agent_type w' portfolio r' price (price * filled) in
            exists txn,
              out_result o' = Return (Some txn) /\
              Transaction.price txn = price /\
              0 < Transaction.shares txn /\
              match find_position symbol (Portfolio.positions portfolio) with
              | Some old =>
                  exists new,
                    find_position symbol (Portfolio.positions (out_portfolio o')) = Some new /\
                    Position.shares new == Position.shares old + Transaction.shares txn /\
                    Position.avg_cost new ==
                      (Position.shares old * Position.avg_cost old + price * Transaction.shares txn)
                      / (Position.shares old + Transaction.shares txn) /\
                    Position.current_price new = price
              | None =>
                  find_position symbol (Portfolio.positions (out_portfolio o'))
                    = Some (Position.mk symbol (Transaction.shares txn) price price)
              end).
  { intros w' filled r' Hf Hs Hsym. unfold settle_buy, complete_trade. simpl.
    rewrite Hsym, Hs.
    destruct (find_position symbol (Portfolio.positions portfolio)) as [old|] eqn:F.
    - specialize (Hold old F).
      rewrite py_div_defined by lra. simpl.
      eexists. split; [reflexivity|]. simpl. repeat split; [exact Hf|].
      eexists. split.
      + eapply find_replace_position; [exact F|]. simpl.
        eapply find_position_symbol; exact F.
      + simpl. repeat split; reflexivity.
    - simpl. eexists. split; [reflexivity|]. simpl. repeat split; [exact Hf|].
      apply find_position_app_new; [exact F|reflexivity]. }
  destruct (py_gt (price * TradeRecommendation.shares rec) (Portfolio.cash portfolio)) eqn:G.
  - apply py_gt_true in G.
    destruct Hfunds as [Hfit|[Hpos Hone]]; [lra|].
    rewrite py_div_defined by lra.
    assert (Hq : 1 <= Portfolio.cash portfolio / price) by (apply Qle_shift_div_l; lra).
    assert (Hfl : (1 <= py_int (Portfolio.cash portfolio / price))%Z).
    { rewrite py_int_floor by lra. change 1%Z with (Qfloor 1). now apply Qfloor_resp_le. }
    destruct (py_int (Portfolio.cash portfolio / price) <=? 0)%Z eqn:E;
      [apply Z.leb_le in E; lia|].
    apply (Hfill (record_call w rec) (inject_Z (py_int (Portfolio.cash portfolio / price)))
                 (TradeRecommendation.set_shares rec
                    (inject_Z (py_int (Portfolio.cash portfolio / price)))));
      try reflexivity.
    change 0 with (inject_Z 0). rewrite <- Zlt_Qlt. lia.
  - apply (Hfill (record_call w rec) (TradeRecommendation.shares rec) rec);
      try reflexivity. exact Hreq.
Qed.

(** C3. A sell of a security the portfolio has no position in is declined and
    changes nothing.  A sell of a held security executes: the shares sold
    are [min(requested, held)], cash grows by exactly [sold * price], the
    shares left are not negative, and the position is gone from the
    portfolio exactly when no share is left. *)
Theorem sell_never_oversells
  (w : World) (portfolio : Portfolio.t) (rec : TradeRecommendation.t)
  (data : StockFundamentals.t) :
  get_fundamentals (TradeRecommendation.symbol rec) = Some data ->
  TradeRecommendation.action rec = SELL ->
  let price := StockFundamentals.price data in
  let symbol := TradeRecommendation.symbol rec in
  let o := execute w portfolio rec in
  match find_position symbol (Portfolio.positions portfolio) with
  | None =>
      out_result o = Return None /\
      out_portfolio o = portfolio /\
      db_transactions (out_world o) = db_transactions w
  | Some held =>
      let sold := Qmin (TradeRecommendation.shares rec) (Position.shares held) in
      let left := Position.shares held - sold in
      (exists txn, out_result o = Return (Some txn)) /\
      Portfolio.cash (out_portfolio o) == Portfolio.cash portfolio + sold * price /\
      held_shares symbol (Portfolio.positions (out_portfolio o)) == left /\
      0 <= left /\
      (find_position symbol (Portfolio.positions (out_portfolio o)) = None <-> left == 0)
  end.
Proof.
  intros Hdata Hsell price symbol o.
  unfold o, _execute_trade. rewrite Hdata, Hsell. fold price symbol.
  unfold settle_sell. fold symbol.
  destruct (find_position symbol (Portfolio.positions portfolio)) as [held|] eqn:F.
  - set (sold := Qmin (TradeRecommendation.shares rec) (Position.shares held)).
    set (left := Position.shares held - sold).
    pose proof (py_min_Qmin (TradeRecommendation.shares rec) (Position.shares held)) as Hmin.
    fold sold in Hmin.
    assert (Hleft : 0 <= left).
    { unfold left. pose proof (Q.le_min_r (TradeRecommendation.shares rec) (Position.shares held)).
      fold sold in H. lra. }
    assert (Hsym : Position.symbol held = symbol) by (eapply find_position_symbol; exact F).
    unfold held_shares. engine_simpl.
    destruct (py_le (Position.shares held
                     - py_min (TradeRecommendation.shares rec) (Position.shares held)) 0) eqn:E;
      engine_simpl.
    + apply py_le_true in E. rewrite find_remove_symbol.
      rewrite Hmin in E. unfold left in *.
      split; [eexists; reflexivity|].
      split; [rewrite Hmin; apply Qeq_refl|]. split; [lra|]. split; [exact Hleft|].
      split; intro; [lra|reflexivity].
    + apply py_le_false in E.
      erewrite find_replace_position; [|exact F|exact Hsym]. engine_simpl.
      rewrite Hmin in E. unfold left in *.
      split; [eexists; reflexivity|].
      split; [rewrite Hmin; apply Qeq_refl|].
      split; [rewrite Hmin; apply Qeq_refl|]. split; [exact Hleft|].
      split; intro; [discriminate|lra].
  - engine_simpl. split; [reflexivity|]. split; reflexivity.
Qed.

(** A call that returns [None] has returned before its first mutation. *)
Lemma declined_outcome (w : World) (portfolio : Portfolio.t) (rec : TradeRecommendation.t) :
  out_result (execute w portfolio rec) = Return None ->
  execute w portfolio rec = mkOutcome (record_call w rec) portfolio rec (Return None).
Proof.
  unfold _execute_trade.
  destruct (get_fundamentals (TradeRecommendation.symbol rec)) as [data|]; [|reflexivity].
  destruct (TradeRecommendation.action rec).
  - destruct (py_gt _ _).
    + destruct (py_div _ _); [|discriminate].
      destruct (_ <=? 0)%Z; [reflexivity|].
      unfold settle_buy. engine_simpl.
      destruct (find_position _ _); [destruct (py_div _ _)|]; discriminate.
    + unfold settle_buy. engine_simpl.
      destruct (find_position _ _); [destruct (py_div _ _)|]; discriminate.
  - unfold settle_sell. destruct (find_position _ _); [discriminate|reflexivity].
  - discriminate.
Qed.

(** C5. A declined execution has no effect.  Each of the three causes
    (no fundamentals for the security; a buy that costs more than the cash
    when the cash affords [floor(cash / price) = 0] shares; a sell of a
    security that is not held) declines, and whenever a call declines the
    portfolio (cash, positions, total value) and the recommendation are
    what they were and no transaction was saved. *)
Theorem declined_trade_has_no_effect
  (w : World) (portfolio : Portfolio.t) (rec : TradeRecommendation.t) :
  let symbol := TradeRecommendation.symbol rec in
  let o := execute w portfolio rec in
  (get_fundamentals symbol = None -> out_result o = Return None) /\
  (forall data,
     get_fundamentals symbol = Some data ->
     TradeRecommendation.action rec = BUY ->
     0 <= Portfolio.cash portfolio ->
     Portfolio.cash portfolio < StockFundamentals.price data * TradeRecommendation.shares rec ->
     Qfloor (Portfolio.cash portfolio / StockFundamentals.price data) = 0%Z ->
     out_result o = Return None) /\
  (forall data,
     get_fundamentals symbol = Some data ->
     TradeRecommendation.action rec = SELL ->
     find_position symbol (Portfolio.positions portfolio) = None ->
     out_result o = Return None) /\
  (out_result o = Return None ->
   out_portfolio o = portfolio /\
   Portfolio.total_value (out_portfolio o) = Portfolio.total_value portfolio /\
   out_recommendation o = rec /\
   db_transactions (out_world o) = db_transactions w /\
   out_world o = record_call w rec).
Proof.
  intros symbol o. split; [|split; [|split]].
  - intro H. unfold o, _execute_trade. fold symbol. now rewrite H.
  - intros data Hdata Hbuy Hcash Hcost Hfloor.
    unfold o, _execute_trade. fold symbol. rewrite Hdata, Hbuy.
    assert (G : py_gt (StockFundamentals.price data * TradeRecommendation.shares rec)
                      (Portfolio.cash portfolio) = true) by (now apply py_gt_true).
    rewrite G.
    destruct (Qeq_bool (StockFundamentals.price data) 0) eqn:Z.
    + apply Qeq_bool_iff in Z. rewrite Z in Hcost. lra.
    + apply Qeq_bool_false in Z. rewrite py_div_defined by exact Z.
      assert (Hq : 0 <= Portfolio.cash portfolio / StockFundamentals.price data).
      { pose proof (Qfloor_le (Portfolio.cash portfolio / StockFundamentals.price data)) as L.
        rewrite Hfloor in L. exact L. }
      rewrite py_int_floor by exact Hq. rewrite Hfloor. reflexivity.
  - intros data Hdata Hsell Hnone.
    unfold o, _execute_trade. fold symbol. rewrite Hdata, Hsell.
    unfold settle_sell. fold symbol. now rewrite Hnone.
  - intro H. unfold o. rewrite (declined_outcome w portfolio rec H).
    engine_simpl. split; [reflexivity|]. split; [reflexivity|]. split; [reflexivity|].
    split; reflexivity.
Qed.

(** *** The portfolio invariant *)

Lemma symbols_replace_position (s : string) (new : Position.t) (l : list Position.t) :
  Position.symbol new = s ->
  map Position.symbol (replace_position s new l) = map Position.symbol l.
Proof.
  intro Hs. induction l as [|p l IH]; simpl; [reflexivity|].
  destruct (String.eqb (Position.symbol p) s) eqn:E; simpl.
  - apply String.eqb_eq in E. congruence.
  - now rewrite IH.
Qed.

Lemma Forall_replace_position (P : Position.t -> Prop) (s : string) (new : Position.t)
  (l : list Position.t) :
  Forall P l -> P new -> Forall P (replace_position s new l).
Proof.
  intros Hl Hnew. induction Hl as [|p l Hp Hl IH]; simpl; [constructor|].
  destruct (String.eqb (Position.symbol p) s); constructor; assumption.
Qed.

Lemma find_position_none (s : string) (l : list Position.t) :
  find_position s l = None -> ~ In s (map Position.symbol l).
Proof.
  intros H Hin. apply in_map_iff in Hin. destruct Hin as (p & Hp & Hin).
  pose proof (find_none _ _ H p Hin) as E. simpl in E.
  rewrite Hp, String.eqb_refl in E. discriminate.
Qed.

Lemma NoDup_symbols_app (s : string) (p : Position.t) (l : list Position.t) :
  NoDup (map Position.symbol l) -> find_position s l = None -> Position.symbol p = s ->
  NoDup (map Position.symbol (l ++ [p])).
Proof.
  intros Hnd Hnone Hs. rewrite map_app. simpl.
  apply NoDup_app.
  - exact Hnd.
  - constructor; [intros []|constructor].
  - intros x Hx [Hx'|[]]. subst x. rewrite Hs in Hx.
    exact (find_position_none s l Hnone Hx).
Qed.

Lemma NoDup_symbols_remove (s : string) (l : list Position.t) :
  NoDup (map Position.symbol l) -> NoDup (map Position.symbol (remove_symbol s l)).
Proof.
  induction l as [|p l IH]; simpl; intro H; [constructor|].
  inversion H as [|x xs Hnotin Hnd]; subst.
  destruct (String.eqb (Position.symbol p) s); simpl; [auto|].
  constructor; [|auto].
  intro Hin. apply Hnotin. apply in_map_iff in Hin. destruct Hin as (q & Hq & Hin).
  apply in_map_iff. exists q. split; [exact Hq|].
  unfold remove_symbol in Hin. apply filter_In in Hin. tauto.
Qed.

Lemma Forall_remove_symbol (P : Position.t -> Prop) (s : string) (l : list Position.t) :
  Forall P l -> Forall P (remove_symbol s l).
Proof.
  intro H. apply Forall_forall. intros q Hq.
  unfold remove_symbol in Hq. apply filter_In in Hq.
  rewrite Forall_forall in H. apply H. tauto.
Qed.

Lemma remove_replace_position (s : string) (new : Position.t) (l : list Position.t) :
  Position.symbol new = s ->
  remove_symbol s (replace_position s new l) = remove_symbol s l.
Proof.
  intro Hs. induction l as [|p l IH]; simpl; [reflexivity|].
  destruct (String.eqb (Position.symbol p) s) eqn:E; simpl.
  - rewrite Hs, String.eqb_refl. reflexivity.
  - rewrite E. simpl. now rewrite IH.
Qed.

Lemma complete_trade_outcome (w : World) (p : Portfolio.t) (r : TradeRecommendation.t)
  (price : Q) :
  (exists txn, out_result (complete_trade agent_type w p r price) = Return (Some txn)) /\
  Portfolio.cash (out_portfolio (complete_trade agent_type w p r price)) = Portfolio.cash p /\
  Portfolio.positions (out_portfolio (complete_trade agent_type w p r price))
    = Portfolio.positions p.
Proof.
  engine_simpl. split; [eexists; reflexivity|]. split; reflexivity.
Qed.

Lemma complete_trade_invariant (w : World) (p : Portfolio.t) (r : TradeRecommendation.t)
  (price : Q) :
  portfolio_invariant p ->
  (exists res, out_result (complete_trade agent_type w p r price) = Return res) /\
  portfolio_invariant (out_portfolio (complete_trade agent_type w p r price)).
Proof.
  intro H. destruct (complete_trade_outcome w p r price) as ((txn & R) & C & P).
  split; [eexists; exact R|].
  unfold portfolio_invariant. rewrite C, P. exact H.
Qed.

(** A buy that is paid for keeps the invariant. *)
Lemma settle_buy_invariant (w : World) (p : Portfolio.t) (r : TradeRecommendation.t)
  (price total_cost : Q) :
  portfolio_invariant p ->
  0 < TradeRecommendation.shares r ->
  total_cost <= Portfolio.cash p ->
  (exists res, out_result (settle_buy agent_type w p r price total_cost) = Return res) /\
  portfolio_invariant (out_portfolio (settle_buy agent_type w p r price total_cost)).
Proof.
  intros (Hcash & Hnd & Hpos) Hreq Hcost. unfold settle_buy.
  cbn [Portfolio.cash Portfolio.positions Portfolio.set_cash].
  destruct (find_position (TradeRecommendation.symbol r) (Portfolio.positions p))
    as [existing|] eqn:F.
  - assert (He : 0 < Position.shares existing).
    { rewrite Forall_forall in Hpos. apply Hpos. eapply find_position_In; exact F. }
    rewrite py_div_defined by lra.
    apply complete_trade_invariant. unfold portfolio_invariant.
    cbn [Portfolio.cash Portfolio.positions Portfolio.set_cash Portfolio.set_positions].
    split; [lra|]. split.
    + rewrite symbols_replace_position; [exact Hnd|].
      cbn [Position.symbol]. eapply find_position_symbol; exact F.
    + apply Forall_replace_position; [exact Hpos|]. cbn [Position.shares]. lra.
  - apply complete_trade_invariant. unfold portfolio_invariant.
    cbn [Portfolio.cash Portfolio.positions Portfolio.set_cash Portfolio.set_positions].
    split; [lra|]. split.
    + apply (NoDup_symbols_app (TradeRecommendation.symbol r)); auto.
    + apply Forall_app. split; [exact Hpos|]. constructor; [exact Hreq|constructor].
Qed.

(** On a portfolio that satisfies the invariant, a recommendation for a
    positive number of shares at a price that is not negative is carried out
    or declined, nothing is raised, and the invariant holds afterwards. *)
Lemma execute_keeps_invariant (w : World) (p : Portfolio.t) (r : TradeRecommendation.t) :
  portfolio_invariant p ->
  0 < TradeRecommendation.shares r ->
  (forall data, get_fundamentals (TradeRecommendation.symbol r) = Some data ->
                0 <= StockFundamentals.price data) ->
  (exists res, out_result (execute w p r) = Return res) /\
  portfolio_invariant (out_portfolio (execute w p r)).
Proof.
  intros Hinv Hreq Hprice. unfold _execute_trade.
  destruct (get_fundamentals (TradeRecommendation.symbol r)) as [data|] eqn:D.
  2:{ cbn [out_result out_portfolio]. split; [eexists; reflexivity|exact Hinv]. }
  specialize (Hprice data eq_refl).
  set (price := StockFundamentals.price data) in *.
  pose proof Hinv as (Hcash & Hnd & Hpos).
  destruct (TradeRecommendation.action r).
  - destruct (py_gt (price * TradeRecommendation.shares r) (Portfolio.cash p)) eqn:G.
    + apply py_gt_true in G.
      assert (Hp : 0 < price).
      { destruct (Qlt_le_dec 0 price) as [|Hle]; [assumption|].
        assert (E : price == 0) by lra. rewrite E in G. lra. }
      rewrite py_div_defined by lra.
      assert (Hq : 0 <= Portfolio.cash p / price) by (apply Qle_shift_div_l; lra).
      rewrite py_int_floor by exact Hq.
      destruct (Qfloor (Portfolio.cash p / price) <=? 0)%Z eqn:E.
      * cbn [out_result out_portfolio]. split; [eexists; reflexivity|exact Hinv].
      * apply Z.leb_gt in E. apply settle_buy_invariant; [exact Hinv| |].
        -- cbn [TradeRecommendation.shares TradeRecommendation.set_shares].
           change 0 with (inject_Z 0). rewrite <- Zlt_Qlt. exact E.
        -- pose proof (floor_times_le (Portfolio.cash p) price Hp). lra.
    + apply py_gt_false in G. apply settle_buy_invariant; assumption.
  - unfold settle_sell.
    destruct (find_position (TradeRecommendation.symbol r) (Portfolio.positions p))
      as [existing|] eqn:F.
    2:{ cbn [out_result out_portfolio]. split; [eexists; reflexivity|exact Hinv]. }
    assert (He : 0 < Position.shares existing).
    { rewrite Forall_forall in Hpos. apply Hpos. eapply find_position_In; exact F. }
    assert (Hsym : Position.symbol existing = TradeRecommendation.symbol r)
      by (eapply find_position_symbol; exact F).
    pose proof (py_min_Qmin (TradeRecommendation.shares r) (Position.shares existing)) as Hmin.
    pose proof (Q.le_min_r (TradeRecommendation.shares r) (Position.shares existing)) as Hle.
    assert (Hsold : 0 < Qmin (TradeRecommendation.shares r) (Position.shares existing))
      by (apply Q.min_glb_lt; assumption).
    set (sold := py_min (TradeRecommendation.shares r) (Position.shares existing)) in *.
    assert (Hproceeds : 0 <= sold * price) by (apply Qmult_le_0_compat; lra).
    apply complete_trade_invariant.
    cbn [Portfolio.cash Portfolio.positions Portfolio.set_cash Portfolio.set_positions
         Position.shares].
    destruct (py_le (Position.shares existing - sold) 0) eqn:E; unfold portfolio_invariant;
      cbn [Portfolio.cash Portfolio.positions Portfolio.set_cash Portfolio.set_positions].
    + split; [lra|]. split.
      * apply NoDup_symbols_remove. rewrite symbols_replace_position; assumption.
      * rewrite remove_replace_position by exact Hsym.
        apply Forall_remove_symbol. exact Hpos.
    + apply py_le_false in E. split; [lra|]. split.
      * rewrite symbols_replace_position; assumption.
      * apply Forall_replace_position; [exact Hpos|]. cbn [Position.shares]. exact E.
  - apply complete_trade_invariant. exact Hinv.
Qed.


(** C7, in exact arithmetic.  A call of the engine on a portfolio that
    satisfies the invariant (cash not negative, at most one position per
    security, no position without shares), for a recommendation that asks
    for a positive number of shares at a price that is not negative,
    returns (a transaction or a decline, never an exception) and leaves a
    portfolio that satisfies the invariant. *)
Theorem execution_preserves_invariant
  (w : World) (portfolio : Portfolio.t) (rec : TradeRecommendation.t) :
  portfolio_invariant portfolio ->
  0 < TradeRecommendation.shares rec ->
  (forall data, get_fundamentals (TradeRecommendation.symbol rec) = Some data ->
                0 <= StockFundamentals.price data) ->
  (exists res, out_result (execute w portfolio rec) = Return res) /\
  portfolio_invariant (out_portfolio (execute w portfolio rec)).
Proof.
  intros Hinv Hreq Hprice. apply execute_keeps_invariant; assumption.
Qed.

(** *** The value of a portfolio *)

Lemma fold_value_from (l : list Position.t) (a : Q) :
  fold_left (fun acc p => acc + Position.market_value p) l a
  == a + Portfolio.positions_value l.
Proof.
  unfold Portfolio.positions_value. revert a.
  induction l as [|p l IH]; intro a; simpl.
  - ring.
  - rewrite (IH (a + Position.market_value p)), (IH (0 + Position.market_value p)). ring.
Qed.

Lemma positions_value_cons (p : Position.t) (l : list Position.t) :
  Portfolio.positions_value (p :: l) == Position.market_value p + Portfolio.positions_value l.
Proof.
  unfold Portfolio.positions_value at 1. simpl. rewrite fold_value_from. ring.
Qed.

Lemma positions_value_app (p : Position.t) (l : list Position.t) :
  Portfolio.positions_value (l ++ [p]) == Portfolio.positions_value l + Position.market_value p.
Proof.
  unfold Portfolio.positions_value. rewrite fold_left_app. simpl. apply Qeq_refl.
Qed.

Lemma positions_value_replace (s : string) (new e : Position.t) (l : list Position.t) :
  find_position s l = Some e ->
  Portfolio.positions_value (replace_position s new l)
  == Portfolio.positions_value l - Position.market_value e + Position.market_value new.
Proof.
  induction l as [|p l IH]; simpl; [discriminate|].
  destruct (String.eqb (Position.symbol p) s) eqn:E; intro H.
  - injection H as ->. rewrite !positions_value_cons. ring.
  - rewrite !positions_value_cons, (IH H). ring.
Qed.

Lemma remove_symbol_absent (s : string) (l : list Position.t) :
  ~ In s (map Position.symbol l) -> remove_symbol s l = l.
Proof.
  induction l as [|p l IH]; simpl; intro H; [reflexivity|].
  destruct (String.eqb (Position.symbol p) s) eqn:E.
  - apply String.eqb_eq in E. tauto.
  - simpl. rewrite IH; [reflexivity|tauto].
Qed.

Lemma positions_value_remove (s : string) (e : Position.t) (l : list Position.t) :
  NoDup (map Position.symbol l) -> find_position s l = Some e ->
  Portfolio.positions_value (remove_symbol s l)
  == Portfolio.positions_value l - Position.market_value e.
Proof.
  induction l as [|p l IH]; simpl; intros Hnd H; [discriminate|].
  inversion Hnd as [|x xs Hnotin Hnd']; subst.
  destruct (String.eqb (Position.symbol p) s) eqn:E; simpl.
  - injection H as ->. apply String.eqb_eq in E. subst s.
    rewrite remove_symbol_absent by exact Hnotin.
    rewrite positions_value_cons. ring.
  - fold (remove_symbol s l). rewrite !positions_value_cons, (IH Hnd' H). ring.
Qed.

Lemma complete_trade_value (w : World) (p : Portfolio.t) (r : TradeRecommendation.t)
  (price : Q) :
  Portfolio.total_value (out_portfolio (complete_trade agent_type w p r price))
  = Portfolio.total_value p.
Proof. reflexivity. Qed.

Lemma settle_buy_value (w : World) (p : Portfolio.t) (r : TradeRecommendation.t)
  (price total_cost : Q) :
  total_cost == price * TradeRecommendation.shares r ->
  (forall held, find_position (TradeRecommendation.symbol r) (Portfolio.positions p) = Some held ->
                Position.current_price held == price) ->
  (exists res, out_result (settle_buy agent_type w p r price total_cost) = Return res) ->
  Portfolio.total_value (out_portfolio (settle_buy agent_type w p r price total_cost))
  == Portfolio.total_value p.
Proof.
  intros Hcost Hsame. unfold settle_buy.
  cbn [Portfolio.cash Portfolio.positions Portfolio.set_cash].
  destruct (find_position (TradeRecommendation.symbol r) (Portfolio.positions p))
    as [held|] eqn:F.
  - specialize (Hsame held eq_refl).
    destruct (py_div _ _) as [avg|e]; [|intros [res R]; discriminate R].
    intros _. rewrite complete_trade_value. unfold Portfolio.total_value.
    cbn [Portfolio.cash Portfolio.positions Portfolio.set_cash Portfolio.set_positions].
    rewrite (positions_value_replace _ _ held) by exact F.
    unfold Position.market_value. cbn [Position.shares Position.current_price].
    rewrite Hcost, Hsame. ring.
  - intros _. rewrite complete_trade_value. unfold Portfolio.total_value.
    cbn [Portfolio.cash Portfolio.positions Portfolio.set_cash Portfolio.set_positions].
    rewrite positions_value_app.
    unfold Position.market_value. cbn [Position.shares Position.current_price].
    rewrite Hcost. ring.
Qed.

(** C10, in exact arithmetic.  A successful execution at a price equal to
    the last known price of the position it trades in leaves the total value
    of the portfolio (cash plus the market value of its positions) as it
    was; a buy that opens a position does so whatever the price.  The
    portfolio holds at most one position per security, as the data model has
    it. *)
Theorem execution_preserves_total_value
  (w : World) (portfolio : Portfolio.t) (rec : TradeRecommendation.t)
  (data : StockFundamentals.t) (txn : Transaction.t) :
  get_fundamentals (TradeRecommendation.symbol rec) = Some data ->
  out_result (execute w portfolio rec) = Return (Some txn) ->
  NoDup (map Position.symbol (Portfolio.positions portfolio)) ->
  (forall held,
     find_position (TradeRecommendation.symbol rec) (Portfolio.positions portfolio) = Some held ->
     Position.current_price held == StockFundamentals.price data) ->
  Portfolio.total_value (out_portfolio (execute w portfolio rec))
  == Portfolio.total_value portfolio.
Proof.
  intros Hdata Hdone Hnd Hsame. revert Hdone.
  unfold _execute_trade. rewrite Hdata.
  set (price := StockFundamentals.price data) in *.
  destruct (TradeRecommendation.action rec).
  - destruct (py_gt _ _).
    + destruct (py_div (Portfolio.cash portfolio) price) as [q|e]; [|discriminate].
      destruct (py_int q <=? 0)%Z; [discriminate|].
      intro Hdone. apply settle_buy_value.
      * apply Qeq_refl.
      * exact Hsame.
      * eexists; exact Hdone.
    + intro Hdone. apply settle_buy_value.
      * apply Qeq_refl.
      * exact Hsame.
      * eexists; exact Hdone.
  - unfold settle_sell.
    destruct (find_position (TradeRecommendation.symbol rec) (Portfolio.positions portfolio))
      as [held|] eqn:F; [|discriminate].
    intros _. specialize (Hsame held eq_refl).
    assert (Hsym : Position.symbol held = TradeRecommendation.symbol rec)
      by (eapply find_position_symbol; exact F).
    set (sold := py_min (TradeRecommendation.shares rec) (Position.shares held)).
    rewrite complete_trade_value.
    cbn [Portfolio.cash Portfolio.positions Portfolio.set_cash Portfolio.set_positions
         Position.shares].
    destruct (py_le (Position.shares held - sold) 0) eqn:E; unfold Portfolio.total_value;
      cbn [Portfolio.cash Portfolio.positions Portfolio.set_cash Portfolio.set_positions].
    + apply py_le_true in E.
      assert (Hs : sold <= Position.shares held).
      { unfold sold. rewrite py_min_Qmin. apply Q.le_min_r. }
      assert (Hall : sold == Position.shares held) by lra.
      rewrite remove_replace_position by exact Hsym.
      rewrite (positions_value_remove _ held) by assumption.
      unfold Position.market_value. rewrite Hall, Hsame. ring.
    + rewrite (positions_value_replace _ _ held) by exact F.
      unfold Position.market_value. cbn [Position.shares Position.current_price].
      rewrite Hsame. ring.
  - intros _. rewrite complete_trade_value. apply Qeq_refl.
Qed.


End Engine.


(** ** The run loop *)

Section Run.

Variable agent_type : AgentType.
Variable get_fundamentals : string -> option StockFundamentals.t.
Variable starting_portfolio_value : Q.
Variable analyze_market : string.
Variable generate_recommendations : Portfolio.t -> result (list TradeRecommendation.t).

Local Abbreviation execute := (_execute_trade agent_type get_fundamentals).
Local Abbreviation loop := (execute_recommendations agent_type get_fundamentals).


Lemma passes_gate_iff (r : TradeRecommendation.t) :
  passes_gate r = true <-> 7 # 10 <= TradeRecommendation.confidence r.
Proof. apply py_ge_true. Qed.

(** Every call of the engine is logged, whatever its outcome. *)
Lemma execute_logs_call (w : World) (p : Portfolio.t) (r : TradeRecommendation.t) :
  engine_calls (out_world (execute w p r)) = engine_calls w ++ [r].
Proof.
  unfold _execute_trade.
  destruct (get_fundamentals (TradeRecommendation.symbol r)) as [data|]; [|reflexivity].
  destruct (TradeRecommendation.action r).
  - destruct (py_gt _ _).
    + destruct (py_div _ _); [|reflexivity].
      destruct (_ <=? 0)%Z; [reflexivity|].
      unfold settle_buy. engine_simpl.
      destruct (find_position _ _); [destruct (py_div _ _)|]; reflexivity.
    + unfold settle_buy. engine_simpl.
      destruct (find_position _ _); [destruct (py_div _ _)|]; reflexivity.
  - unfold settle_sell. destruct (find_position _ _); reflexivity.
  - reflexivity.
Qed.

(** The engine changes nothing of a recommendation but its share count. *)
Lemma execute_keeps_confidence (w : World) (p : Portfolio.t) (r : TradeRecommendation.t) :
  TradeRecommendation.confidence (out_recommendation (execute w p r))
  = TradeRecommendation.confidence r.
Proof.
  unfold _execute_trade.
  destruct (get_fundamentals (TradeRecommendation.symbol r)) as [data|]; [|reflexivity].
  destruct (TradeRecommendation.action r).
  - destruct (py_gt _ _).
    + destruct (py_div _ _); [|reflexivity].
      destruct (_ <=? 0)%Z; [reflexivity|].
      unfold settle_buy. engine_simpl.
      destruct (find_position _ _); [destruct (py_div _ _)|]; reflexivity.
    + unfold settle_buy. engine_simpl.
      destruct (find_position _ _); [destruct (py_div _ _)|]; reflexivity.
  - unfold settle_sell. destruct (find_position _ _); reflexivity.
  - reflexivity.
Qed.

Lemma execute_keeps_request (w : World) (p : Portfolio.t) (r : TradeRecommendation.t) :
  let r' := out_recommendation (execute w p r) in
  TradeRecommendation.action r' = TradeRecommendation.action r /\
  TradeRecommendation.symbol r' = TradeRecommendation.symbol r /\
  TradeRecommendation.reasoning r' = TradeRecommendation.reasoning r.
Proof.
  unfold _execute_trade.
  destruct (get_fundamentals (TradeRecommendation.symbol r)) as [data|]; [|now cbn].
  destruct (TradeRecommendation.action r) eqn:A.
  - destruct (py_gt _ _).
    + destruct (py_div _ _); [|now cbn].
      destruct (_ <=? 0)%Z; [now cbn|].
      unfold settle_buy. engine_simpl.
      destruct (find_position _ _); [destruct (py_div _ _)|]; now cbn.
    + unfold settle_buy. engine_simpl.
      destruct (find_position _ _); [destruct (py_div _ _)|]; now cbn.
  - unfold settle_sell. destruct (find_position _ _); now cbn.
  - now cbn.
Qed.

(** What the loop hands to the engine is, in order, what passes the gate:
    all of it when the loop ends, a first part when a call raises. *)
Lemma loop_calls (recs : list TradeRecommendation.t) (w : World) (p : Portfolio.t)
  (ids : list uuid) :
  exists passed,
    engine_calls (loop_world (loop w p recs ids)) = engine_calls w ++ passed /\
    prefix_of passed (filter passes_gate recs) /\
    (forall done, loop_result (loop w p recs ids) = Return done ->
                  passed = filter passes_gate recs).
Proof.
  revert w p ids. induction recs as [|r recs IH]; intros w p ids; simpl.
  - exists []. rewrite app_nil_r. split; [reflexivity|]. split; [exists []; reflexivity|auto].
  - fold (passes_gate r). destruct (passes_gate r) eqn:G.
    + destruct (out_result (execute w p r)) as [txn|e] eqn:R; cbn [loop_world loop_result].
      * destruct (IH (out_world (execute w p r)) (out_portfolio (execute w p r))
                     (match txn with
                      | Some t => ids ++ [Transaction.transaction_id t]
                      | None => ids
                      end)) as (passed & Hc & (rest & Hp) & Hd).
        exists (r :: passed). rewrite Hc, execute_logs_call, <- app_assoc.
        split; [reflexivity|]. split.
        -- exists rest. simpl. now rewrite Hp.
        -- intros done Hdone. now rewrite (Hd done Hdone).
      * exists [r]. rewrite execute_logs_call. split; [reflexivity|]. split.
        -- exists (filter passes_gate recs). reflexivity.
        -- discriminate.
    + cbn [loop_world loop_result]. apply IH.
Qed.

(** The list of recommendations comes out of the loop as long as it went in,
    each element with its confidence, and untouched when it is below the
    gate. *)
Lemma loop_recommendations_kept (recs : list TradeRecommendation.t) (w : World)
  (p : Portfolio.t) (ids done : list uuid) :
  loop_result (loop w p recs ids) = Return done ->
  Forall2 (fun r r' => TradeRecommendation.confidence r' = TradeRecommendation.confidence r /\
                       (passes_gate r = false -> r' = r))
          recs (loop_recommendations (loop w p recs ids)).
Proof.
  revert w p ids. induction recs as [|r recs IH]; intros w p ids; simpl.
  - constructor.
  - fold (passes_gate r). destruct (passes_gate r) eqn:G.
    + destruct (out_result (execute w p r)) as [txn|e] eqn:R;
        cbn [loop_recommendations loop_result]; [|discriminate].
      intro H. constructor; [|apply IH; exact H].
      split; [apply execute_keeps_confidence|intro G'; congruence].
    + cbn [loop_recommendations loop_result]. intro H.
      constructor; [|apply IH; exact H]. split; reflexivity.
Qed.

Lemma loop_recommendations_listed (recs : list TradeRecommendation.t) (w : World)
  (p : Portfolio.t) (ids done : list uuid) :
  loop_result (loop w p recs ids) = Return done ->
  Forall2 listed_as recs
          (map TradeRecommendation.to_dict (loop_recommendations (loop w p recs ids))).
Proof.
  revert w p ids. induction recs as [|r recs IH]; intros w p ids; simpl.
  - constructor.
  - fold (passes_gate r). destruct (passes_gate r) eqn:G.
    + destruct (out_result (execute w p r)) as [txn|e] eqn:R;
        cbn [loop_recommendations loop_result map]; [|discriminate].
      intro H. constructor; [|apply IH; exact H].
      destruct (execute_keeps_request w p r) as (Ha & Hs & Hr).
      unfold listed_as, TradeRecommendation.to_dict.
      cbn [TradeRecommendation.d_action TradeRecommendation.d_symbol
           TradeRecommendation.d_reasoning TradeRecommendation.d_confidence
           TradeRecommendation.d_shares].
      rewrite Ha, Hs, Hr, execute_keeps_confidence.
      split; [reflexivity|]. split; [reflexivity|]. split; [reflexivity|].
      split; [reflexivity|]. intro G'. congruence.
    + cbn [loop_recommendations loop_result map]. intro H.
      constructor; [|apply IH; exact H].
      unfold listed_as, TradeRecommendation.to_dict.
      cbn [TradeRecommendation.d_action TradeRecommendation.d_symbol
           TradeRecommendation.d_reasoning TradeRecommendation.d_confidence
           TradeRecommendation.d_shares].
      split; [reflexivity|]. split; [reflexivity|]. split; [reflexivity|].
      split; reflexivity.
Qed.

(** On a portfolio that satisfies the invariant, with prices that are not
    negative and positive share counts, the loop ends. *)
Lemma loop_returns (recs : list TradeRecommendation.t) (w : World) (p : Portfolio.t)
  (ids : list uuid) :
  portfolio_invariant p ->
  Forall (fun r => 0 < TradeRecommendation.shares r) recs ->
  (forall s data, get_fundamentals s = Some data -> 0 <= StockFundamentals.price data) ->
  (exists done, loop_result (loop w p recs ids) = Return done) /\
  portfolio_invariant (loop_portfolio (loop w p recs ids)).
Proof.
  intros Hinv Hrecs Hprice. revert w p ids Hinv.
  induction Hrecs as [|r recs Hr Hrecs IH]; intros w p ids Hinv; simpl.
  - split; [eexists; reflexivity|exact Hinv].
  - destruct (py_ge _ _).
    + destruct (execute_keeps_invariant agent_type get_fundamentals w p r Hinv Hr
                  (Hprice (TradeRecommendation.symbol r))) as ((res & R) & Hinv').
      rewrite R. cbn [loop_result loop_portfolio]. apply IH. exact Hinv'.
    + cbn [loop_result loop_portfolio]. apply IH. exact Hinv.
Qed.

Lemma update_prices_invariant (p : Portfolio.t) :
  portfolio_invariant p -> portfolio_invariant (_update_portfolio_prices get_fundamentals p).
Proof.
  intros (Hcash & Hnd & Hpos). unfold portfolio_invariant, _update_portfolio_prices.
  cbn [Portfolio.cash Portfolio.positions Portfolio.set_positions].
  split; [exact Hcash|]. split.
  - rewrite map_map. erewrite map_ext; [exact Hnd|].
    intro q. destruct (get_fundamentals (Position.symbol q)); reflexivity.
  - apply Forall_map. eapply Forall_impl; [|exact Hpos].
    intros q Hq. destruct (get_fundamentals (Position.symbol q)); exact Hq.
Qed.

Lemma load_portfolio_invariant (w : World) (user_id : string) :
  (forall p, In p (db_portfolios w) -> portfolio_invariant p) ->
  0 <= starting_portfolio_value ->
  portfolio_invariant (fst (load_portfolio agent_type starting_portfolio_value w user_id)).
Proof.
  intros Hdb Hstart. unfold load_portfolio, get_portfolio.
  destruct (find _ _) as [p|] eqn:F; cbn [fst].
  - apply Hdb. now apply find_some in F.
  - unfold _initialize_portfolio. cbn [uuid4 utcnow fst]. unfold portfolio_invariant.
    cbn [Portfolio.cash Portfolio.positions map].
    split; [exact Hstart|]. split; constructor.
Qed.

Lemma load_portfolio_calls (w : World) (user_id : string) :
  engine_calls (snd (load_portfolio agent_type starting_portfolio_value w user_id))
  = engine_calls w.
Proof.
  unfold load_portfolio. destruct (get_portfolio _ _ _); reflexivity.
Qed.

Lemma Forall2_nth_error_left {A B : Type} (R : A -> B -> Prop) (l : list A) (l' : list B)
  (i : nat) (a : A) :
  Forall2 R l l' -> nth_error l i = Some a ->
  exists b, nth_error l' i = Some b /\ R a b.
Proof.
  intro H. revert i. induction H as [|x y l l' Hxy H IH]; intros [|i]; simpl;
    try discriminate.
  - intro E. injection E as ->. exists y. split; [reflexivity|exact Hxy].
  - apply IH.
Qed.

(** C6. In a run cycle the recommendations handed to the execution engine
    are, in order, those of the strategy whose confidence is at least 0.70:
    never one below it, and, when no call raises, all of them.  On a stored
    portfolio that satisfies the invariant, with prices that are not
    negative and positive share counts, the cycle ends with a persisted run
    whose list of recommendations has, at the place of every recommendation
    of the strategy, an entry with that recommendation's action, symbol,
    reasoning and confidence; a recommendation below 0.70 was not executed
    and its entry has all it was produced with, the share count too. *)
Theorem run_gates_on_confidence
  (w : World) (user_id : string) (recs : list TradeRecommendation.t) :
  let loaded := load_portfolio agent_type starting_portfolio_value (snd (utcnow w)) user_id in
  let portfolio := _update_portfolio_prices get_fundamentals (fst loaded) in
  let out := run agent_type get_fundamentals starting_portfolio_value analyze_market
                 generate_recommendations w user_id in
  generate_recommendations portfolio = Return recs ->
  exists passed,
    engine_calls (snd out) = engine_calls w ++ passed /\
    prefix_of passed (filter passes_gate recs) /\
    (forall r, In r passed -> 7 # 10 <= TradeRecommendation.confidence r) /\
    ((forall p, In p (db_portfolios w) -> portfolio_invariant p) ->
     0 <= starting_portfolio_value ->
     Forall (fun r => 0 < TradeRecommendation.shares r) recs ->
     (forall s data, get_fundamentals s = Some data -> 0 <= StockFundamentals.price data) ->
     exists run,
       fst out = Return run /\
       In run (db_runs (snd out)) /\
       passed = filter passes_gate recs /\
       (forall r, In r recs ->
                  (In r passed <-> 7 # 10 <= TradeRecommendation.confidence r)) /\
       List.length (AgentRun.recommendations run) = List.length recs /\
       (forall i r,
          nth_error recs i = Some r ->
          TradeRecommendation.confidence r < 7 # 10 ->
          ~ In r passed /\
          nth_error (AgentRun.recommendations run) i = Some (TradeRecommendation.to_dict r)) /\
       (forall i r,
          nth_error recs i = Some r ->
          exists entry,
            nth_error (AgentRun.recommendations run) i = Some entry /\
            TradeRecommendation.d_action entry
            = TransactionType_value (TradeRecommendation.action r) /\
            TradeRecommendation.d_symbol entry = TradeRecommendation.symbol r /\
            TradeRecommendation.d_reasoning entry = TradeRecommendation.reasoning r /\
            TradeRecommendation.d_confidence entry = TradeRecommendation.confidence r /\
            (TradeRecommendation.confidence r < 7 # 10 ->
             TradeRecommendation.d_shares entry = TradeRecommendation.shares r))).
Proof.
  intros loaded portfolio out Hgen.
  pose proof (load_portfolio_calls (snd (utcnow w)) user_id)
    as Hload.
  fold loaded in Hload.
  unfold out, run. cbn [utcnow]. cbn [utcnow snd] in loaded.
  unfold portfolio, loaded in *. clear loaded portfolio out.
  destruct (load_portfolio agent_type starting_portfolio_value _ user_id) as [p0 w1] eqn:L.
  cbn [fst snd] in *. rewrite Hgen.
  set (p1 := _update_portfolio_prices get_fundamentals p0) in *.
  destruct (loop_calls recs w1 p1 []) as (passed & Hc & Hpre & Hall).
  assert (Hgate : forall r, In r passed -> 7 # 10 <= TradeRecommendation.confidence r).
  { intros r Hr. destruct Hpre as (rest & Hrest).
    assert (Hin : In r (filter passes_gate recs)) by (rewrite Hrest; apply in_or_app; now left).
    apply filter_In in Hin. apply passes_gate_iff. tauto. }
  exists passed.
  destruct (loop_result (execute_recommendations agent_type get_fundamentals w1 p1 recs []))
    as [done|e] eqn:R.
  - cbn [fst snd utcnow uuid4 save_agent_run save_portfolio engine_calls db_runs].
    rewrite Hc, Hload. cbn [engine_calls].
    split; [reflexivity|]. split; [exact Hpre|]. split; [exact Hgate|].
    intros _ _ _ _. eexists. split; [reflexivity|].
    split; [apply in_or_app; right; left; reflexivity|].
    pose proof (Hall done eq_refl) as Hp. split; [exact Hp|].
    pose proof (loop_recommendations_kept recs w1 p1 [] done R)
      as Hkept.
    pose proof (loop_recommendations_listed recs w1 p1 [] done R) as Hlisted.
    assert (Hlow : forall r, TradeRecommendation.confidence r < 7 # 10 ->
                             passes_gate r = false).
    { intros r Hr. destruct (passes_gate r) eqn:G; [|reflexivity].
      apply passes_gate_iff in G. lra. }
    split; [|split; [|split]].
    + intros r Hr. rewrite Hp, filter_In, passes_gate_iff. tauto.
    + cbn [AgentRun.recommendations]. rewrite length_map.
      symmetry. eapply Forall2_length. exact Hkept.
    + intros i r Hi Hr. split.
      * intro Hin. apply Hgate in Hin. lra.
      * cbn [AgentRun.recommendations].
        destruct (Forall2_nth_error_left _ _ _ i r Hkept Hi) as (r' & Hi' & _ & Hsame).
        rewrite (Hsame (Hlow r Hr)) in Hi'. now apply map_nth_error.
    + intros i r Hi. cbn [AgentRun.recommendations].
      destruct (Forall2_nth_error_left _ _ _ i r Hlisted Hi)
        as (entry & He & Ha & Hs & Hre & Hco & Hsh).
      exists entry. split; [exact He|]. split; [exact Ha|]. split; [exact Hs|].
      split; [exact Hre|]. split; [exact Hco|].
      intro Hr. apply Hsh. apply Hlow. exact Hr.
  - cbn [fst snd]. rewrite Hc, Hload. cbn [engine_calls].
    split; [reflexivity|]. split; [exact Hpre|]. split; [exact Hgate|].
    intros Hdb Hstart Hrecs Hprice. exfalso.
    assert (Hinv : portfolio_invariant p1).
    { apply update_prices_invariant.
      pose proof (load_portfolio_invariant (snd (utcnow w)) user_id) as Hl.
      cbn [utcnow snd db_portfolios] in Hl. rewrite L in Hl. apply Hl; assumption. }
    destruct (loop_returns recs w1 p1 [] Hinv Hrecs Hprice)
      as ((done & Hd) & _).
    congruence.
Qed.


End Run.

(** ** Concrete runs of the engine *)

Ltac decide_Q := vm_compute; first [reflexivity | discriminate | intro; discriminate].

(** A buy of 10 shares at 300 with 1000 in cash is cut to 3 shares. *)
Lemma buy_clamped_to_affordable_floor_witness :
  let portfolio := portfolio_of 1000 [] in
  let rec := idea BUY "AAPL" 10 (8 # 10) in
  let floor := Qfloor (1000 / 300) in
  let o := _execute_trade BUFFETT (quote "AAPL" 300) empty_world portfolio rec in
  (floor = 0%Z -> out_result o = Return None) /\
  (floor <> 0%Z ->
   exists txn,
     out_result o = Return (Some txn) /\
     Transaction.shares txn = inject_Z floor /\
     held_shares "AAPL" (Portfolio.positions (out_portfolio o))
       == held_shares "AAPL" (Portfolio.positions portfolio) + inject_Z floor /\
     Portfolio.cash (out_portfolio o) == 1000 - inject_Z floor * 300 /\
     inject_Z floor * 300 <= 1000 /\
     0 <= Portfolio.cash (out_portfolio o)).
Proof.
  apply (buy_clamped_to_affordable_floor BUFFETT (quote "AAPL" 300) empty_world
           (portfolio_of 1000 []) (idea BUY "AAPL" 10 (8 # 10))
           (StockFundamentals.mk "AAPL" 300 None None None None None));
    decide_Q.
Defined.

(** C1 as stated fails on doubles.  With 885.9 in cash a buy of 10 shares at
    295.3 is cut to [int(885.9 / 295.3)] shares.  The quotient of the two
    doubles is below 3, its floor is 2, and it rounds to 3.0: three shares
    are bought, their cost rounds to 885.9000000000001, more than the cash,
    and the cash ends below zero, at about -1.1e-13. *)
Lemma clamped_buy_overdraws_on_doubles :
  let cash := 885.9%float in
  let price := 295.3%float in
  let o := Binary64._execute_trade (Binary64.quote "AAPL" price)
             (portfolio_on_doubles cash []) (idea_on_doubles BUY "AAPL" 10%float) in
  Binary64.py_gt (price * 10)%float cash = true /\
  Qfloor (Binary64.to_Q cash / Binary64.to_Q price) = 2%Z /\
  exists txn,
    Binary64.out_result o = Return (Some txn) /\
    Binary64.Transaction.shares txn = 3%float /\
    Binary64.Transaction.price txn = price /\
    (Binary64.Transaction.shares txn * price)%float = 885.9000000000001%float /\
    Binary64.py_gt (Binary64.Transaction.shares txn * price)%float cash = true /\
    Binary64.Portfolio.cash (Binary64.out_portfolio o) = (-1.1368683772161603e-13)%float /\
    Binary64.py_lt (Binary64.Portfolio.cash (Binary64.out_portfolio o)) 0%float = true.
Proof.
  split; [vm_compute; reflexivity|]. split; [vm_compute; reflexivity|].
  eexists. split; [vm_compute; reflexivity|].
  split; [vm_compute; reflexivity|]. split; [vm_compute; reflexivity|].
  split; [vm_compute; reflexivity|]. split; [vm_compute; reflexivity|].
  split; vm_compute; reflexivity.
Qed.

(** A buy of 10 shares at 200 into 10 shares held at an average of 100. *)
Lemma buy_weighted_average_cost_witness :
  let portfolio := portfolio_of 10000 [Position.mk "AAPL" 10 100 150] in
  let rec := idea BUY "AAPL" 10 (8 # 10) in
  let o := _execute_trade BUFFETT (quote "AAPL" 200) empty_world portfolio rec in
  exists txn,
    out_result o = Return (Some txn) /\
    Transaction.price txn = 200 /\
    0 < Transaction.shares txn /\
    match find_position "AAPL" (Portfolio.positions portfolio) with
    | Some old =>
        exists new,
          find_position "AAPL" (Portfolio.positions (out_portfolio o)) = Some new /\
          Position.shares new == Position.shares old + Transaction.shares txn /\
          Position.avg_cost new ==
            (Position.shares old * Position.avg_cost old + 200 * Transaction.shares txn)
            / (Position.shares old + Transaction.shares txn) /\
          Position.current_price new = 200
    | None =>
        find_position "AAPL" (Portfolio.positions (out_portfolio o))
          = Some (Position.mk "AAPL" (Transaction.shares txn) 200 200)
    end.
Proof.
  apply (buy_weighted_average_cost BUFFETT (quote "AAPL" 200) empty_world
           (portfolio_of 10000 [Position.mk "AAPL" 10 100 150])
           (idea BUY "AAPL" 10 (8 # 10))
           (StockFundamentals.mk "AAPL" 200 None None None None None)).
  - reflexivity.
  - reflexivity.
  - reflexivity.
  - left. decide_Q.
  - intros old H. injection H as <-. reflexivity.
Defined.

(** A sell of 20 shares of a position of 10 sells the 10. *)
Lemma sell_never_oversells_witness :
  let portfolio := portfolio_of 0 [Position.mk "AAPL" 10 100 100] in
  let rec := idea SELL "AAPL" 20 (9 # 10) in
  let o := _execute_trade BUFFETT (quote "AAPL" 100) empty_world portfolio rec in
  match find_position "AAPL" (Portfolio.positions portfolio) with
  | None =>
      out_result o = Return None /\
      out_portfolio o = portfolio /\
      db_transactions (out_world o) = db_transactions empty_world
  | Some held =>
      let sold := Qmin 20 (Position.shares held) in
      let left := Position.shares held - sold in
      (exists txn, out_result o = Return (Some txn)) /\
      Portfolio.cash (out_portfolio o) == Portfolio.cash portfolio + sold * 100 /\
      held_shares "AAPL" (Portfolio.positions (out_portfolio o)) == left /\
      0 <= left /\
      (find_position "AAPL" (Portfolio.positions (out_portfolio o)) = None <-> left == 0)
  end.
Proof.
  apply (sell_never_oversells BUFFETT (quote "AAPL" 100) empty_world
           (portfolio_of 0 [Position.mk "AAPL" 10 100 100])
           (idea SELL "AAPL" 20 (9 # 10))
           (StockFundamentals.mk "AAPL" 100 None None None None None));
    reflexivity.
Defined.

(** C4 on the code: the same sell of 20 shares out of 10.  Ten shares leave
    the portfolio and 1000 comes in, and the transaction that is saved says
    20 shares, the number asked for. *)
Lemma oversell_transaction_records_request :
  let portfolio := portfolio_of 0 [Position.mk "AAPL" 10 100 100] in
  let rec := idea SELL "AAPL" 20 (9 # 10) in
  let o := _execute_trade BUFFETT (quote "AAPL" 100) empty_world portfolio rec in
  exists txn,
    out_result o = Return (Some txn) /\
    db_transactions (out_world o) = [txn] /\
    Transaction.shares txn = 20 /\
    Portfolio.cash (out_portfolio o) == 1000 /\
    Portfolio.positions (out_portfolio o) = [].
Proof.
  eexists. split; [reflexivity|]. split; [reflexivity|]. split; [reflexivity|].
  split; reflexivity.
Qed.

(** A buy of 10 shares at 175 with 100000 in cash keeps the invariant. *)
Lemma execution_preserves_invariant_witness :
  let portfolio := portfolio_of 100000 [] in
  let rec := idea BUY "AAPL" 10 (8 # 10) in
  let o := _execute_trade BUFFETT (quote "AAPL" 175) empty_world portfolio rec in
  (exists res, out_result o = Return res) /\ portfolio_invariant (out_portfolio o).
Proof.
  apply (execution_preserves_invariant BUFFETT (quote "AAPL" 175) empty_world
           (portfolio_of 100000 []) (idea BUY "AAPL" 10 (8 # 10))).
  - split; [decide_Q|]. split; constructor.
  - reflexivity.
  - intros data H. injection H as <-. decide_Q.
Defined.

(** C7 as stated fails, in two ways.  A buy of 0 shares of a security that
    is not held costs nothing, is not declined, and opens a position of 0
    shares.  And on doubles a buy of a positive number of shares can leave
    the cash below zero: with 885.9 in cash and no position, a buy of 10
    shares at 295.3 is cut to 3 shares whose cost rounds to more than the
    cash. *)
Lemma execution_breaks_invariant :
  (let portfolio := portfolio_of 1000 [] in
   let rec := idea BUY "AAPL" 0 (8 # 10) in
   let o := _execute_trade BUFFETT (quote "AAPL" 100) empty_world portfolio rec in
   portfolio_invariant portfolio /\
   (exists txn, out_result o = Return (Some txn)) /\
   Portfolio.positions (out_portfolio o) = [Position.mk "AAPL" 0 100 100] /\
   ~ portfolio_invariant (out_portfolio o)) /\
  (let portfolio := portfolio_on_doubles 885.9%float [] in
   let rec := idea_on_doubles BUY "AAPL" 10%float in
   let o := Binary64._execute_trade (Binary64.quote "AAPL" 295.3%float) portfolio rec in
   Binary64.py_le 0%float (Binary64.Portfolio.cash portfolio) = true /\
   Binary64.py_lt 0%float (Binary64.TradeRecommendation.shares rec) = true /\
   (exists txn, Binary64.out_result o = Return (Some txn)) /\
   Binary64.py_le 0%float (Binary64.Portfolio.cash (Binary64.out_portfolio o)) = false).
Proof.
  split.
  - split; [split; [decide_Q|split; constructor]|].
    split; [eexists; reflexivity|]. split; [reflexivity|].
    intros (_ & _ & H). inversion H as [|q l Hq Hl]; subst.
    revert Hq. decide_Q.
  - split; [vm_compute; reflexivity|]. split; [vm_compute; reflexivity|].
    split; [eexists; vm_compute; reflexivity|vm_compute; reflexivity].
Qed.

(** A buy of 10 shares at 150 into a position last priced at 150. *)
Lemma execution_preserves_total_value_witness :
  let portfolio := portfolio_of 10000 [Position.mk "AAPL" 10 100 150] in
  let rec := idea BUY "AAPL" 10 (8 # 10) in
  let o := _execute_trade BUFFETT (quote "AAPL" 150) empty_world portfolio rec in
  Portfolio.total_value (out_portfolio o) == Portfolio.total_value portfolio.
Proof.
  eapply (execution_preserves_total_value BUFFETT (quote "AAPL" 150) empty_world
            (portfolio_of 10000 [Position.mk "AAPL" 10 100 150])
            (idea BUY "AAPL" 10 (8 # 10))
            (StockFundamentals.mk "AAPL" 150 None None None None None)).
  - reflexivity.
  - reflexivity.
  - constructor; [intros []|constructor].
  - intros held H. injection H as <-. reflexivity.
Defined.

(** C10 as stated fails on doubles.  With 56345.0 in cash and 366 shares
    last priced at 69.2, a buy of 336 more shares at 69.2 succeeds at the
    position's last known price, and the total value goes from 81672.2 to
    81672.20000000001: the cost taken from the cash and the value added to
    the position are rounded apart. *)
Lemma buy_at_last_price_moves_total_value_on_doubles :
  let price := 69.2%float in
  let held := Binary64.Position.mk "XYZ" 366%float price price in
  let portfolio := portfolio_on_doubles 56345%float [held] in
  let o := Binary64._execute_trade (Binary64.quote "XYZ" price) portfolio
             (idea_on_doubles BUY "XYZ" 336%float) in
  (exists txn,
     Binary64.out_result o = Return (Some txn) /\
     Binary64.Transaction.price txn = Binary64.Position.current_price held) /\
  Binary64.Portfolio.total_value portfolio = 81672.2%float /\
  Binary64.Portfolio.total_value (Binary64.out_portfolio o) = 81672.20000000001%float /\
  Binary64.py_lt (Binary64.Portfolio.total_value portfolio)
                 (Binary64.Portfolio.total_value (Binary64.out_portfolio o)) = true.
Proof.
  split; [eexists; split; vm_compute; reflexivity|].
  split; [vm_compute; reflexivity|]. split; vm_compute; reflexivity.
Qed.

(** A first cycle for a new user, at a price of 175: of the two ideas only
    the one at confidence 0.8 reaches the engine, and both are in the run. *)
Lemma run_gates_on_confidence_witness :
  let recs := [idea BUY "AAPL" 10 (8 # 10); idea BUY "AAPL" 5 (5 # 10)] in
  let out := run BUFFETT (quote "AAPL" 175) 100000 "Market looks good" two_ideas
                 empty_world "test-user" in
  exists passed,
    engine_calls (snd out) = engine_calls empty_world ++ passed /\
    prefix_of passed (filter passes_gate recs) /\
    (forall r, In r passed -> 7 # 10 <= TradeRecommendation.confidence r) /\
    ((forall p, In p (db_portfolios empty_world) -> portfolio_invariant p) ->
     0 <= 100000 ->
     Forall (fun r => 0 < TradeRecommendation.shares r) recs ->
     (forall s data, quote "AAPL" 175 s = Some data -> 0 <= StockFundamentals.price data) ->
     exists run,
       fst out = Return run /\
       In run (db_runs (snd out)) /\
       passed = filter passes_gate recs /\
       (forall r, In r recs ->
                  (In r passed <-> 7 # 10 <= TradeRecommendation.confidence r)) /\
       List.length (AgentRun.recommendations run) = List.length recs /\
       (forall i r,
          nth_error recs i = Some r ->
          TradeRecommendation.confidence r < 7 # 10 ->
          ~ In r passed /\
          nth_error (AgentRun.recommendations run) i = Some (TradeRecommendation.to_dict r)) /\
       (forall i r,
          nth_error recs i = Some r ->
          exists entry,
            nth_error (AgentRun.recommendations run) i = Some entry /\
            TradeRecommendation.d_action entry
            = TransactionType_value (TradeRecommendation.action r) /\
            TradeRecommendation.d_symbol entry = TradeRecommendation.symbol r /\
            TradeRecommendation.d_reasoning entry = TradeRecommendation.reasoning r /\
            TradeRecommendation.d_confidence entry = TradeRecommendation.confidence r /\
            (TradeRecommendation.confidence r < 7 # 10 ->
             TradeRecommendation.d_shares entry = TradeRecommendation.shares r))).
Proof.
  intros recs out.
  exact (run_gates_on_confidence BUFFETT (quote "AAPL" 175) 100000 "Market looks good"
           two_ideas empty_world "test-user"
           [idea BUY "AAPL" 10 (8 # 10); idea BUY "AAPL" 5 (5 # 10)] eq_refl).
Defined.

(** The same cycle, evaluated: one call of the engine, one transaction, a run
    that lists both recommendations. *)
Example first_cycle :
  let out := run BUFFETT (quote "AAPL" 175) 100000 "Market looks good" two_ideas
                 empty_world "test-user" in
  engine_calls (snd out) = [idea BUY "AAPL" 10 (8 # 10)] /\
  List.length (db_transactions (snd out)) = 1%nat /\
  exists run,
    fst out = Return run /\
    AgentRun.executed_trades run = [1%nat] /\
    AgentRun.recommendations run
    = map TradeRecommendation.to_dict
        [idea BUY "AAPL" 10 (8 # 10); idea BUY "AAPL" 5 (5 # 10)].
Proof.
  vm_compute. split; [reflexivity|]. split; [reflexivity|]. eexists.
  split; [reflexivity|]. split; reflexivity.
Qed.

(** ** The deep-value valuation *)

(** Away from an earnings growth of exactly zero the valuation is Graham's
    formula.  For a price that is not zero and a positive P/E the intrinsic
    value is [EPS * (8.5 + 2 * g)] with [EPS = price / P/E] and [g], the
    growth in percent, kept in [0, 15].  For a positive intrinsic value the
    margin of safety is [max(0, (intrinsic - price) / intrinsic)].  At a
    price of 50, a P/E of 10 and a growth of 5 percent the intrinsic value is
    92.50 and the margin 17/37, about 45.9 percent. *)
Theorem graham_intrinsic_value_and_margin (data : StockFundamentals.t) (pe_ratio : Q) :
  StockFundamentals.pe_ratio data = Some pe_ratio ->
  0 < pe_ratio ->
  ~ StockFundamentals.price data == 0 ->
  growth_not_zero data ->
  let price := StockFundamentals.price data in
  Graham._calculate_intrinsic_value data
  == graham_formula price pe_ratio (growth_in_percent data) /\
  (forall intrinsic, 0 < intrinsic ->
     Graham._calculate_margin_of_safety data intrinsic
     == Qmax 0 ((intrinsic - price) / intrinsic)) /\
  (StockFundamentals.earnings_growth data = Some (5 # 100) ->
   price == 50 -> pe_ratio == 10 ->
   Graham._calculate_intrinsic_value data == 925 # 10 /\
   Graham._calculate_margin_of_safety data (Graham._calculate_intrinsic_value data)
   == 17 # 37).
Proof.
  intros Hpe Hpos Hprice Hgrowth price.
  assert (Hp : Qeq_bool price 0 = false) by (apply Qeq_bool_false; exact Hprice).
  assert (Hz : Qeq_bool pe_ratio 0 = false) by (apply Qeq_bool_false; lra).
  assert (Hle : py_le pe_ratio 0 = false) by (apply py_le_false; exact Hpos).
  assert (Hiv : Graham._calculate_intrinsic_value data
                == graham_formula price pe_ratio (growth_in_percent data)).
  { unfold Graham._calculate_intrinsic_value, graham_formula, growth_in_percent,
      Graham.truthy.
    rewrite Hpe. fold price. rewrite Hp, Hz, Hle. cbn [negb orb].
    destruct (StockFundamentals.earnings_growth data) as [g|] eqn:G.
    - assert (Hg : Qeq_bool g 0 = false) by (apply Qeq_bool_false; exact (Hgrowth g G)).
      rewrite Hg. cbn [negb]. rewrite py_min_Qmin, py_max_Qmax. apply Qeq_refl.
    - rewrite (Q.max_r 0 5), (Q.min_r 15 5) by lra. apply Qeq_refl. }
  assert (Hm : forall intrinsic, 0 < intrinsic ->
                 Graham._calculate_margin_of_safety data intrinsic
                 == Qmax 0 ((intrinsic - price) / intrinsic)).
  { intros intrinsic Hi. unfold Graham._calculate_margin_of_safety, Graham.truthy.
    fold price. rewrite Hp. cbn [negb].
    assert (E : py_le intrinsic 0 = false) by (apply py_le_false; exact Hi).
    rewrite E. cbn [orb]. apply py_max_Qmax. }
  split; [exact Hiv|]. split; [exact Hm|].
  intros Hg H50 H10.
  assert (V : Graham._calculate_intrinsic_value data == 925 # 10).
  { rewrite Hiv. unfold graham_formula, growth_in_percent. rewrite Hg.
    rewrite H50, H10.
    rewrite (Q.max_r 0 ((5 # 100) * 100)), (Q.min_r 15 ((5 # 100) * 100)) by lra.
    reflexivity. }
  split; [exact V|].
  rewrite Hm by (rewrite V; reflexivity).
  rewrite V, H50. rewrite Q.max_r by (apply Qle_shift_div_l; lra). reflexivity.
Qed.

(** The example of the specification. *)
Lemma graham_intrinsic_value_and_margin_witness :
  let data := fundamentals "XYZ" 50 10 (Some (5 # 100)) in
  Graham._calculate_intrinsic_value data
  == graham_formula 50 10 (growth_in_percent data) /\
  (forall intrinsic, 0 < intrinsic ->
     Graham._calculate_margin_of_safety data intrinsic
     == Qmax 0 ((intrinsic - 50) / intrinsic)) /\
  (StockFundamentals.earnings_growth data = Some (5 # 100) ->
   50 == 50 -> 10 == 10 ->
   Graham._calculate_intrinsic_value data == 925 # 10 /\
   Graham._calculate_margin_of_safety data (Graham._calculate_intrinsic_value data)
   == 17 # 37).
Proof.
  intro data.
  exact (graham_intrinsic_value_and_margin (fundamentals "XYZ" 50 10 (Some (5 # 100))) 10
           eq_refl eq_refl ltac:(discriminate)
           ltac:(intros g H; injection H as <-; discriminate)).
Defined.

(** C9 on the code, at an earnings growth of zero.  The growth in percent is
    0 and the formula of the claim gives [5 * 8.5 = 42.5]; the code tests
    [if data.earnings_growth:], takes the zero for a missing growth, keeps
    its default of 5 percent and returns [5 * 18.5 = 92.5].  A growth just
    below zero is valued at 42.5 and one just above at 42.6. *)
Lemma zero_growth_is_valued_at_five_percent :
  let value g := Graham._calculate_intrinsic_value (fundamentals "XYZ" 50 10 (Some g)) in
  graham_formula 50 10 (0 * 100) == 425 # 10 /\
  value 0 == 925 # 10 /\
  ~ value 0 == graham_formula 50 10 (0 * 100) /\
  value (- (1 # 10000)) == 425 # 10 /\
  value (1 # 10000) == 426 # 10.
Proof.
  split; [reflexivity|]. split; [reflexivity|]. split; [discriminate|].
  split; reflexivity.
Qed.

(** ** The risk-parity allocator *)

(** Where truncation gives a positive number it is the floor, and it gives
    one exactly when the floor is positive. *)
Lemma py_int_positive (q : Q) :
  (0 <? py_int q)%Z = (0 <? Qfloor q)%Z /\ ((0 < Qfloor q)%Z -> py_int q = Qfloor q).
Proof.
  destruct (Qlt_le_dec q 0) as [Hneg|Hpos].
  - assert (H1 : (py_int q <= 0)%Z) by (apply py_int_nonpos; lra).
    assert (H2 : (Qfloor q < 0)%Z).
    { rewrite Zlt_Qlt. pose proof (Qfloor_le q). change (inject_Z 0) with 0. lra. }
    split; [|lia].
    destruct (Z.ltb_spec 0 (py_int q)), (Z.ltb_spec 0 (Qfloor q)); try reflexivity; lia.
  - rewrite py_int_floor by exact Hpos. split; reflexivity.
Qed.

Lemma dict_get_set (d : list (string * Q)) (k k' : string) (v default : Q) :
  Dalio.dict_get (Dalio.dict_set d k v) k' default
  = if String.eqb k k' then v else Dalio.dict_get d k' default.
Proof.
  unfold Dalio.dict_get. induction d as [|[k0 v0] d IH]; simpl.
  - destruct (String.eqb k k'); reflexivity.
  - destruct (String.eqb k0 k) eqn:E; simpl.
    + apply String.eqb_eq in E. subst k0. destruct (String.eqb k k'); reflexivity.
    + destruct (String.eqb k0 k') eqn:E'; simpl.
      * apply String.eqb_eq in E'. subst k0. rewrite String.eqb_sym, E. reflexivity.
      * exact IH.
Qed.

Lemma allocation_of_absent (total : Q) (s : string) (l : list Position.t)
  (acc : list (string * Q)) :
  ~ In s (map Position.symbol l) ->
  Dalio.dict_get
    (fold_left (fun allocation position =>
                  Dalio.dict_set allocation (Position.symbol position)
                                 (Position.market_value position / total)) l acc) s 0
  = Dalio.dict_get acc s 0.
Proof.
  revert acc. induction l as [|p l IH]; intros acc H; simpl; [reflexivity|].
  simpl in H. rewrite IH by tauto. rewrite dict_get_set.
  destruct (String.eqb (Position.symbol p) s) eqn:E; [|reflexivity].
  apply String.eqb_eq in E. tauto.
Qed.

Lemma allocation_of_held (total : Q) (s : string) (pos : Position.t) (l : list Position.t)
  (acc : list (string * Q)) :
  NoDup (map Position.symbol l) -> find_position s l = Some pos ->
  Dalio.dict_get
    (fold_left (fun allocation position =>
                  Dalio.dict_set allocation (Position.symbol position)
                                 (Position.market_value position / total)) l acc) s 0
  = Position.market_value pos / total.
Proof.
  revert acc. induction l as [|p l IH]; intros acc Hnd H; simpl in *; [discriminate|].
  inversion Hnd as [|x xs Hnotin Hnd']; subst.
  destruct (String.eqb (Position.symbol p) s) eqn:E.
  - injection H as ->. apply String.eqb_eq in E. subst s.
    rewrite allocation_of_absent by exact Hnotin.
    rewrite dict_get_set, String.eqb_refl. reflexivity.
  - apply IH; assumption.
Qed.

(** In a portfolio of positive value with one position per security the
    weight of a held security is its market value over the total value. *)
Lemma current_weight_of_held (portfolio : Portfolio.t) (s : string) (pos : Position.t) :
  0 < Portfolio.total_value portfolio ->
  NoDup (map Position.symbol (Portfolio.positions portfolio)) ->
  find_position s (Portfolio.positions portfolio) = Some pos ->
  current_weight portfolio s = Position.market_value pos / Portfolio.total_value portfolio.
Proof.
  intros Htot Hnd F. unfold current_weight, Dalio._calculate_current_allocation.
  assert (E : py_le (Portfolio.total_value portfolio) 0 = false) by (now apply py_le_false).
  rewrite E. apply allocation_of_held; assumption.
Qed.

Section DalioProperties.

Variable get_fundamentals : string -> option StockFundamentals.t.

(** The body of the rebalancing loop, in exact arithmetic.  For a target
    asset whose weight is more than 5 percentage points away from its
    target, one pass of the loop adds at most one recommendation, and none
    when the asset has no fundamentals: below target, a buy of [floor((target_value -
    current_value) / price)] shares exactly when that number is positive
    and cash covers the whole shortfall; at or above target, a sell of
    [floor((current_value - target_value) / price)] shares exactly when that
    number is positive and the position holds as many.  Such a sell, at the
    last known price of a position in a portfolio of positive value with one
    position per security, is covered by the shares held and leaves the
    position worth the target value or more, by less than the price of one
    share. *)
Lemma rebalance_of_drifted_asset
  (portfolio : Portfolio.t) (symbol : string) (target_weight : Q)
  (recommendations : list TradeRecommendation.t) :
  let weight := current_weight portfolio symbol in
  let total := Portfolio.total_value portfolio in
  let target_value := total * target_weight in
  let current_value := total * weight in
  Dalio.REBALANCE_THRESHOLD < Qabs (weight - target_weight) ->
  (forall data, get_fundamentals symbol = Some data -> 0 < StockFundamentals.price data) ->
  exists new,
    Dalio.rebalance_asset get_fundamentals portfolio
      (Dalio._calculate_current_allocation portfolio) total recommendations
      (symbol, target_weight)
    = Return (recommendations ++ new) /\
    (List.length new <= 1)%nat /\
    match get_fundamentals symbol with
    | None => new = []
    | Some data =>
        let price := StockFundamentals.price data in
        let to_buy := Qfloor ((target_value - current_value) / price) in
        let to_sell := Qfloor ((current_value - target_value) / price) in
        let buy :=
          TradeRecommendation.mk BUY symbol (inject_Z to_buy)
            (RebalanceNote weight target_weight) (85 # 100) in
        let sell :=
          TradeRecommendation.mk SELL symbol (inject_Z to_sell)
            (RebalanceNote weight target_weight) (85 # 100) in
        let funded :=
          (0 < to_buy)%Z /\ target_value - current_value <= Portfolio.cash portfolio in
        let covered :=
          (0 < to_sell)%Z /\
          inject_Z to_sell <= held_shares symbol (Portfolio.positions portfolio) in
        (weight < target_weight -> (funded -> new = [buy]) /\ (~ funded -> new = [])) /\
        (target_weight <= weight -> (covered -> new = [sell]) /\ (~ covered -> new = [])) /\
        (forall position,
           find_position symbol (Portfolio.positions portfolio) = Some position ->
           Position.current_price position == price ->
           NoDup (map Position.symbol (Portfolio.positions portfolio)) ->
           0 < total -> 0 <= target_weight -> target_weight <= weight ->
           inject_Z to_sell <= Position.shares position /\
           target_value <= (Position.shares position - inject_Z to_sell) * price /\
           (Position.shares position - inject_Z to_sell) * price < target_value + price)
    end.
Proof.
  intros weight total target_value current_value Hdrift Hprice.
  unfold Dalio.rebalance_asset. fold (current_weight portfolio symbol). fold weight.
  assert (G : py_gt (Qabs (weight - target_weight)) Dalio.REBALANCE_THRESHOLD = true)
    by (apply py_gt_true; exact Hdrift).
  rewrite G.
  destruct (get_fundamentals symbol) as [data|] eqn:D.
  2:{ exists []. rewrite app_nil_r. split; [reflexivity|]. split; [simpl; lia|reflexivity]. }
  specialize (Hprice data eq_refl).
  set (price := StockFundamentals.price data) in *.
  fold target_value current_value.
  (* the sell that closes the gap of a position priced at [price] *)
  assert (Hclose : forall position,
           find_position symbol (Portfolio.positions portfolio) = Some position ->
           Position.current_price position == price ->
           NoDup (map Position.symbol (Portfolio.positions portfolio)) ->
           0 < total -> 0 <= target_weight -> target_weight <= weight ->
           inject_Z (Qfloor ((current_value - target_value) / price))
             <= Position.shares position /\
           target_value
             <= (Position.shares position
                 - inject_Z (Qfloor ((current_value - target_value) / price))) * price /\
           (Position.shares position
            - inject_Z (Qfloor ((current_value - target_value) / price))) * price
             < target_value + price).
  { intros position F Hsame Hnd Htot Htw Hover.
    assert (Hcv : current_value == Position.shares position * price).
    { unfold current_value, weight.
      rewrite (current_weight_of_held portfolio symbol position Htot Hnd F).
      unfold Position.market_value. fold total. rewrite Hsame. field. lra. }
    assert (Htv : 0 <= target_value) by (apply Qmult_le_0_compat; lra).
    pose proof (floor_times_le (current_value - target_value) price Hprice) as Hlo.
    pose proof (floor_times_gt (current_value - target_value) price Hprice) as Hhi.
    set (k := inject_Z (Qfloor ((current_value - target_value) / price))) in *.
    split; [|split]; nra. }
  destruct (py_lt weight target_weight) eqn:L.
  - apply py_lt_true in L.
    rewrite py_div_defined by lra. cbn [bind].
    destruct (py_int_positive ((target_value - current_value) / price)) as [Hb Heq].
    rewrite Hb.
    destruct (0 <? Qfloor ((target_value - current_value) / price))%Z eqn:P; cbn [andb].
    + apply Z.ltb_lt in P. rewrite (Heq P).
      destruct (py_le (target_value - current_value) (Portfolio.cash portfolio)) eqn:C.
      * apply py_le_true in C. eexists. split; [reflexivity|]. split; [simpl; lia|].
        split; [|split; [intro; lra|exact Hclose]].
        intros _. split; [reflexivity|]. intro N. exfalso. apply N. split; assumption.
      * apply py_le_false in C. exists []. rewrite app_nil_r.
        split; [reflexivity|]. split; [simpl; lia|].
        split; [|split; [intro; lra|exact Hclose]].
        intros _. split; [|reflexivity]. intros [_ F]. lra.
    + apply Z.ltb_ge in P. exists []. rewrite app_nil_r.
      split; [reflexivity|]. split; [simpl; lia|].
      split; [|split; [intro; lra|exact Hclose]].
      intros _. split; [|reflexivity]. intros [F _]. lia.
  - apply py_lt_false in L.
    rewrite py_div_defined by lra. cbn [bind].
    destruct (py_int_positive ((current_value - target_value) / price)) as [Hb Heq].
    rewrite Hb.
    destruct (0 <? Qfloor ((current_value - target_value) / price))%Z eqn:P; cbn [andb].
    + apply Z.ltb_lt in P. rewrite (Heq P).
      assert (Hk : 0 < inject_Z (Qfloor ((current_value - target_value) / price))).
      { change 0 with (inject_Z 0). rewrite <- Zlt_Qlt. exact P. }
      unfold held_shares.
      destruct (find_position symbol (Portfolio.positions portfolio)) as [position|] eqn:F.
      * destruct (py_ge (Position.shares position)
                        (inject_Z (Qfloor ((current_value - target_value) / price)))) eqn:C.
        -- apply py_ge_true in C. eexists. split; [reflexivity|]. split; [simpl; lia|].
           split; [intro; lra|]. split; [|exact Hclose].
           intros _. split; [reflexivity|]. intro N. exfalso. apply N. split; assumption.
        -- apply py_ge_false in C. exists []. rewrite app_nil_r.
           split; [reflexivity|]. split; [simpl; lia|].
           split; [intro; lra|]. split; [|exact Hclose].
           intros _. split; [|reflexivity]. intros [_ Hc]. lra.
      * exists []. rewrite app_nil_r. split; [reflexivity|]. split; [simpl; lia|].
        split; [intro; lra|]. split; [|intros position Hp; discriminate Hp].
        intros _. split; [|reflexivity]. intros [_ Hc]. lra.
    + apply Z.ltb_ge in P. exists []. rewrite app_nil_r.
      split; [reflexivity|]. split; [simpl; lia|].
      split; [intro; lra|]. split; [|exact Hclose].
      intros _. split; [|reflexivity]. intros [Hc _]. lia.
Qed.

End DalioProperties.

(** The rebalancing loop runs the body once per target asset, in order. *)
Lemma rebalance_step (get_fundamentals : string -> option StockFundamentals.t)
  (portfolio : Portfolio.t) (allocation : list (string * Q)) (total : Q)
  (recommendations : list TradeRecommendation.t) (item : string * Q)
  (rest : list (string * Q)) :
  Dalio.rebalance get_fundamentals portfolio allocation total recommendations (item :: rest)
  = bind (Dalio.rebalance_asset get_fundamentals portfolio allocation total recommendations item)
         (fun recommendations =>
            Dalio.rebalance get_fundamentals portfolio allocation total recommendations rest).
Proof. reflexivity. Qed.


(** *** The loop inside [generate_recommendations] *)

Section DalioLoop.

Variable get_fundamentals : string -> option StockFundamentals.t.

Hypothesis prices_positive :
  forall s data, get_fundamentals s = Some data -> 0 < StockFundamentals.price data.

(** At positive prices a pass of the loop body returns; what it adds does not
    depend on what was collected before, is for the asset of the pass and
    carries a rebalancing note. *)
Lemma rebalance_asset_adds (portfolio : Portfolio.t) (allocation : list (string * Q))
  (total : Q) (symbol : string) (target_weight : Q) :
  exists new,
    (forall acc,
       Dalio.rebalance_asset get_fundamentals portfolio allocation total acc
         (symbol, target_weight) = Return (acc ++ new)) /\
    filter (is_rebalancing_of symbol) new = new /\
    (forall s, s <> symbol -> filter (is_rebalancing_of s) new = []).
Proof.
  assert (Hnone : exists new : list TradeRecommendation.t,
            (forall acc : list TradeRecommendation.t, Return acc = Return (acc ++ new)) /\
            filter (is_rebalancing_of symbol) new = new /\
            (forall s, s <> symbol -> filter (is_rebalancing_of s) new = [])).
  { exists []. split; [intro acc; now rewrite app_nil_r|]. split; reflexivity. }
  assert (Hone : forall action shares cw tw,
            let r := TradeRecommendation.mk action symbol shares (RebalanceNote cw tw)
                       (85 # 100) in
            exists new : list TradeRecommendation.t,
              (forall acc : list TradeRecommendation.t,
                 Return (acc ++ [r]) = Return (acc ++ new)) /\
              filter (is_rebalancing_of symbol) new = new /\
              (forall s, s <> symbol -> filter (is_rebalancing_of s) new = [])).
  { intros action shares cw tw r. exists [r]. split; [reflexivity|].
    unfold is_rebalancing_of. cbn [filter TradeRecommendation.symbol
      TradeRecommendation.reasoning r]. split.
    - rewrite String.eqb_refl. reflexivity.
    - intros s Hs. destruct (String.eqb symbol s) eqn:E; [|reflexivity].
      apply String.eqb_eq in E. congruence. }
  unfold Dalio.rebalance_asset.
  destruct (py_gt _ Dalio.REBALANCE_THRESHOLD); [|exact Hnone].
  destruct (get_fundamentals symbol) as [data|] eqn:D; [|exact Hnone].
  pose proof (prices_positive symbol data D) as Hp.
  destruct (py_lt _ target_weight).
  - rewrite py_div_defined by lra. cbn [bind].
    destruct (0 <? _)%Z; cbn [andb]; [|exact Hnone].
    destruct (py_le _ _); [|exact Hnone]. apply Hone.
  - rewrite py_div_defined by lra. cbn [bind].
    destruct (0 <? _)%Z; cbn [andb]; [|exact Hnone].
    destruct (find_position symbol (Portfolio.positions portfolio)); [|exact Hnone].
    destruct (py_ge _ _); [|exact Hnone]. apply Hone.
Qed.

(** The loop collects, asset by asset, what the passes of its body add: of
    what it returns, the rebalancing recommendations for an asset are those
    of the pass for that asset. *)
Lemma rebalance_collects (portfolio : Portfolio.t) (allocation : list (string * Q))
  (total : Q) (items : list (string * Q)) :
  NoDup (map fst items) ->
  exists out,
    (forall acc,
       Dalio.rebalance get_fundamentals portfolio allocation total acc items
       = Return (acc ++ out)) /\
    (forall s, ~ In s (map fst items) -> filter (is_rebalancing_of s) out = []) /\
    (forall s tw, In (s, tw) items ->
       Dalio.rebalance_asset get_fundamentals portfolio allocation total [] (s, tw)
       = Return (filter (is_rebalancing_of s) out)).
Proof.
  induction items as [|[s0 tw0] items IH]; intro Hnd.
  - exists []. split; [intro acc; simpl; now rewrite app_nil_r|].
    split; [reflexivity|intros s tw []].
  - cbn [map fst] in Hnd. inversion Hnd as [|x xs Hnotin Hnd']; subst.
    destruct (IH Hnd') as (out & Hout & Habsent & Hpresent).
    destruct (rebalance_asset_adds portfolio allocation total s0 tw0)
      as (new & Hnew & Hself & Hother).
    exists (new ++ out). split; [|split].
    + intro acc. cbn [Dalio.rebalance]. rewrite Hnew. cbn [bind].
      rewrite Hout, app_assoc. reflexivity.
    + intros s Hs. cbn [map fst In] in Hs. rewrite filter_app.
      rewrite Hother by (intro E; apply Hs; left; symmetry; exact E).
      rewrite Habsent by (intro E; apply Hs; right; exact E). reflexivity.
    + intros s tw [E|Hin].
      * injection E as <- <-. rewrite filter_app, Hself, (Habsent s0 Hnotin), app_nil_r.
        rewrite (Hnew []). reflexivity.
      * assert (Hs : s <> s0).
        { intro E. subst s. apply Hnotin. apply (in_map fst) in Hin. exact Hin. }
        rewrite filter_app, (Hother s Hs). cbn [app]. apply Hpresent. exact Hin.
Qed.

(** The deployment of idle cash returns at positive prices, and none of its
    recommendations is a rebalancing one. *)
Lemma deploy_cash_loop_notes (deployable : Q) (items : list (string * Q)) :
  exists new,
    (forall acc,
       Dalio.deploy_cash_loop get_fundamentals deployable acc items = Return (acc ++ new)) /\
    (forall s, filter (is_rebalancing_of s) new = []).
Proof.
  induction items as [|[symbol weight] items IH].
  - exists []. split; [intro acc; simpl; now rewrite app_nil_r|reflexivity].
  - destruct IH as (new & Hnew & Hnotes). cbn [Dalio.deploy_cash_loop].
    destruct (get_fundamentals symbol) as [data|] eqn:D.
    + pose proof (prices_positive symbol data D) as Hp.
      rewrite py_div_defined by lra. cbn [bind].
      destruct (0 <? _)%Z.
      * eexists (_ :: new). split.
        -- intro acc. rewrite Hnew, <- app_assoc. reflexivity.
        -- intro s. unfold is_rebalancing_of at 1.
           cbn [filter TradeRecommendation.reasoning]. rewrite andb_false_r. apply Hnotes.
      * exists new. split; [exact Hnew|exact Hnotes].
    + exists new. split; [exact Hnew|exact Hnotes].
Qed.

(** C8, in exact arithmetic and at positive prices.  Of the recommendations
    [generate_recommendations] returns, a target asset whose weight is more
    than 5 percentage points away from its target gets at most one
    rebalancing recommendation, and none when the asset has no fundamentals:
    below target, a buy of [floor((target_value - current_value) / price)]
    shares exactly when that number is positive and cash covers the whole
    shortfall; at or above target, a sell of [floor((current_value -
    target_value) / price)] shares exactly when that number is positive and
    the position holds as many.  Such a sell, at the last known price of a
    position in a portfolio of positive value with one position per
    security, is covered by the shares held and leaves the position worth
    the target value or more, by less than the price of one share. *)
Theorem allocator_rebalances_drifted_asset
  (portfolio : Portfolio.t) (symbol : string) (target_weight : Q) :
  let weight := current_weight portfolio symbol in
  let total := Portfolio.total_value portfolio in
  let target_value := total * target_weight in
  let current_value := total * weight in
  In (symbol, target_weight) Dalio.ALL_WEATHER_ALLOCATION ->
  Dalio.REBALANCE_THRESHOLD < Qabs (weight - target_weight) ->
  exists recs,
    Dalio.generate_recommendations get_fundamentals portfolio = Return recs /\
    let new := filter (is_rebalancing_of symbol) recs in
    (List.length new <= 1)%nat /\
    match get_fundamentals symbol with
    | None => new = []
    | Some data =>
        let price := StockFundamentals.price data in
        let to_buy := Qfloor ((target_value - current_value) / price) in
        let to_sell := Qfloor ((current_value - target_value) / price) in
        let buy :=
          TradeRecommendation.mk BUY symbol (inject_Z to_buy)
            (RebalanceNote weight target_weight) (85 # 100) in
        let sell :=
          TradeRecommendation.mk SELL symbol (inject_Z to_sell)
            (RebalanceNote weight target_weight) (85 # 100) in
        let funded :=
          (0 < to_buy)%Z /\ target_value - current_value <= Portfolio.cash portfolio in
        let covered :=
          (0 < to_sell)%Z /\
          inject_Z to_sell <= held_shares symbol (Portfolio.positions portfolio) in
        (weight < target_weight -> (funded -> new = [buy]) /\ (~ funded -> new = [])) /\
        (target_weight <= weight -> (covered -> new = [sell]) /\ (~ covered -> new = [])) /\
        (forall position,
           find_position symbol (Portfolio.positions portfolio) = Some position ->
           Position.current_price position == price ->
           NoDup (map Position.symbol (Portfolio.positions portfolio)) ->
           0 < total -> 0 <= target_weight -> target_weight <= weight ->
           inject_Z to_sell <= Position.shares position /\
           target_value <= (Position.shares position - inject_Z to_sell) * price /\
           (Position.shares position - inject_Z to_sell) * price < target_value + price)
    end.
Proof.
  cbv zeta. intros Hin Hdrift.
  assert (Hnd : NoDup (map fst Dalio.ALL_WEATHER_ALLOCATION)).
  { cbn. repeat constructor; cbn; intuition discriminate. }
  destruct (rebalance_collects portfolio (Dalio._calculate_current_allocation portfolio)
              (Portfolio.total_value portfolio) Dalio.ALL_WEATHER_ALLOCATION Hnd)
    as (out & Hout & _ & Hpass).
  pose proof (rebalance_of_drifted_asset get_fundamentals portfolio symbol target_weight []
                Hdrift (prices_positive symbol)) as Hbody.
  cbv zeta in Hbody. destruct Hbody as (new & Hnew & Hlen & Hshape).
  rewrite (Hpass symbol target_weight Hin) in Hnew. cbn [app] in Hnew.
  injection Hnew as Hnew.
  assert (Hrecs : exists recs,
            Dalio.generate_recommendations get_fundamentals portfolio = Return recs /\
            filter (is_rebalancing_of symbol) recs = new).
  { unfold Dalio.generate_recommendations. rewrite (Hout []). cbn [bind app].
    destruct (py_gt _ _).
    - unfold Dalio._deploy_cash.
      destruct (deploy_cash_loop_notes (Portfolio.cash portfolio * (9 # 10))
                  Dalio.ALL_WEATHER_ALLOCATION) as (deployed & Hd & Hnotes).
      rewrite (Hd []). cbn [bind app]. exists (out ++ deployed).
      split; [reflexivity|]. rewrite filter_app, Hnotes, app_nil_r. exact Hnew.
    - exists out. split; [reflexivity|exact Hnew]. }
  destruct Hrecs as (recs & Hgen & Hfilter).
  exists recs. split; [exact Hgen|]. rewrite Hfilter. split; [exact Hlen|exact Hshape].
Qed.

End DalioLoop.

(** The holding at 45 percent against the target of 30 percent: the one
    rebalancing recommendation is the sell of 150 shares. *)
Lemma allocator_rebalances_drifted_asset_witness :
  exists recs,
    Dalio.generate_recommendations (quote "VTI" 100) overweight_portfolio = Return recs /\
    (List.length (filter (is_rebalancing_of "VTI") recs) <= 1)%nat /\
    filter (is_rebalancing_of "VTI") recs
    = [TradeRecommendation.mk SELL "VTI" (inject_Z (Qfloor ((100000 * (45000 # 100000) - 100000 * (30 # 100)) / 100)))
         (RebalanceNote (45000 # 100000) (30 # 100)) (85 # 100)].
Proof.
  assert (Hprices : forall s data,
            quote "VTI" 100 s = Some data -> 0 < StockFundamentals.price data).
  { intros s data H. unfold quote in H.
    destruct (String.eqb s "VTI"); [injection H as <-; reflexivity|discriminate]. }
  destruct (allocator_rebalances_drifted_asset (quote "VTI" 100) Hprices
              overweight_portfolio "VTI" (30 # 100)
              ltac:(left; reflexivity) ltac:(vm_compute; reflexivity))
    as (recs & Hgen & Hlen & Hshape).
  exists recs. split; [exact Hgen|]. split; [exact Hlen|].
  cbn [quote String.eqb Ascii.eqb Bool.eqb] in Hshape.
  destruct Hshape as (_ & Hsell & _).
  apply Hsell.
  - vm_compute. discriminate.
  - split; vm_compute; [reflexivity|discriminate].
Defined.

(** The same portfolio through the whole strategy, with fundamentals for
    that one asset: the rebalancing sell of 150 shares, which leaves 300
    shares worth 30000, and after it the deployment of idle cash. *)
Example overweight_holding_is_sold_to_target :
  Dalio.generate_recommendations (quote "VTI" 100) overweight_portfolio
  = Return [ TradeRecommendation.mk SELL "VTI" 150
               (RebalanceNote (45000 # 100000) (30 # 100)) (85 # 100);
             TradeRecommendation.mk BUY "VTI" 148
               (InitialAllocationNote (30 # 100)) (9 # 10) ] /\
  (450 - 150) * 100 == Portfolio.total_value overweight_portfolio * (30 # 100).
Proof.
  split; [vm_compute; reflexivity|reflexivity].
Qed.

(** C8 as stated fails, in two ways.  An asset 30 points under its target,
    the shortfall of 300 covered by 1000 in cash, at a price of 500 a share,
    gets no recommendation, the whole shortfall buying no share.  And on
    doubles the sell can be a share short of the floor: with 4300 in cash
    and 57 shares at 100, a weight of 57 percent against the target of 30,
    the excess over the target is worth 27 shares, as the exact model has
    it, and the quotient rounds to 26.999999999999989, so the code sells
    26. *)
Lemma drifted_asset_without_recommendation :
  (let portfolio := portfolio_of 1000 [] in
   let weight := current_weight portfolio "VTI" in
   let total := Portfolio.total_value portfolio in
   In ("VTI"%string, 30 # 100) Dalio.ALL_WEATHER_ALLOCATION /\
   Dalio.REBALANCE_THRESHOLD < Qabs (weight - (30 # 100)) /\
   total * (30 # 100) - total * weight <= Portfolio.cash portfolio /\
   Dalio.rebalance_asset (quote "VTI" 500) portfolio
     (Dalio._calculate_current_allocation portfolio) total [] ("VTI"%string, 30 # 100)
   = Return [] /\
   Dalio.generate_recommendations (quote "VTI" 500) portfolio = Return []) /\
  (let exact := portfolio_of 4300 [Position.mk "VTI" 57 100 100] in
   let doubles :=
     portfolio_on_doubles 4300%float
       [Binary64.Position.mk "VTI" 57%float 100%float 100%float] in
   Qfloor ((Portfolio.total_value exact * current_weight exact "VTI"
            - Portfolio.total_value exact * (30 # 100)) / 100) = 27%Z /\
   (exists rest,
      Dalio.generate_recommendations (quote "VTI" 100) exact
      = Return (TradeRecommendation.mk SELL "VTI" 27
                  (RebalanceNote (current_weight exact "VTI") (30 # 100)) (85 # 100)
                :: rest)) /\
   (exists rest,
      Binary64.Dalio.generate_recommendations (Binary64.quote "VTI" 100%float) doubles
      = Return (Binary64.TradeRecommendation.mk SELL "VTI" 26%float
                  (Binary64.RebalanceNote 0.57%float 0.30%float) 0.85%float
                :: rest))).
Proof.
  split.
  - split; [left; reflexivity|]. split; [vm_compute; reflexivity|].
    split; [vm_compute; discriminate|]. split; vm_compute; reflexivity.
  - split; [vm_compute; reflexivity|].
    split; eexists; vm_compute; reflexivity.
Qed.

(** The threshold itself moves on doubles.  With 6500 in cash and 35 shares
    at 100 the weight is 35 percent against the target of 40: a drift of 5
    points, not more, and the exact model leaves the asset to the deployment
    of idle cash.  On doubles [abs(0.35 - 0.40)] is 0.050000000000000044,
    above 0.05, and the allocator adds a rebalancing buy of 5 shares. *)
Example five_point_drift_on_doubles :
  let exact := portfolio_of 6500 [Position.mk "TLT" 35 100 100] in
  let doubles :=
    portfolio_on_doubles 6500%float
      [Binary64.Position.mk "TLT" 35%float 100%float 100%float] in
  Qabs (current_weight exact "TLT" - (40 # 100)) == Dalio.REBALANCE_THRESHOLD /\
  Dalio.generate_recommendations (quote "TLT" 100) exact
  = Return [TradeRecommendation.mk BUY "TLT" 23 (InitialAllocationNote (40 # 100)) (9 # 10)] /\
  Binary64.Dalio.generate_recommendations (Binary64.quote "TLT" 100%float) doubles
  = Return [Binary64.TradeRecommendation.mk BUY "TLT" 5%float
              (Binary64.RebalanceNote 0.35%float 0.40%float) 0.85%float;
            Binary64.TradeRecommendation.mk BUY "TLT" 23%float
              (Binary64.InitialAllocationNote 0.40%float) 0.9%float].
Proof.
  split; [vm_compute; reflexivity|]. split; vm_compute; reflexivity.
Qed.

(** * Further properties of the engine *)

Lemma find_replace_other (s s' : string) (new : Position.t) (l : list Position.t) :
  s <> s' -> Position.symbol new = s' ->
  find_position s (replace_position s' new l) = find_position s l.
Proof.
  intros Hne Hs. induction l as [|p l IH]; simpl; [reflexivity|].
  destruct (String.eqb (Position.symbol p) s') eqn:E; simpl.
  - apply String.eqb_eq in E.
    assert (E1 : String.eqb (Position.symbol new) s = false)
      by (apply String.eqb_neq; congruence).
    assert (E2 : String.eqb (Position.symbol p) s = false)
      by (apply String.eqb_neq; congruence).
    now rewrite E1, E2.
  - destruct (String.eqb (Position.symbol p) s); [reflexivity|exact IH].
Qed.

Lemma find_app_other (s : string) (p : Position.t) (l : list Position.t) :
  Position.symbol p <> s -> find_position s (l ++ [p]) = find_position s l.
Proof.
  intro Hne. induction l as [|q l IH]; simpl.
  - apply String.eqb_neq in Hne. now rewrite Hne.
  - destruct (String.eqb (Position.symbol q) s); [reflexivity|exact IH].
Qed.

Lemma find_remove_other (s s' : string) (l : list Position.t) :
  s <> s' -> find_position s (remove_symbol s' l) = find_position s l.
Proof.
  intro Hne. induction l as [|p l IH]; simpl; [reflexivity|].
  destruct (String.eqb (Position.symbol p) s') eqn:E; simpl.
  - apply String.eqb_eq in E.
    assert (E2 : String.eqb (Position.symbol p) s = false)
      by (apply String.eqb_neq; congruence).
    rewrite E2. exact IH.
  - destruct (String.eqb (Position.symbol p) s); [reflexivity|exact IH].
Qed.

Section EngineLedger.

Variable agent_type : AgentType.
Variable get_fundamentals : string -> option StockFundamentals.t.

Local Abbreviation execute := (_execute_trade agent_type get_fundamentals).

(** X1. A call of the engine, whatever it returns or raises, leaves the
    position of every security other than the recommendation's as it was. *)
Theorem execution_touches_one_security
  (w : World) (portfolio : Portfolio.t) (rec : TradeRecommendation.t) (other : string) :
  other <> TradeRecommendation.symbol rec ->
  find_position other (Portfolio.positions (out_portfolio (execute w portfolio rec)))
  = find_position other (Portfolio.positions portfolio).
Proof.
  intro Hne.
  assert (Hbuy : forall w' r' price cost,
            TradeRecommendation.symbol r' = TradeRecommendation.symbol rec ->
            find_position other
              (Portfolio.positions (out_portfolio (settle_buy agent_type w' portfolio r' price cost)))
            = find_position other (Portfolio.positions portfolio)).
  { intros w' r' price cost Hs. unfold settle_buy. rewrite Hs. engine_simpl.
    destruct (find_position (TradeRecommendation.symbol rec) (Portfolio.positions portfolio))
      as [existing|] eqn:F.
    - destruct (py_div _ _); engine_simpl; [|reflexivity].
      apply find_replace_other; [exact Hne|].
      cbn [Position.symbol]. eapply find_position_symbol; exact F.
    - engine_simpl. apply find_app_other. cbn [Position.symbol]. congruence. }
  unfold _execute_trade.
  destruct (get_fundamentals (TradeRecommendation.symbol rec)) as [data|]; [|reflexivity].
  destruct (TradeRecommendation.action rec).
  - destruct (py_gt _ _).
    + destruct (py_div _ _); [|reflexivity].
      destruct (_ <=? 0)%Z; [reflexivity|]. apply Hbuy. reflexivity.
    + apply Hbuy. reflexivity.
  - unfold settle_sell.
    destruct (find_position (TradeRecommendation.symbol rec) (Portfolio.positions portfolio))
      as [existing|] eqn:F; [|reflexivity].
    assert (Hsym : Position.symbol existing = TradeRecommendation.symbol rec)
      by (eapply find_position_symbol; exact F).
    engine_simpl. destruct (py_le _ 0); engine_simpl.
    + rewrite find_remove_other by exact Hne. now apply find_replace_other.
    + now apply find_replace_other.
  - reflexivity.
Qed.

(** X2. The transaction of a successful buy accounts for what changed: it
    carries the price of the fundamentals, the cash paid is its total value
    [shares * price], and the shares held of its security grew by its
    share count.  The same holds, with the signs turned, for a successful
    sell of no more than is held. *)
Theorem transaction_accounts_for_trade
  (w : World) (portfolio : Portfolio.t) (rec : TradeRecommendation.t)
  (data : StockFundamentals.t) (txn : Transaction.t) :
  get_fundamentals (TradeRecommendation.symbol rec) = Some data ->
  out_result (execute w portfolio rec) = Return (Some txn) ->
  let symbol := TradeRecommendation.symbol rec in
  let after := out_portfolio (execute w portfolio rec) in
  Transaction.price txn = StockFundamentals.price data /\
  Transaction.symbol txn = symbol /\
  Transaction.transaction_type txn = TradeRecommendation.action rec /\
  (TradeRecommendation.action rec = BUY ->
   Portfolio.cash after == Portfolio.cash portfolio - Transaction.total_value txn /\
   held_shares symbol (Portfolio.positions after)
   == held_shares symbol (Portfolio.positions portfolio) + Transaction.shares txn) /\
  (TradeRecommendation.action rec = SELL ->
   TradeRecommendation.shares rec <= held_shares symbol (Portfolio.positions portfolio) ->
   Portfolio.cash after == Portfolio.cash portfolio + Transaction.total_value txn /\
   held_shares symbol (Portfolio.positions after)
   == held_shares symbol (Portfolio.positions portfolio) - Transaction.shares txn).
Proof.
  intros Hdata Hdone symbol after. unfold after. clear after. revert Hdone.
  assert (Hbuy : forall w' r' cost,
            TradeRecommendation.symbol r' = symbol ->
            TradeRecommendation.action r' = TradeRecommendation.action rec ->
            cost = StockFundamentals.price data * TradeRecommendation.shares r' ->
            let o := settle_buy agent_type w' portfolio r' (StockFundamentals.price data) cost in
            out_result o = Return (Some txn) ->
            Transaction.price txn = StockFundamentals.price data /\
            Transaction.symbol txn = symbol /\
            Transaction.transaction_type txn = TradeRecommendation.action rec /\
            Portfolio.cash (out_portfolio o)
            == Portfolio.cash portfolio - Transaction.total_value txn /\
            held_shares symbol (Portfolio.positions (out_portfolio o))
            == held_shares symbol (Portfolio.positions portfolio) + Transaction.shares txn).
  { intros w' r' cost Hs Ha Hc. unfold settle_buy, held_shares. rewrite Hs. engine_simpl.
    destruct (find_position symbol (Portfolio.positions portfolio)) as [existing|] eqn:F.
    - destruct (py_div _ _); engine_simpl; [|discriminate].
      intro H. injection H as <-.
      erewrite find_replace_position;
        [|exact F|cbn [Position.symbol]; eapply find_position_symbol; exact F].
      unfold Transaction.total_value. engine_simpl. rewrite Hc.
      split; [reflexivity|]. split; [exact Hs|]. split; [exact Ha|].
      split; [ring|apply Qeq_refl].
    - engine_simpl. intro H. injection H as <-.
      rewrite find_position_app_new by (auto).
      unfold Transaction.total_value. engine_simpl. rewrite Hc.
      split; [reflexivity|]. split; [exact Hs|]. split; [exact Ha|].
      split; ring. }
  unfold _execute_trade. rewrite Hdata. fold symbol.
  destruct (TradeRecommendation.action rec) eqn:A.
  - assert (Hwrap : forall o,
              (out_result o = Return (Some txn) ->
               Transaction.price txn = StockFundamentals.price data /\
               Transaction.symbol txn = symbol /\
               Transaction.transaction_type txn = BUY /\
               Portfolio.cash (out_portfolio o)
               == Portfolio.cash portfolio - Transaction.total_value txn /\
               held_shares symbol (Portfolio.positions (out_portfolio o))
               == held_shares symbol (Portfolio.positions portfolio) + Transaction.shares txn) ->
              out_result o = Return (Some txn) ->
              Transaction.price txn = StockFundamentals.price data /\
              Transaction.symbol txn = symbol /\
              Transaction.transaction_type txn = BUY /\
              (BUY = BUY ->
               Portfolio.cash (out_portfolio o)
               == Portfolio.cash portfolio - Transaction.total_value txn /\
               held_shares symbol (Portfolio.positions (out_portfolio o))
               == held_shares symbol (Portfolio.positions portfolio) + Transaction.shares txn) /\
              (BUY = SELL ->
               TradeRecommendation.shares rec <= held_shares symbol (Portfolio.positions portfolio) ->
               Portfolio.cash (out_portfolio o)
               == Portfolio.cash portfolio + Transaction.total_value txn /\
               held_shares symbol (Portfolio.positions (out_portfolio o))
               == held_shares symbol (Portfolio.positions portfolio) - Transaction.shares txn)).
    { intros o Ho Hr. destruct (Ho Hr) as (P1 & P2 & P3 & P4 & P5).
      split; [exact P1|]. split; [exact P2|]. split; [exact P3|].
      split; [intros _; split; assumption|discriminate]. }
    destruct (py_gt _ _).
    + destruct (py_div _ _); [|discriminate].
      destruct (_ <=? 0)%Z; [discriminate|].
      apply Hwrap. apply Hbuy; try reflexivity; exact A.
    + apply Hwrap. apply Hbuy; try reflexivity; exact A.
  - unfold settle_sell, held_shares. fold symbol.
    destruct (find_position symbol (Portfolio.positions portfolio)) as [existing|] eqn:F;
      [|discriminate].
    assert (Hsym : Position.symbol existing = symbol)
      by (eapply find_position_symbol; exact F).
    engine_simpl.
    destruct (py_le (Position.shares existing
                     - py_min (TradeRecommendation.shares rec) (Position.shares existing)) 0)
      eqn:E; engine_simpl; intro H; injection H as <-;
      unfold Transaction.total_value; engine_simpl;
      (split; [reflexivity|]); (split; [reflexivity|]); (split; [exact A|]);
      (split; [discriminate|]); intros _ Hheld;
      assert (Hmin : py_min (TradeRecommendation.shares rec) (Position.shares existing)
                     == TradeRecommendation.shares rec)
        by (rewrite py_min_Qmin; apply Q.min_l; exact Hheld).
    + apply py_le_true in E. rewrite find_remove_symbol.
      split; [rewrite Hmin; apply Qeq_refl|]. rewrite Hmin in E. lra.
    + erewrite find_replace_position; [|exact F|exact Hsym]. engine_simpl.
      split; rewrite Hmin; apply Qeq_refl.
  - engine_simpl. intro H. injection H as <-. engine_simpl.
    split; [reflexivity|]. split; [reflexivity|]. split; [exact A|].
    split; discriminate.
Qed.

End EngineLedger.

(** * Further properties of the run *)

Section RunLedger.

Variable agent_type : AgentType.
Variable get_fundamentals : string -> option StockFundamentals.t.
Variable starting_portfolio_value : Q.
Variable analyze_market : string.
Variable generate_recommendations : Portfolio.t -> result (list TradeRecommendation.t).

Local Abbreviation execute := (_execute_trade agent_type get_fundamentals).
Local Abbreviation loop := (execute_recommendations agent_type get_fundamentals).
Local Abbreviation refresh := (_update_portfolio_prices get_fundamentals).

(** X3. Refreshing prices changes nothing but last known prices: cash and
    the number of positions stay, every position keeps its security, shares
    and average cost, takes the price of its fundamentals when there are
    some and keeps its old price when there are none.  Refreshing twice is
    refreshing once. *)
Theorem refresh_changes_prices_only (portfolio : Portfolio.t) :
  Portfolio.cash (refresh portfolio) = Portfolio.cash portfolio /\
  Forall2
    (fun before after =>
       Position.symbol after = Position.symbol before /\
       Position.shares after = Position.shares before /\
       Position.avg_cost after = Position.avg_cost before /\
       Position.current_price after
       = match get_fundamentals (Position.symbol before) with
         | Some data => StockFundamentals.price data
         | None => Position.current_price before
         end)
    (Portfolio.positions portfolio) (Portfolio.positions (refresh portfolio)) /\
  refresh (refresh portfolio) = refresh portfolio.
Proof.
  unfold _update_portfolio_prices.
  cbn [Portfolio.cash Portfolio.positions Portfolio.set_positions].
  split; [reflexivity|]. split.
  - induction (Portfolio.positions portfolio) as [|q l IH]; simpl; constructor; [|exact IH].
    destruct (get_fundamentals (Position.symbol q)); cbn [Position.symbol Position.shares
      Position.avg_cost Position.current_price]; repeat split; reflexivity.
  - unfold Portfolio.set_positions.
    cbn [Portfolio.portfolio_id Portfolio.user_id Portfolio.agent_type Portfolio.cash
         Portfolio.created_at Portfolio.updated_at].
    f_equal. rewrite map_map. apply map_ext. intro q.
    destruct (get_fundamentals (Position.symbol q)) as [d|] eqn:E; cbn [Position.symbol].
    + rewrite E. reflexivity.
    + rewrite E. reflexivity.
Qed.

(** What a call of the engine adds to the saved transactions: the
    transaction it returns, and nothing otherwise. *)
Lemma execute_saves_what_it_returns (w : World) (p : Portfolio.t) (r : TradeRecommendation.t) :
  db_transactions (out_world (execute w p r))
  = db_transactions w ++
    match out_result (execute w p r) with
    | Return (Some txn) => [txn]
    | _ => []
    end.
Proof.
  assert (Hbuy : forall w' r' price cost,
            db_transactions w' = db_transactions w ->
            db_transactions (out_world (settle_buy agent_type w' p r' price cost))
            = db_transactions w ++
              match out_result (settle_buy agent_type w' p r' price cost) with
              | Return (Some txn) => [txn]
              | _ => []
              end).
  { intros w' r' price cost Hw. unfold settle_buy. engine_simpl.
    destruct (find_position _ _); [destruct (py_div _ _)|]; engine_simpl;
      rewrite Hw; try reflexivity; now rewrite app_nil_r. }
  unfold _execute_trade.
  destruct (get_fundamentals (TradeRecommendation.symbol r)) as [data|];
    [|engine_simpl; now rewrite app_nil_r].
  destruct (TradeRecommendation.action r).
  - destruct (py_gt _ _).
    + destruct (py_div _ _); [|engine_simpl; now rewrite app_nil_r].
      destruct (_ <=? 0)%Z; [engine_simpl; now rewrite app_nil_r|].
      apply Hbuy. reflexivity.
    + apply Hbuy. reflexivity.
  - unfold settle_sell. destruct (find_position _ _); engine_simpl;
      [reflexivity|now rewrite app_nil_r].
  - reflexivity.
Qed.

Lemma loop_ledger (recs : list TradeRecommendation.t) (w : World) (p : Portfolio.t)
  (ids : list uuid) :
  exists txns,
    db_transactions (loop_world (loop w p recs ids)) = db_transactions w ++ txns /\
    (List.length txns <= List.length (filter passes_gate recs))%nat /\
    (forall done, loop_result (loop w p recs ids) = Return done ->
                  done = ids ++ map Transaction.transaction_id txns).
Proof.
  revert w p ids. induction recs as [|r recs IH]; intros w p ids; simpl.
  - exists []. rewrite !app_nil_r. split; [reflexivity|]. split; [simpl; lia|].
    intros done H. now injection H as <-.
  - fold (passes_gate r). destruct (passes_gate r) eqn:G.
    + pose proof (execute_saves_what_it_returns w p r) as Hs.
      destruct (out_result (execute w p r)) as [[txn|]|e] eqn:R; cbn [loop_world loop_result].
      * destruct (IH (out_world (execute w p r)) (out_portfolio (execute w p r))
                     (ids ++ [Transaction.transaction_id txn])) as (txns & Hd & Hl & Hr).
        exists (txn :: txns). rewrite Hd, Hs, <- app_assoc.
        split; [reflexivity|]. split; [simpl; lia|].
        intros done H. rewrite (Hr done H), <- app_assoc. reflexivity.
      * destruct (IH (out_world (execute w p r)) (out_portfolio (execute w p r)) ids)
          as (txns & Hd & Hl & Hr).
        exists txns. rewrite Hd, Hs, app_nil_r.
        split; [reflexivity|]. split; [simpl; lia|exact Hr].
      * exists []. rewrite Hs. split; [reflexivity|]. split; [simpl; lia|discriminate].
    + cbn [loop_world loop_result]. apply IH.
Qed.

Lemma load_portfolio_transactions (w : World) (user_id : string) :
  db_transactions (snd (load_portfolio agent_type starting_portfolio_value w user_id))
  = db_transactions w.
Proof.
  unfold load_portfolio. destruct (get_portfolio _ _ _); reflexivity.
Qed.

(** X4. The transaction ids a run reports are the ids of the transactions
    saved during that run, in the order they were saved, one for each
    trade; there are no more of them than recommendations passing the
    confidence gate, and no transaction saved before the run is touched. *)
Theorem run_reports_saved_transactions (w : World) (user_id : string) (r : AgentRun.t) :
  let out := run agent_type get_fundamentals starting_portfolio_value analyze_market
                 generate_recommendations w user_id in
  fst out = Return r ->
  exists txns,
    db_transactions (snd out) = db_transactions w ++ txns /\
    AgentRun.executed_trades r = map Transaction.transaction_id txns /\
    (List.length txns <= List.length (AgentRun.recommendations r))%nat.
Proof.
  intro out. unfold out, run. clear out. cbn [utcnow].
  pose proof (load_portfolio_transactions
                (mkWorld (db_portfolios w) (db_transactions w) (db_runs w) (S (clock w))
                         (uuid_next w) (engine_calls w)) user_id) as Hl.
  destruct (load_portfolio agent_type starting_portfolio_value _ user_id) as [p0 w1].
  cbn [snd db_transactions] in Hl.
  destruct (generate_recommendations (refresh p0)) as [recs|e]; [|discriminate].
  destruct (loop_ledger recs w1 (refresh p0) []) as (txns & Hd & Hlen & Hr).
  pose proof (loop_recommendations_kept agent_type get_fundamentals recs w1 (refresh p0) [])
    as Hkept.
  destruct (loop_result (loop w1 (refresh p0) recs [])) as [done|e] eqn:R; [|discriminate].
  cbn [fst snd utcnow uuid4 save_agent_run save_portfolio db_transactions].
  intro H. injection H as <-. cbn [AgentRun.executed_trades AgentRun.recommendations].
  exists txns. rewrite Hd, Hl, (Hr done eq_refl). split; [reflexivity|]. split; [reflexivity|].
  rewrite length_map. rewrite <- (Forall2_length (Hkept done eq_refl)).
  pose proof (filter_length_le passes_gate recs). lia.
Qed.

(** With no fundamentals for any security the loop does nothing. *)
Lemma loop_without_fundamentals (recs : list TradeRecommendation.t) (w : World)
  (p : Portfolio.t) (ids : list uuid) :
  (forall s, get_fundamentals s = None) ->
  loop_portfolio (loop w p recs ids) = p /\
  loop_recommendations (loop w p recs ids) = recs /\
  loop_result (loop w p recs ids) = Return ids /\
  db_transactions (loop_world (loop w p recs ids)) = db_transactions w /\
  db_portfolios (loop_world (loop w p recs ids)) = db_portfolios w.
Proof.
  intro Hno. revert w ids. induction recs as [|r recs IH]; intros w ids; simpl.
  - repeat split.
  - destruct (py_ge _ _).
    + assert (E : execute w p r = mkOutcome (record_call w r) p r (Return None))
        by (unfold _execute_trade; now rewrite Hno).
      rewrite E.
      cbn [out_result out_world out_portfolio out_recommendation loop_portfolio
           loop_recommendations loop_result loop_world].
      destruct (IH (record_call w r) ids) as (H1 & H2 & H3 & H4 & H5).
      rewrite H1, H2, H3, H4, H5. repeat split.
    + cbn [loop_portfolio loop_recommendations loop_result loop_world].
      destruct (IH w ids) as (H1 & H2 & H3 & H4 & H5).
      rewrite H1, H2, H3, H4, H5. repeat split.
Qed.

Lemma refresh_without_fundamentals (p : Portfolio.t) :
  (forall s, get_fundamentals s = None) ->
  Portfolio.positions (refresh p) = Portfolio.positions p /\
  Portfolio.cash (refresh p) = Portfolio.cash p.
Proof.
  intro Hno. unfold _update_portfolio_prices.
  cbn [Portfolio.positions Portfolio.cash Portfolio.set_positions].
  split; [|reflexivity]. rewrite <- (map_id (Portfolio.positions p)) at 2.
  apply map_ext. intro q. now rewrite Hno.
Qed.

(** X5. A run while no fundamentals are available for any security executes
    nothing: it returns a run with no executed trade, every recommendation
    listed as the strategy produced it, the same portfolio value before and
    after, saves no transaction, and stores the portfolio with the cash and
    the positions it was loaded with. *)
Theorem run_without_fundamentals
  (w : World) (user_id : string) (recs : list TradeRecommendation.t) :
  let loaded := load_portfolio agent_type starting_portfolio_value (snd (utcnow w)) user_id in
  let out := run agent_type get_fundamentals starting_portfolio_value analyze_market
                 generate_recommendations w user_id in
  (forall s, get_fundamentals s = None) ->
  generate_recommendations (refresh (fst loaded)) = Return recs ->
  exists r,
    fst out = Return r /\
    AgentRun.executed_trades r = [] /\
    AgentRun.recommendations r = map TradeRecommendation.to_dict recs /\
    AgentRun.portfolio_value_before r = Portfolio.total_value (fst loaded) /\
    AgentRun.portfolio_value_after r = Portfolio.total_value (fst loaded) /\
    db_transactions (snd out) = db_transactions w /\
    exists saved,
      In saved (db_portfolios (snd out)) /\
      Portfolio.cash saved = Portfolio.cash (fst loaded) /\
      Portfolio.positions saved = Portfolio.positions (fst loaded).
Proof.
  intros loaded out Hno Hgen. unfold out, run. clear out. cbn [utcnow].
  pose proof (load_portfolio_transactions (snd (utcnow w)) user_id) as Hl.
  unfold loaded in *. clear loaded. cbn [utcnow snd] in *.
  destruct (load_portfolio agent_type starting_portfolio_value _ user_id) as [p0 w1].
  cbn [fst snd db_transactions] in *. rewrite Hgen.
  destruct (loop_without_fundamentals recs w1 (refresh p0) [] Hno) as (H1 & H2 & H3 & H4 & _).
  rewrite H3, H1, H2.
  cbn [fst snd utcnow uuid4 save_agent_run save_portfolio db_transactions db_portfolios].
  destruct (refresh_without_fundamentals p0 Hno) as (Hp & Hc).
  destruct (refresh_without_fundamentals (refresh p0) Hno) as (Hp' & Hc').
  eexists. split; [reflexivity|].
  cbn [AgentRun.executed_trades AgentRun.recommendations AgentRun.portfolio_value_before
       AgentRun.portfolio_value_after].
  split; [reflexivity|]. split; [reflexivity|].
  unfold Portfolio.total_value. rewrite Hp', Hc', Hp, Hc.
  split; [reflexivity|]. split; [reflexivity|]. split; [rewrite H4; exact Hl|].
  exists (refresh (refresh p0)). split; [left; reflexivity|].
  rewrite Hp', Hc', Hp, Hc. split; reflexivity.
Qed.

(** A position carries the price of its fundamentals, when there are some. *)
Definition priced (q : Position.t) : Prop :=
  forall data, get_fundamentals (Position.symbol q) = Some data ->
               Position.current_price q == StockFundamentals.price data.

Lemma refresh_prices_all (p : Portfolio.t) : Forall priced (Portfolio.positions (refresh p)).
Proof.
  unfold _update_portfolio_prices. cbn [Portfolio.positions Portfolio.set_positions].
  apply Forall_map. apply Forall_forall. intros q _ data.
  destruct (get_fundamentals (Position.symbol q)) as [d|] eqn:E; cbn [Position.symbol];
    rewrite E; [|discriminate].
  intro H. injection H as <-. apply Qeq_refl.
Qed.

Lemma refresh_symbols (p : Portfolio.t) :
  map Position.symbol (Portfolio.positions (refresh p))
  = map Position.symbol (Portfolio.positions p).
Proof.
  unfold _update_portfolio_prices. cbn [Portfolio.positions Portfolio.set_positions].
  rewrite map_map. apply map_ext. intro q.
  destruct (get_fundamentals (Position.symbol q)); reflexivity.
Qed.

Lemma refresh_of_priced_value (p : Portfolio.t) :
  Forall priced (Portfolio.positions p) ->
  Portfolio.total_value (refresh p) == Portfolio.total_value p.
Proof.
  unfold Portfolio.total_value, _update_portfolio_prices.
  cbn [Portfolio.positions Portfolio.cash Portfolio.set_positions].
  intro H. apply Qplus_comp; [apply Qeq_refl|].
  induction H as [|q l Hq Hl IH]; [apply Qeq_refl|].
  cbn [map]. rewrite !positions_value_cons, IH.
  apply Qplus_comp; [|apply Qeq_refl].
  unfold Position.market_value.
  destruct (get_fundamentals (Position.symbol q)) as [d|] eqn:E;
    cbn [Position.shares Position.current_price]; [|apply Qeq_refl].
  rewrite (Hq d E). apply Qeq_refl.
Qed.

(** A call that returns keeps the securities apart, the prices in line with
    the fundamentals, and the total value. *)
Lemma execute_steady (w : World) (p : Portfolio.t) (r : TradeRecommendation.t)
  (res : option Transaction.t) :
  NoDup (map Position.symbol (Portfolio.positions p)) ->
  Forall priced (Portfolio.positions p) ->
  out_result (execute w p r) = Return res ->
  NoDup (map Position.symbol (Portfolio.positions (out_portfolio (execute w p r)))) /\
  Forall priced (Portfolio.positions (out_portfolio (execute w p r))) /\
  Portfolio.total_value (out_portfolio (execute w p r)) == Portfolio.total_value p.
Proof.
  intros Hnd Hpr.
  unfold _execute_trade.
  destruct (get_fundamentals (TradeRecommendation.symbol r)) as [data|] eqn:D.
  2:{ intros _. cbn [out_portfolio]. split; [exact Hnd|]. split; [exact Hpr|apply Qeq_refl]. }
  set (price := StockFundamentals.price data).
  assert (Hheld : forall held,
            find_position (TradeRecommendation.symbol r) (Portfolio.positions p) = Some held ->
            Position.current_price held == price).
  { intros held F. rewrite Forall_forall in Hpr.
    apply (Hpr held (find_position_In _ _ _ F)).
    rewrite (find_position_symbol _ _ _ F). exact D. }
  assert (Hbuy : forall w' r' cost,
            TradeRecommendation.symbol r' = TradeRecommendation.symbol r ->
            cost == price * TradeRecommendation.shares r' ->
            let o := settle_buy agent_type w' p r' price cost in
            out_result o = Return res ->
            NoDup (map Position.symbol (Portfolio.positions (out_portfolio o))) /\
            Forall priced (Portfolio.positions (out_portfolio o)) /\
            Portfolio.total_value (out_portfolio o) == Portfolio.total_value p).
  { intros w' r' cost Hs Hc o Hres.
    split; [|split].
    - revert Hres. unfold o, settle_buy. rewrite Hs. engine_simpl.
      destruct (find_position (TradeRecommendation.symbol r) (Portfolio.positions p))
        as [existing|] eqn:F.
      + destruct (py_div _ _); engine_simpl; [|discriminate]. intros _.
        rewrite symbols_replace_position; [exact Hnd|].
        cbn [Position.symbol]. eapply find_position_symbol; exact F.
      + engine_simpl. intros _.
        apply (NoDup_symbols_app (TradeRecommendation.symbol r)); auto.
    - revert Hres. unfold o, settle_buy. rewrite Hs. engine_simpl.
      destruct (find_position (TradeRecommendation.symbol r) (Portfolio.positions p))
        as [existing|] eqn:F.
      + destruct (py_div _ _); engine_simpl; [|discriminate]. intros _.
        apply Forall_replace_position; [exact Hpr|].
        intros d Hd. cbn [Position.symbol Position.current_price] in *.
        rewrite (find_position_symbol _ _ _ F), D in Hd. injection Hd as <-. apply Qeq_refl.
      + engine_simpl. intros _. apply Forall_app. split; [exact Hpr|].
        constructor; [|constructor].
        intros d Hd. cbn [Position.symbol Position.current_price] in *.
        rewrite D in Hd. injection Hd as <-. apply Qeq_refl.
    - apply settle_buy_value.
      + exact Hc.
      + rewrite Hs. exact Hheld.
      + eexists. exact Hres. }
  destruct (TradeRecommendation.action r).
  - destruct (py_gt _ _).
    + destruct (py_div (Portfolio.cash p) price) as [q|e]; [|discriminate].
      destruct (py_int q <=? 0)%Z.
      * intros _. cbn [out_portfolio].
        split; [exact Hnd|]. split; [exact Hpr|apply Qeq_refl].
      * apply Hbuy; [reflexivity|apply Qeq_refl].
    + apply Hbuy; [reflexivity|apply Qeq_refl].
  - unfold settle_sell.
    destruct (find_position (TradeRecommendation.symbol r) (Portfolio.positions p))
      as [held|] eqn:F.
    2:{ intros _. cbn [out_portfolio]. split; [exact Hnd|]. split; [exact Hpr|apply Qeq_refl]. }
    intros _. pose proof (Hheld held eq_refl) as Hsame.
    assert (Hsym : Position.symbol held = TradeRecommendation.symbol r)
      by (eapply find_position_symbol; exact F).
    set (sold := py_min (TradeRecommendation.shares r) (Position.shares held)).
    rewrite complete_trade_value.
    assert (Hp : priced (Position.mk (Position.symbol held) (Position.shares held - sold)
                           (Position.avg_cost held) (Position.current_price held))).
    { intros d Hd. cbn [Position.symbol Position.current_price] in *.
      rewrite Hsym, D in Hd. injection Hd as <-. exact Hsame. }
    engine_simpl.
    destruct (py_le (Position.shares held - sold) 0) eqn:E; unfold Portfolio.total_value;
      engine_simpl.
    + apply py_le_true in E.
      assert (Hs : sold <= Position.shares held).
      { unfold sold. rewrite py_min_Qmin. apply Q.le_min_r. }
      assert (Hall : sold == Position.shares held) by lra.
      rewrite remove_replace_position by exact Hsym.
      split; [apply (NoDup_symbols_remove get_fundamentals); exact Hnd|].
      split; [apply (Forall_remove_symbol get_fundamentals); exact Hpr|].
      rewrite (positions_value_remove get_fundamentals _ held) by assumption.
      unfold Position.market_value. rewrite Hall, Hsame. ring.
    + split; [rewrite symbols_replace_position; assumption|].
      split; [apply Forall_replace_position; assumption|].
      rewrite (positions_value_replace _ _ held) by exact F.
      unfold Position.market_value. cbn [Position.shares Position.current_price].
      rewrite Hsame. ring.
  - intros _. rewrite complete_trade_value. engine_simpl.
    split; [exact Hnd|]. split; [exact Hpr|apply Qeq_refl].
Qed.

Lemma loop_steady (recs : list TradeRecommendation.t) (w : World) (p : Portfolio.t)
  (ids done : list uuid) :
  NoDup (map Position.symbol (Portfolio.positions p)) ->
  Forall priced (Portfolio.positions p) ->
  loop_result (loop w p recs ids) = Return done ->
  Forall priced (Portfolio.positions (loop_portfolio (loop w p recs ids))) /\
  Portfolio.total_value (loop_portfolio (loop w p recs ids)) == Portfolio.total_value p.
Proof.
  revert w p ids. induction recs as [|r recs IH]; intros w p ids Hnd Hpr; simpl.
  - intros _. split; [exact Hpr|apply Qeq_refl].
  - destruct (py_ge _ _).
    + destruct (out_result (execute w p r)) as [txn|e] eqn:R;
        cbn [loop_result loop_portfolio]; [|discriminate].
      destruct (execute_steady w p r txn Hnd Hpr R) as (Hnd' & Hpr' & Hv).
      intro H. destruct (IH _ _ _ Hnd' Hpr' H) as (Hpr'' & Hv'').
      split; [exact Hpr''|]. rewrite Hv''. exact Hv.
    + cbn [loop_result loop_portfolio]. apply IH; assumption.
Qed.

(** X6. A run that returns reports the same portfolio value before and
    after: at the prices of the fundamentals, which the first refresh puts
    on every position, each trade moves as much value between cash and
    positions as it takes from the other.  The stored portfolios hold at
    most one position per security. *)
Theorem run_keeps_portfolio_value (w : World) (user_id : string) (r : AgentRun.t) :
  let out := run agent_type get_fundamentals starting_portfolio_value analyze_market
                 generate_recommendations w user_id in
  (forall p, In p (db_portfolios w) -> NoDup (map Position.symbol (Portfolio.positions p))) ->
  fst out = Return r ->
  AgentRun.portfolio_value_after r == AgentRun.portfolio_value_before r.
Proof.
  intros out Hdb. unfold out, run. clear out. cbn [utcnow].
  assert (Hnd : NoDup (map Position.symbol
                         (Portfolio.positions
                            (fst (load_portfolio agent_type starting_portfolio_value
                                    (snd (utcnow w)) user_id))))).
  { unfold load_portfolio, get_portfolio.
    destruct (find _ _) as [p|] eqn:F; cbn [fst].
    - apply Hdb. apply find_some in F. exact (proj1 F).
    - constructor. }
  cbn [utcnow snd] in Hnd.
  destruct (load_portfolio agent_type starting_portfolio_value _ user_id) as [p0 w1].
  cbn [fst] in Hnd.
  destruct (generate_recommendations (refresh p0)) as [recs|e]; [|discriminate].
  assert (Hnd' : NoDup (map Position.symbol (Portfolio.positions (refresh p0))))
    by (rewrite refresh_symbols; exact Hnd).
  pose proof (loop_steady recs w1 (refresh p0) [] ) as Hloop.
  destruct (loop_result (loop w1 (refresh p0) recs [])) as [done|e] eqn:R; [|discriminate].
  destruct (Hloop done Hnd' (refresh_prices_all p0) eq_refl) as (Hpr & Hv).
  cbn [fst]. intro H. injection H as <-.
  cbn [AgentRun.portfolio_value_after AgentRun.portfolio_value_before].
  rewrite (refresh_of_priced_value _ Hpr). exact Hv.
Qed.


Lemma find_head {A : Type} (f : A -> bool) (x : A) (l : list A) :
  f x = true -> find f (x :: l) = Some x.
Proof. simpl. intros ->. reflexivity. Qed.

(** The engine, the loop and the refresh leave the owner and the strategy of
    a portfolio as they are. *)
Lemma execute_keeps_key (w : World) (p : Portfolio.t) (r : TradeRecommendation.t)
  (user : string) (a : AgentType) :
  same_key user a (out_portfolio (execute w p r)) = same_key user a p.
Proof.
  unfold _execute_trade.
  destruct (get_fundamentals (TradeRecommendation.symbol r)) as [data|]; [|reflexivity].
  destruct (TradeRecommendation.action r).
  - destruct (py_gt _ _).
    + destruct (py_div _ _); [|reflexivity].
      destruct (_ <=? 0)%Z; [reflexivity|].
      unfold settle_buy. engine_simpl.
      destruct (find_position _ _); [destruct (py_div _ _)|]; reflexivity.
    + unfold settle_buy. engine_simpl.
      destruct (find_position _ _); [destruct (py_div _ _)|]; reflexivity.
  - unfold settle_sell. destruct (find_position _ _); [|reflexivity].
    engine_simpl. destruct (py_le _ 0); reflexivity.
  - reflexivity.
Qed.

Lemma loop_keeps_key (recs : list TradeRecommendation.t) (w : World) (p : Portfolio.t)
  (ids : list uuid) (user : string) (a : AgentType) :
  same_key user a (loop_portfolio (loop w p recs ids)) = same_key user a p.
Proof.
  revert w p ids. induction recs as [|r recs IH]; intros w p ids; simpl; [reflexivity|].
  destruct (py_ge _ _).
  - destruct (out_result (execute w p r)) as [txn|e]; cbn [loop_portfolio].
    + rewrite IH. apply execute_keeps_key.
    + apply execute_keeps_key.
  - cbn [loop_portfolio]. apply IH.
Qed.

Lemma load_portfolio_key (w : World) (user_id : string) :
  same_key user_id agent_type
    (fst (load_portfolio agent_type starting_portfolio_value w user_id)) = true.
Proof.
  unfold load_portfolio, get_portfolio.
  destruct (find _ _) as [p|] eqn:F; cbn [fst].
  - apply find_some in F. exact (proj2 F).
  - unfold _initialize_portfolio, same_key. cbn [uuid4 utcnow fst].
    cbn [Portfolio.user_id Portfolio.agent_type].
    rewrite String.eqb_refl. destruct agent_type; reflexivity.
Qed.

(** X13. A run that returns has stored the portfolio it worked on under the
    owner and the strategy it was run for: looking the portfolio up
    afterwards gives one whose total value is the value the run reports as
    the value after. *)
Theorem run_stores_the_portfolio (w : World) (user_id : string) (r : AgentRun.t) :
  let out := run agent_type get_fundamentals starting_portfolio_value analyze_market
                 generate_recommendations w user_id in
  fst out = Return r ->
  exists stored,
    get_portfolio (snd out) user_id agent_type = Some stored /\
    Portfolio.total_value stored = AgentRun.portfolio_value_after r.
Proof.
  intro out. unfold out, run. clear out. cbn [utcnow].
  pose proof (load_portfolio_key
                (mkWorld (db_portfolios w) (db_transactions w) (db_runs w) (S (clock w))
                         (uuid_next w) (engine_calls w)) user_id) as Hk.
  destruct (load_portfolio agent_type starting_portfolio_value _ user_id) as [p0 w1].
  cbn [fst] in Hk.
  destruct (generate_recommendations (refresh p0)) as [recs|e]; [|discriminate].
  pose proof (loop_keeps_key recs w1 (refresh p0) [] user_id agent_type) as Hl.
  destruct (loop_result (loop w1 (refresh p0) recs [])) as [done|e] eqn:R; [|discriminate].
  cbn [fst snd utcnow uuid4 save_agent_run save_portfolio].
  intro H. injection H as <-. cbn [AgentRun.portfolio_value_after].
  eexists. split; [|reflexivity].
  unfold get_portfolio. cbn [db_portfolios].
  assert (E : same_key user_id agent_type
                (refresh (loop_portfolio (loop w1 (refresh p0) recs []))) = true).
  { change (same_key user_id agent_type
              (refresh (loop_portfolio (loop w1 (refresh p0) recs []))))
      with (same_key user_id agent_type (loop_portfolio (loop w1 (refresh p0) recs []))).
    rewrite Hl. exact Hk. }
  apply find_head. exact E.
Qed.

(** X14. The first run for an owner without a stored portfolio starts from
    the configured cash: the run it returns reports that amount as the
    portfolio value before and, trades moving value between cash and
    positions only, as the value after. *)
Theorem first_run_starts_from_configured_cash (w : World) (user_id : string) (r : AgentRun.t) :
  let out := run agent_type get_fundamentals starting_portfolio_value analyze_market
                 generate_recommendations w user_id in
  get_portfolio w user_id agent_type = None ->
  fst out = Return r ->
  AgentRun.portfolio_value_before r == starting_portfolio_value /\
  AgentRun.portfolio_value_after r == starting_portfolio_value.
Proof.
  intros out Hnew. unfold out, run. clear out. cbn [utcnow].
  unfold load_portfolio.
  change (get_portfolio
            (mkWorld (db_portfolios w) (db_transactions w) (db_runs w) (S (clock w))
                     (uuid_next w) (engine_calls w)) user_id agent_type)
    with (get_portfolio w user_id agent_type).
  rewrite Hnew. unfold _initialize_portfolio. cbn [uuid4 utcnow].
  set (p0 := Portfolio.mk _ user_id agent_type starting_portfolio_value [] _ _).
  set (w1 := save_portfolio _ p0).
  destruct (generate_recommendations (refresh p0)) as [recs|e]; [|discriminate].
  pose proof (loop_steady recs w1 (refresh p0) []) as Hloop.
  destruct (loop_result (loop w1 (refresh p0) recs [])) as [done|e] eqn:R; [|discriminate].
  destruct (Hloop done (NoDup_nil _) (refresh_prices_all p0) eq_refl) as (Hpr & Hv).
  cbn [fst]. intro H. injection H as <-.
  cbn [AgentRun.portfolio_value_after AgentRun.portfolio_value_before].
  assert (Hstart : Portfolio.total_value (refresh p0) == starting_portfolio_value).
  { unfold Portfolio.total_value, Portfolio.positions_value. simpl. ring. }
  split; [exact Hstart|].
  rewrite (refresh_of_priced_value _ Hpr), Hv. exact Hstart.
Qed.


End RunLedger.

(** ** Concrete cases *)

(** A buy of one security next to a position in another. *)
Lemma execution_touches_one_security_witness :
  let portfolio := portfolio_of 1000 [Position.mk "MSFT" 5 300 310] in
  let rec := idea BUY "AAPL" 2 (8 # 10) in
  find_position "MSFT"
    (Portfolio.positions
       (out_portfolio (_execute_trade BUFFETT (quote "AAPL" 100) empty_world portfolio rec)))
  = find_position "MSFT" (Portfolio.positions portfolio).
Proof.
  intros portfolio rec.
  apply (execution_touches_one_security BUFFETT (quote "AAPL" 100) empty_world
           (portfolio_of 1000 [Position.mk "MSFT" 5 300 310]) (idea BUY "AAPL" 2 (8 # 10))
           "MSFT").
  discriminate.
Defined.

(** A buy of 10 shares at 200 into 10 shares held. *)
Lemma transaction_accounts_for_trade_witness :
  let portfolio := portfolio_of 10000 [Position.mk "AAPL" 10 100 150] in
  let rec := idea BUY "AAPL" 10 (8 # 10) in
  let after := out_portfolio (_execute_trade BUFFETT (quote "AAPL" 200) empty_world portfolio rec) in
  exists txn,
    out_result (_execute_trade BUFFETT (quote "AAPL" 200) empty_world portfolio rec)
    = Return (Some txn) /\
    Transaction.price txn = 200 /\
    Transaction.symbol txn = "AAPL"%string /\
    Transaction.transaction_type txn = BUY /\
    (BUY = BUY ->
     Portfolio.cash after == Portfolio.cash portfolio - Transaction.total_value txn /\
     held_shares "AAPL" (Portfolio.positions after)
     == held_shares "AAPL" (Portfolio.positions portfolio) + Transaction.shares txn) /\
    (BUY = SELL ->
     10 <= held_shares "AAPL" (Portfolio.positions portfolio) ->
     Portfolio.cash after == Portfolio.cash portfolio + Transaction.total_value txn /\
     held_shares "AAPL" (Portfolio.positions after)
     == held_shares "AAPL" (Portfolio.positions portfolio) - Transaction.shares txn).
Proof.
  intros portfolio rec after. eexists. split; [reflexivity|].
  apply (transaction_accounts_for_trade BUFFETT (quote "AAPL" 200) empty_world
           (portfolio_of 10000 [Position.mk "AAPL" 10 100 150]) (idea BUY "AAPL" 10 (8 # 10))
           (StockFundamentals.mk "AAPL" 200 None None None None None));
    reflexivity.
Defined.

(** The first cycle of a new user at a price of 175: one trade. *)
Lemma run_reports_saved_transactions_witness :
  let out := run BUFFETT (quote "AAPL" 175) 100000 "Market looks good" two_ideas
                 empty_world "test-user" in
  exists r txns,
    fst out = Return r /\
    db_transactions (snd out) = db_transactions empty_world ++ txns /\
    AgentRun.executed_trades r = map Transaction.transaction_id txns /\
    (List.length txns <= List.length (AgentRun.recommendations r))%nat.
Proof.
  intro out. eexists.
  assert (H : fst out = Return _) by (vm_compute; reflexivity).
  destruct (run_reports_saved_transactions BUFFETT (quote "AAPL" 175) 100000
              "Market looks good" two_ideas empty_world "test-user" _ H) as (txns & Ht).
  exists txns. split; [exact H|exact Ht].
Defined.

Lemma run_without_fundamentals_witness :
  let out := run BUFFETT no_fundamentals 100000 "Market looks good" two_ideas
                 empty_world "test-user" in
  exists r,
    fst out = Return r /\
    AgentRun.executed_trades r = [] /\
    AgentRun.portfolio_value_after r = 100000 + 0 /\
    db_transactions (snd out) = [].
Proof.
  intro out.
  destruct (run_without_fundamentals BUFFETT no_fundamentals 100000 "Market looks good"
              two_ideas empty_world "test-user"
              [idea BUY "AAPL" 10 (8 # 10); idea BUY "AAPL" 5 (5 # 10)]
              (fun _ => eq_refl) eq_refl) as (r & H1 & H2 & _ & _ & H5 & H6 & _).
  exists r. split; [exact H1|]. split; [exact H2|]. split; [exact H5|exact H6].
Defined.

Lemma run_keeps_portfolio_value_witness :
  let out := run BUFFETT (quote "AAPL" 175) 100000 "Market looks good" two_ideas
                 empty_world "test-user" in
  exists r,
    fst out = Return r /\
    AgentRun.portfolio_value_after r == AgentRun.portfolio_value_before r.
Proof.
  intro out. eexists.
  assert (H : fst out = Return _) by (vm_compute; reflexivity).
  split; [exact H|].
  apply (run_keeps_portfolio_value BUFFETT (quote "AAPL" 175) 100000 "Market looks good"
           two_ideas empty_world "test-user" _ (fun p (F : In p []) => match F with end) H).
Defined.

(** * Further properties of the risk-parity allocator *)

Section DalioDeployment.

Variable get_fundamentals : string -> option StockFundamentals.t.

Hypothesis prices_positive :
  forall s data, get_fundamentals s = Some data -> 0 < StockFundamentals.price data.

(** What every recommendation of the allocator looks like: a whole, positive
    number of shares of one of the given assets, at a confidence that passes
    the gate of the run. *)
Definition well_sized (items : list (string * Q)) (r : TradeRecommendation.t) : Prop :=
  (exists n, (0 < n)%Z /\ TradeRecommendation.shares r = inject_Z n) /\
  In (TradeRecommendation.symbol r) (map fst items) /\
  passes_gate r = true.

Lemma cost_at_app (l m : list TradeRecommendation.t) :
  cost_at get_fundamentals (l ++ m) == cost_at get_fundamentals l + cost_at get_fundamentals m.
Proof.
  induction l as [|r l IH]; simpl.
  - ring.
  - destruct (get_fundamentals (TradeRecommendation.symbol r)); rewrite IH; ring.
Qed.

Lemma deploy_cash_loop_budget (deployable : Q) (items : list (string * Q))
  (recommendations : list TradeRecommendation.t) :
  0 <= deployable ->
  Forall (fun item => 0 <= snd item) items ->
  exists new,
    Dalio.deploy_cash_loop get_fundamentals deployable recommendations items
    = Return (recommendations ++ new) /\
    cost_at get_fundamentals new <= deployable * total_weight items /\
    Forall (fun r => TradeRecommendation.action r = BUY /\ well_sized items r) new.
Proof.
  intros Hd Hw. revert recommendations.
  induction Hw as [|[symbol weight] items Hweight Hw IH]; intro recommendations.
  - exists []. simpl. rewrite app_nil_r. split; [reflexivity|]. split; [lra|constructor].
  - cbn [snd] in Hweight.
    assert (Hmono : forall new,
              Forall (fun r => TradeRecommendation.action r = BUY /\ well_sized items r) new ->
              Forall (fun r => TradeRecommendation.action r = BUY /\
                               well_sized ((symbol, weight) :: items) r) new).
    { intros new H. eapply Forall_impl; [|exact H].
      intros r (Ha & Hn & Hi & Hg). split; [exact Ha|]. split; [exact Hn|].
      split; [right; exact Hi|exact Hg]. }
    assert (Hrest : 0 <= deployable * weight) by (apply Qmult_le_0_compat; assumption).
    cbn [Dalio.deploy_cash_loop total_weight fold_right snd]. fold (total_weight items).
    destruct (get_fundamentals symbol) as [data|] eqn:D.
    + pose proof (prices_positive symbol data D) as Hp.
      rewrite py_div_defined by lra. cbn [bind].
      destruct (py_int_positive (deployable * weight / StockFundamentals.price data))
        as [Hb Heq].
      rewrite Hb.
      destruct (0 <? Qfloor (deployable * weight / StockFundamentals.price data))%Z eqn:P.
      * apply Z.ltb_lt in P. rewrite (Heq P).
        destruct (IH (recommendations ++
                      [TradeRecommendation.mk BUY symbol
                         (inject_Z (Qfloor (deployable * weight / StockFundamentals.price data)))
                         (InitialAllocationNote weight) (9 # 10)]))
          as (new & Hr & Hc & Hf).
        eexists (_ :: new). rewrite Hr, <- app_assoc. split; [reflexivity|]. split.
        -- cbn [cost_at fold_right TradeRecommendation.symbol TradeRecommendation.shares].
           rewrite D. fold (cost_at get_fundamentals new).
           pose proof (floor_times_le (deployable * weight) (StockFundamentals.price data) Hp).
           lra.
        -- constructor; [|apply Hmono; exact Hf].
           split; [reflexivity|]. split; [eexists; split; [exact P|reflexivity]|].
           split; [left; reflexivity|reflexivity].
      * destruct (IH recommendations) as (new & Hr & Hc & Hf).
        exists new. split; [exact Hr|]. split; [lra|apply Hmono; exact Hf].
    + destruct (IH recommendations) as (new & Hr & Hc & Hf).
      exists new. split; [exact Hr|]. split; [lra|apply Hmono; exact Hf].
Qed.

(** The deployment loop over the five target assets. *)
Lemma deploy_cash_budget (portfolio : Portfolio.t) :
  0 <= Portfolio.cash portfolio ->
  exists recs,
    Dalio._deploy_cash get_fundamentals portfolio = Return recs /\
    cost_at get_fundamentals recs <= (9 # 10) * Portfolio.cash portfolio /\
    (List.length recs <= 5)%nat /\
    Forall (fun r => TradeRecommendation.action r = BUY /\
                     TradeRecommendation.confidence r = 9 # 10 /\
                     well_sized Dalio.ALL_WEATHER_ALLOCATION r) recs.
Proof.
  intro Hcash. unfold Dalio._deploy_cash.
  assert (Hd : 0 <= Portfolio.cash portfolio * (9 # 10)) by lra.
  assert (Hw : Forall (fun item : string * Q => 0 <= snd item) Dalio.ALL_WEATHER_ALLOCATION).
  { repeat constructor; discriminate. }
  (* the loop adds at most one recommendation per asset, each at 0.9 *)
  assert (Hshape : forall items acc,
            exists new,
              Dalio.deploy_cash_loop get_fundamentals (Portfolio.cash portfolio * (9 # 10))
                acc items = Return (acc ++ new) /\
              (List.length new <= List.length items)%nat /\
              Forall (fun r => TradeRecommendation.confidence r = 9 # 10) new).
  { induction items as [|[symbol weight] items IH]; intro acc.
    - exists []. simpl. rewrite app_nil_r. split; [reflexivity|]. split; [lia|constructor].
    - cbn [Dalio.deploy_cash_loop].
      destruct (get_fundamentals symbol) as [data|] eqn:D.
      + rewrite py_div_defined
          by (pose proof (prices_positive symbol data D); lra).
        cbn [bind]. destruct (0 <? _)%Z.
        * destruct (IH (acc ++ [TradeRecommendation.mk BUY symbol
                                  (inject_Z (py_int (Portfolio.cash portfolio * (9 # 10) * weight
                                                     / StockFundamentals.price data)))
                                  (InitialAllocationNote weight) (9 # 10)]))
            as (new & Hr & Hl & Hf).
          eexists (_ :: new). rewrite Hr, <- app_assoc. split; [reflexivity|].
          split; [simpl; lia|]. constructor; [reflexivity|exact Hf].
        * destruct (IH acc) as (new & Hr & Hl & Hf). exists new.
          split; [exact Hr|]. split; [simpl; lia|exact Hf].
      + destruct (IH acc) as (new & Hr & Hl & Hf). exists new.
        split; [exact Hr|]. split; [simpl; lia|exact Hf]. }
  destruct (deploy_cash_loop_budget _ Dalio.ALL_WEATHER_ALLOCATION [] Hd Hw)
    as (new & Hr & Hc & Hf).
  destruct (Hshape Dalio.ALL_WEATHER_ALLOCATION []) as (new' & Hr' & Hl & Hconf).
  assert (new' = new) by (rewrite Hr in Hr'; simpl in Hr'; congruence). subst new'.
  exists new. split; [exact Hr|]. split.
  - assert (T : total_weight Dalio.ALL_WEATHER_ALLOCATION == 1) by reflexivity.
    rewrite T in Hc. lra.
  - split; [exact Hl|].
    rewrite Forall_forall in *. intros r Hin.
    destruct (Hf r Hin) as (Ha & Hs). split; [exact Ha|]. split; [apply Hconf; exact Hin|exact Hs].
Qed.


(** A sell is covered when the portfolio holds the shares it asks for. *)
Definition covered (portfolio : Portfolio.t) (r : TradeRecommendation.t) : Prop :=
  TradeRecommendation.action r = BUY \/
  (TradeRecommendation.action r = SELL /\
   TradeRecommendation.shares r
   <= held_shares (TradeRecommendation.symbol r) (Portfolio.positions portfolio)).

Lemma rebalance_asset_shape (portfolio : Portfolio.t) (allocation : list (string * Q))
  (total : Q) (recommendations : list TradeRecommendation.t) (symbol : string)
  (target_weight : Q) :
  exists new,
    Dalio.rebalance_asset get_fundamentals portfolio allocation total recommendations
      (symbol, target_weight) = Return (recommendations ++ new) /\
    (List.length new <= 1)%nat /\
    Forall (fun r => well_sized [(symbol, target_weight)] r /\ covered portfolio r) new.
Proof.
  assert (Hnone : exists new,
            Return recommendations = Return (recommendations ++ new) /\
            (List.length new <= 1)%nat /\
            Forall (fun r => well_sized [(symbol, target_weight)] r /\ covered portfolio r) new).
  { exists []. rewrite app_nil_r. split; [reflexivity|]. split; [simpl; lia|constructor]. }
  unfold Dalio.rebalance_asset.
  destruct (py_gt _ Dalio.REBALANCE_THRESHOLD); [|exact Hnone].
  destruct (get_fundamentals symbol) as [data|] eqn:D; [|exact Hnone].
  pose proof (prices_positive symbol data D) as Hp.
  destruct (py_lt _ target_weight).
  - rewrite py_div_defined by lra. cbn [bind].
    destruct (0 <? _)%Z eqn:P; cbn [andb]; [|exact Hnone].
    destruct (py_le _ _); [|exact Hnone].
    eexists [_]. split; [reflexivity|]. split; [simpl; lia|].
    constructor; [|constructor]. split; [|left; reflexivity].
    split; [eexists; split; [apply Z.ltb_lt; exact P|reflexivity]|].
    split; [left; reflexivity|reflexivity].
  - rewrite py_div_defined by lra. cbn [bind].
    destruct (0 <? _)%Z eqn:P; cbn [andb]; [|exact Hnone].
    destruct (find_position symbol (Portfolio.positions portfolio)) as [position|] eqn:F;
      [|exact Hnone].
    destruct (py_ge _ _) eqn:C; [|exact Hnone].
    apply py_ge_true in C.
    eexists [_]. split; [reflexivity|]. split; [simpl; lia|].
    constructor; [|constructor]. split.
    + split; [eexists; split; [apply Z.ltb_lt; exact P|reflexivity]|].
      split; [left; reflexivity|reflexivity].
    + right. split; [reflexivity|].
      unfold held_shares. cbn [TradeRecommendation.symbol TradeRecommendation.shares].
      rewrite F. exact C.
Qed.

Lemma well_sized_weaken (items more : list (string * Q)) (r : TradeRecommendation.t) :
  (forall s, In s (map fst items) -> In s (map fst more)) ->
  well_sized items r -> well_sized more r.
Proof.
  intros Hsub (Hn & Hi & Hg). split; [exact Hn|]. split; [apply Hsub; exact Hi|exact Hg].
Qed.

Lemma rebalance_shape (portfolio : Portfolio.t) (allocation : list (string * Q))
  (total : Q) (items : list (string * Q)) (recommendations : list TradeRecommendation.t) :
  exists new,
    Dalio.rebalance get_fundamentals portfolio allocation total recommendations items
    = Return (recommendations ++ new) /\
    (List.length new <= List.length items)%nat /\
    Forall (fun r => well_sized items r /\ covered portfolio r) new.
Proof.
  revert recommendations. induction items as [|[symbol weight] items IH]; intro recommendations.
  - exists []. simpl. rewrite app_nil_r. split; [reflexivity|]. split; [lia|constructor].
  - cbn [Dalio.rebalance].
    destruct (rebalance_asset_shape portfolio allocation total recommendations symbol weight)
      as (one & Hr & Hl & Hf).
    rewrite Hr. cbn [bind].
    destruct (IH (recommendations ++ one)) as (new & Hr' & Hl' & Hf').
    exists (one ++ new). rewrite Hr', <- app_assoc. split; [reflexivity|].
    split; [rewrite length_app; simpl; lia|].
    apply Forall_app. split.
    + eapply Forall_impl; [|exact Hf]. intros r (Hs & Hc). split; [|exact Hc].
      apply (well_sized_weaken [(symbol, weight)]); [|exact Hs].
      intros s [<-|[]]. left. reflexivity.
    + eapply Forall_impl; [|exact Hf']. intros r (Hs & Hc). split; [|exact Hc].
      apply (well_sized_weaken items); [|exact Hs].
      intros s Hin. right. exact Hin.
Qed.

(** The shape of what the allocator returns. *)
Lemma allocator_shape (portfolio : Portfolio.t) :
  0 <= Portfolio.cash portfolio ->
  exists recs,
    Dalio.generate_recommendations get_fundamentals portfolio = Return recs /\
    (List.length recs <= 10)%nat /\
    Forall (fun r => well_sized Dalio.ALL_WEATHER_ALLOCATION r /\ covered portfolio r) recs.
Proof.
  intro Hcash. unfold Dalio.generate_recommendations.
  destruct (rebalance_shape portfolio (Dalio._calculate_current_allocation portfolio)
              (Portfolio.total_value portfolio) Dalio.ALL_WEATHER_ALLOCATION [])
    as (new & Hr & Hl & Hf).
  rewrite Hr. cbn [bind app]. cbn [Dalio.ALL_WEATHER_ALLOCATION List.length] in Hl.
  destruct (py_gt _ _).
  - destruct (deploy_cash_budget portfolio Hcash) as (buys & Hd & _ & Hn & Hb).
    rewrite Hd. cbn [bind]. exists (new ++ buys). split; [reflexivity|].
    split; [rewrite length_app; lia|].
    apply Forall_app. split; [exact Hf|].
    eapply Forall_impl; [|exact Hb]. intros r (Ha & _ & Hs).
    split; [exact Hs|left; exact Ha].
  - exists new. split; [reflexivity|]. split; [lia|exact Hf].
Qed.

(** X8. At positive prices and with cash that is not negative the allocator
    returns, with at most ten recommendations.  Each is for a whole positive
    number of shares of one of the five target assets, at a confidence that
    passes the gate of the run, and each sell is for no more shares than the
    portfolio holds of the asset. *)
Theorem allocator_recommendations_are_executable (portfolio : Portfolio.t) :
  0 <= Portfolio.cash portfolio ->
  exists recs,
    Dalio.generate_recommendations get_fundamentals portfolio = Return recs /\
    (List.length recs <= 10)%nat /\
    Forall (fun r => well_sized Dalio.ALL_WEATHER_ALLOCATION r /\ covered portfolio r) recs.
Proof.
  intro Hcash. apply allocator_shape. exact Hcash.
Qed.


End DalioDeployment.



(** * Further properties of the deep-value screener *)

Lemma intrinsic_value_formula (data : StockFundamentals.t) (pe_ratio : Q) :
  StockFundamentals.pe_ratio data = Some pe_ratio ->
  0 < pe_ratio ->
  ~ StockFundamentals.price data == 0 ->
  growth_not_zero data ->
  Graham._calculate_intrinsic_value data
  == graham_formula (StockFundamentals.price data) pe_ratio (growth_in_percent data).
Proof.
  intros Hpe Hpos Hprice Hgrowth.
  assert (Hp : Qeq_bool (StockFundamentals.price data) 0 = false)
    by (apply Qeq_bool_false; exact Hprice).
  assert (Hz : Qeq_bool pe_ratio 0 = false) by (apply Qeq_bool_false; lra).
  assert (Hle : py_le pe_ratio 0 = false) by (apply py_le_false; exact Hpos).
  unfold Graham._calculate_intrinsic_value, graham_formula, growth_in_percent,
    Graham.truthy.
  rewrite Hpe, Hp, Hz, Hle. cbn [negb orb].
  destruct (StockFundamentals.earnings_growth data) as [g|] eqn:G.
  - assert (Hg : Qeq_bool g 0 = false) by (apply Qeq_bool_false; exact (Hgrowth g G)).
    rewrite Hg. cbn [negb]. rewrite py_min_Qmin, py_max_Qmax. apply Qeq_refl.
  - rewrite (Q.max_r 0 5), (Q.min_r 15 5) by lra. apply Qeq_refl.
Qed.

(** X10. In exact arithmetic the margin of safety of a stock against its
    own intrinsic value does not depend on its price: at a positive price and
    a positive P/E, and away from an earnings growth of exactly zero, it is
    [max(0, 1 - P/E / (8.5 + 2 * g))], with [g] the growth in percent (5
    when the fundamentals carry none), kept in [0, 15].  It is at least 0 and
    less than 1, and it is above the buying threshold of 25 percent exactly
    when the P/E is below three quarters of [8.5 + 2 * g].  On doubles the
    quotient is rounded, which the statement leaves aside. *)
Theorem margin_of_safety_is_price_free (data : StockFundamentals.t) (pe_ratio : Q) :
  StockFundamentals.pe_ratio data = Some pe_ratio ->
  0 < pe_ratio ->
  0 < StockFundamentals.price data ->
  growth_not_zero data ->
  let multiple := (85 # 10) + 2 * Qmin 15 (Qmax 0 (growth_in_percent data)) in
  let margin :=
    Graham._calculate_margin_of_safety data (Graham._calculate_intrinsic_value data) in
  margin == Qmax 0 (1 - pe_ratio / multiple) /\
  0 <= margin /\ margin < 1 /\
  (25 # 100 < margin <-> pe_ratio < (75 # 100) * multiple).
Proof.
  intros Hpe Hpos Hprice Hgrowth multiple margin.
  pose proof (intrinsic_value_formula data pe_ratio Hpe Hpos) as Hiv.
  specialize (Hiv ltac:(lra) Hgrowth). unfold graham_formula in Hiv. fold multiple in Hiv.
  set (price := StockFundamentals.price data) in *.
  set (iv := Graham._calculate_intrinsic_value data) in *.
  assert (Hm : 17 # 2 <= multiple).
  { unfold multiple.
    pose proof (Q.le_max_l 0 (growth_in_percent data)) as H0.
    assert (H1 : 0 <= Qmin 15 (Qmax 0 (growth_in_percent data))) by (apply Q.min_glb; lra).
    lra. }
  assert (Heps : 0 < price / pe_ratio) by (apply Qlt_shift_div_l; lra).
  assert (Hivpos : 0 < iv) by (rewrite Hiv; apply Qmult_lt_0_compat; lra).
  assert (Hraw : (iv - price) / iv == 1 - pe_ratio / multiple).
  { rewrite Hiv. field. split; lra. }
  assert (Hmargin : margin == Qmax 0 (1 - pe_ratio / multiple)).
  { unfold margin, Graham._calculate_margin_of_safety, Graham.truthy. fold price.
    assert (E1 : py_le iv 0 = false) by (apply py_le_false; exact Hivpos).
    assert (E2 : Qeq_bool price 0 = false) by (apply Qeq_bool_false; lra).
    rewrite E1, E2. cbn [negb orb]. rewrite py_max_Qmax.
    apply Q.max_compat; [apply Qeq_refl|exact Hraw]. }
  assert (Hratio : 0 < pe_ratio / multiple) by (apply Qlt_shift_div_l; lra).
  split; [exact Hmargin|]. rewrite Hmargin.
  split; [apply Q.le_max_l|]. split.
  - apply Q.max_lub_lt; lra.
  - rewrite Q.max_lt_iff. split.
    + intros [H|H]; [lra|].
      assert (H' : pe_ratio / multiple < 75 # 100) by lra.
      assert (E : pe_ratio == pe_ratio / multiple * multiple) by (field; lra).
      rewrite E. apply Qmult_lt_compat_r; lra.
    + intro H. right.
      assert (H' : pe_ratio / multiple < 75 # 100) by (apply Qlt_shift_div_r; lra).
      lra.
Qed.

(** On doubles the margin moves with the price.  At a P/E of 13.875, three
    quarters of the multiple 18.5 of a growth of 5 percent, the margin is a
    quarter in exact arithmetic, whatever the price; on doubles it comes out
    as 0.24999999999999994 at a price of 1.00 and as 0.25000000000000006 at
    1.03, below the threshold of 0.25 of the screener and above it. *)
Example margin_of_safety_on_doubles :
  let exact price :=
    let data := fundamentals "XYZ" price (13875 # 1000) (Some (5 # 100)) in
    Graham._calculate_margin_of_safety data (Graham._calculate_intrinsic_value data) in
  let margin price :=
    let data :=
      Binary64.StockFundamentals.mk "XYZ" price (Some 13.875%float) (Some 0.05%float) in
    Binary64.Graham._calculate_margin_of_safety data
      (Binary64.Graham._calculate_intrinsic_value data) in
  exact 1 == 25 # 100 /\
  exact (103 # 100) == 25 # 100 /\
  margin 1%float = 0.24999999999999994%float /\
  margin 1.03%float = 0.25000000000000006%float /\
  Binary64.py_gt (margin 1%float) 0.25%float = false /\
  Binary64.py_gt (margin 1.03%float) 0.25%float = true.
Proof.
  split; [vm_compute; reflexivity|]. split; [vm_compute; reflexivity|].
  split; [vm_compute; reflexivity|]. split; [vm_compute; reflexivity|].
  split; vm_compute; reflexivity.
Qed.

(** X11. With total value and cash that are not negative, and in exact
    arithmetic, the position size of the screener is a number of shares that
    is not negative; at a positive price it is the floor of the smaller of 5
    percent of the total value and 80 percent of the cash over the price, and
    costs no more than either; at a price that is zero or negative it is
    0. *)
Theorem position_size_within_limits (portfolio : Portfolio.t) (data : StockFundamentals.t) :
  0 <= Portfolio.cash portfolio ->
  0 <= Portfolio.total_value portfolio ->
  let size := Graham._calculate_position_size portfolio data in
  let price := StockFundamentals.price data in
  (0 <= size)%Z /\
  (price <= 0 -> size = 0%Z) /\
  (0 < price ->
   inject_Z size * price <= (5 # 100) * Portfolio.total_value portfolio /\
   inject_Z size * price <= (8 # 10) * Portfolio.cash portfolio /\
   size = Qfloor (Qmin ((5 # 100) * Portfolio.total_value portfolio)
                       ((8 # 10) * Portfolio.cash portfolio) / price)).
Proof.
  intros Hcash Htotal size price. unfold size, Graham._calculate_position_size, Graham.truthy.
  fold price. unfold Graham.MAX_POSITION_PCT.
  set (value := py_min (Portfolio.total_value portfolio * (5 # 100))
                       (Portfolio.cash portfolio * (8 # 10))).
  assert (Hv : value == Qmin ((5 # 100) * Portfolio.total_value portfolio)
                             ((8 # 10) * Portfolio.cash portfolio)).
  { unfold value. rewrite py_min_Qmin. apply Q.min_compat; ring. }
  assert (Hv0 : 0 <= value) by (rewrite Hv; apply Q.min_glb; lra).
  destruct (Qlt_le_dec 0 price) as [Hp|Hp].
  - assert (E1 : Qeq_bool price 0 = false) by (apply Qeq_bool_false; lra).
    assert (E2 : py_gt price 0 = true) by (apply py_gt_true; exact Hp).
    rewrite E1, E2. cbn [negb andb].
    assert (Hq : 0 <= value / price) by (apply Qle_shift_div_l; lra).
    rewrite py_int_floor by exact Hq.
    split; [apply Qfloor_nonneg; exact Hq|]. split; [intro; lra|]. intros _.
    pose proof (floor_times_le value price Hp) as Hle.
    pose proof (Q.le_min_l ((5 # 100) * Portfolio.total_value portfolio)
                           ((8 # 10) * Portfolio.cash portfolio)).
    pose proof (Q.le_min_r ((5 # 100) * Portfolio.total_value portfolio)
                           ((8 # 10) * Portfolio.cash portfolio)).
    split; [lra|]. split; [lra|].
    apply Qfloor_comp. rewrite Hv. apply Qeq_refl.
  - assert (E2 : py_gt price 0 = false) by (apply py_gt_false; exact Hp).
    rewrite E2, andb_false_r.
    split; [lia|]. split; [reflexivity|intro; lra].
Qed.

(** * Cost basis *)

Section CostBasis.

Variable agent_type : AgentType.
Variable get_fundamentals : string -> option StockFundamentals.t.

Local Abbreviation execute := (_execute_trade agent_type get_fundamentals).


End CostBasis.


(** * A cycle of the risk-parity allocator *)

(** X15. A run cycle of the risk-parity allocator completes: at positive
    prices, on stored portfolios that satisfy the invariant and with a
    starting cash that is not negative, the run returns, no call of the
    engine raising, with at most ten recommendations and at most ten
    executed trades. *)
Theorem allocator_cycle_completes
  (get_fundamentals : string -> option StockFundamentals.t)
  (starting_portfolio_value : Q) (analyze_market : string) (w : World) (user_id : string) :
  (forall s data, get_fundamentals s = Some data -> 0 < StockFundamentals.price data) ->
  (forall p, In p (db_portfolios w) -> portfolio_invariant p) ->
  0 <= starting_portfolio_value ->
  exists r,
    fst (run DALIO get_fundamentals starting_portfolio_value analyze_market
             (Dalio.generate_recommendations get_fundamentals) w user_id) = Return r /\
    (List.length (AgentRun.recommendations r) <= 10)%nat /\
    (List.length (AgentRun.executed_trades r) <= 10)%nat.
Proof.
  intros Hprice Hdb Hstart. unfold run. cbn [utcnow].
  pose proof (load_portfolio_invariant DALIO starting_portfolio_value
                (mkWorld (db_portfolios w) (db_transactions w) (db_runs w) (S (clock w))
                         (uuid_next w) (engine_calls w)) user_id Hdb Hstart) as Hinv.
  destruct (load_portfolio DALIO starting_portfolio_value _ user_id) as [p0 w1].
  cbn [fst] in Hinv.
  apply (update_prices_invariant get_fundamentals) in Hinv.
  set (p1 := _update_portfolio_prices get_fundamentals p0) in *.
  destruct (allocator_shape get_fundamentals Hprice p1 (proj1 Hinv)) as (recs & Hgen & Hlen & Hf).
  rewrite Hgen.
  assert (Hshares : Forall (fun r => 0 < TradeRecommendation.shares r) recs).
  { eapply Forall_impl; [|exact Hf]. intros r (((n & Hn & Hs) & _) & _).
    rewrite Hs. change 0 with (inject_Z 0). rewrite <- Zlt_Qlt. exact Hn. }
  assert (Hnonneg : forall s data, get_fundamentals s = Some data ->
                                   0 <= StockFundamentals.price data).
  { intros s data H. apply Qlt_le_weak. exact (Hprice s data H). }
  destruct (loop_returns DALIO get_fundamentals recs w1 p1 [] Hinv Hshares Hnonneg)
    as ((done & Hdone) & _).
  destruct (loop_ledger DALIO get_fundamentals recs w1 p1 []) as (txns & _ & Ht & Hids).
  pose proof (loop_recommendations_kept DALIO get_fundamentals recs w1 p1 [] done Hdone)
    as Hkept.
  rewrite Hdone. cbn [fst utcnow uuid4 save_agent_run save_portfolio].
  eexists. split; [reflexivity|].
  cbn [AgentRun.recommendations AgentRun.executed_trades].
  rewrite length_map, <- (Forall2_length Hkept).
  split; [exact Hlen|].
  rewrite (Hids done Hdone). cbn [app]. rewrite length_map.
  pose proof (filter_length_le passes_gate recs). lia.
Qed.

(** ** Concrete cases *)

Lemma quote_price_positive (symbol : string) (price : Q) :
  0 < price ->
  forall s data, quote symbol price s = Some data -> 0 < StockFundamentals.price data.
Proof.
  intros Hp s data. unfold quote. destruct (String.eqb s symbol); [|discriminate].
  intro H. injection H as <-. exact Hp.
Defined.


Lemma allocator_recommendations_are_executable_witness :
  exists recs,
    Dalio.generate_recommendations (quote "VTI" 100) overweight_portfolio = Return recs /\
    (List.length recs <= 10)%nat.
Proof.
  destruct (allocator_recommendations_are_executable (quote "VTI" 100)
              (quote_price_positive "VTI" 100 eq_refl) overweight_portfolio
              ltac:(discriminate)) as (recs & H1 & H2 & _).
  exists recs. split; [exact H1|exact H2].
Defined.

(** The example of the specification: a P/E of 10 at a growth of 5 percent. *)
Lemma margin_of_safety_is_price_free_witness :
  let data := fundamentals "XYZ" 50 10 (Some (5 # 100)) in
  Graham._calculate_margin_of_safety data (Graham._calculate_intrinsic_value data)
  == Qmax 0 (1 - 10 / ((85 # 10) + 2 * Qmin 15 (Qmax 0 (growth_in_percent data)))).
Proof.
  intro data.
  exact (proj1 (margin_of_safety_is_price_free (fundamentals "XYZ" 50 10 (Some (5 # 100))) 10
                  eq_refl eq_refl eq_refl
                  ltac:(intros g H; injection H as <-; discriminate))).
Defined.

(** 100000 in cash and a price of 250: 5 percent of the value buys 20. *)
Lemma position_size_within_limits_witness :
  let portfolio := portfolio_of 100000 [] in
  let data := fundamentals "XYZ" 250 10 None in
  (0 <= Graham._calculate_position_size portfolio data)%Z /\
  (0 < 250 ->
   inject_Z (Graham._calculate_position_size portfolio data) * 250
   <= (5 # 100) * Portfolio.total_value portfolio).
Proof.
  intros portfolio data.
  destruct (position_size_within_limits (portfolio_of 100000 [])
              (fundamentals "XYZ" 250 10 None) ltac:(discriminate) ltac:(discriminate))
    as (H1 & _ & H3).
  split; [exact H1|]. intro Hp. exact (proj1 (H3 Hp)).
Defined.

Lemma run_stores_the_portfolio_witness :
  let out := run BUFFETT (quote "AAPL" 175) 100000 "Market looks good" two_ideas
                 empty_world "test-user" in
  exists r stored,
    fst out = Return r /\
    get_portfolio (snd out) "test-user" BUFFETT = Some stored /\
    Portfolio.total_value stored = AgentRun.portfolio_value_after r.
Proof.
  intro out. eexists.
  assert (H : fst out = Return _) by (vm_compute; reflexivity).
  destruct (run_stores_the_portfolio BUFFETT (quote "AAPL" 175) 100000 "Market looks good"
              two_ideas empty_world "test-user" _ H) as (stored & Hs).
  exists stored. split; [exact H|exact Hs].
Defined.

Lemma first_run_starts_from_configured_cash_witness :
  let out := run BUFFETT (quote "AAPL" 175) 100000 "Market looks good" two_ideas
                 empty_world "test-user" in
  exists r,
    fst out = Return r /\
    AgentRun.portfolio_value_before r == 100000 /\
    AgentRun.portfolio_value_after r == 100000.
Proof.
  intro out. eexists.
  assert (H : fst out = Return _) by (vm_compute; reflexivity).
  split; [exact H|].
  exact (first_run_starts_from_configured_cash BUFFETT (quote "AAPL" 175) 100000
           "Market looks good" two_ideas empty_world "test-user" _ eq_refl H).
Defined.

Lemma allocator_cycle_completes_witness :
  exists r,
    fst (run DALIO (quote "VTI" 100) 100000 "Balanced"
             (Dalio.generate_recommendations (quote "VTI" 100)) empty_world "test-user")
    = Return r /\
    (List.length (AgentRun.recommendations r) <= 10)%nat /\
    (List.length (AgentRun.executed_trades r) <= 10)%nat.
Proof.
  exact (allocator_cycle_completes (quote "VTI" 100) 100000 "Balanced" empty_world "test-user"
           (quote_price_positive "VTI" 100 eq_refl)
           (fun p (F : In p []) => match F with end)
           ltac:(discriminate)).
Defined.

(** X16. A stock passes the screen exactly when all four ratios are present
    with [0 < P/E <= 15], [P/B <= 1.5], [current ratio >= 2] and
    [debt to equity <= 50], the bounds included; a missing ratio fails it.
    So a stock that passes never has a P/E above 20: for a holding that
    still passes the screen the sale on an expanded P/E cannot come. *)
Theorem screen_passes_exactly (data : StockFundamentals.t) :
  (Graham._passes_graham_screen data = true <->
   exists pe pb cr de,
     StockFundamentals.pe_ratio data = Some pe /\
     StockFundamentals.pb_ratio data = Some pb /\
     StockFundamentals.current_ratio data = Some cr /\
     StockFundamentals.debt_to_equity data = Some de /\
     0 < pe /\ pe <= 15 /\ pb <= 15 # 10 /\ 2 <= cr /\ de <= 50) /\
  (Graham._passes_graham_screen data = true ->
   forall pe, StockFundamentals.pe_ratio data = Some pe -> py_gt pe 20 = false).
Proof.
  assert (Hiff : Graham._passes_graham_screen data = true <->
                 exists pe pb cr de,
                   StockFundamentals.pe_ratio data = Some pe /\
                   StockFundamentals.pb_ratio data = Some pb /\
                   StockFundamentals.current_ratio data = Some cr /\
                   StockFundamentals.debt_to_equity data = Some de /\
                   0 < pe /\ pe <= 15 /\ pb <= 15 # 10 /\ 2 <= cr /\ de <= 50).
  { unfold Graham._passes_graham_screen, Graham.MAX_PE, Graham.MAX_PB,
      Graham.MIN_CURRENT_RATIO, Graham.MAX_DEBT_EQUITY.
    split.
    - destruct (StockFundamentals.pe_ratio data) as [pe|]; [|discriminate].
      destruct (py_gt pe 15) eqn:E1; [discriminate|].
      destruct (py_le pe 0) eqn:E2; [discriminate|].
      destruct (StockFundamentals.pb_ratio data) as [pb|]; [|discriminate].
      destruct (py_gt pb (15 # 10)) eqn:E3; [discriminate|].
      destruct (StockFundamentals.current_ratio data) as [cr|]; [|discriminate].
      destruct (py_lt cr 2) eqn:E4; [discriminate|].
      destruct (StockFundamentals.debt_to_equity data) as [de|]; [|discriminate].
      destruct (py_gt de 50) eqn:E5; [discriminate|]. intros _.
      apply py_gt_false in E1, E3, E5. apply py_le_false in E2. apply py_lt_false in E4.
      exists pe, pb, cr, de. repeat split; assumption.
    - intros (pe & pb & cr & de & -> & -> & -> & -> & H1 & H2 & H3 & H4 & H5).
      assert (E1 : py_gt pe 15 = false) by (now apply py_gt_false).
      assert (E2 : py_le pe 0 = false) by (now apply py_le_false).
      assert (E3 : py_gt pb (15 # 10) = false) by (now apply py_gt_false).
      assert (E4 : py_lt cr 2 = false) by (now apply py_lt_false).
      assert (E5 : py_gt de 50 = false) by (now apply py_gt_false).
      now rewrite E1, E2, E3, E4, E5. }
  split; [exact Hiff|].
  intros Hpass pe Hpe. apply Hiff in Hpass.
  destruct Hpass as (pe' & _ & _ & _ & Hpe' & _ & _ & _ & _ & Hle & _).
  rewrite Hpe in Hpe'. injection Hpe' as <-. apply py_gt_false. lra.
Qed.
